(** * Notion to Google Calendar synchronisation: a shallow embedding

    The development follows [src/notion2gcalendar.py].  Python values
    decoded from JSON are kept dynamically typed (type [json]), the
    dictionaries built by the parsers are finite maps, exceptions are an
    error monad, and the calendar service is a port whose calls are logged
    in the state. *)

From Stdlib Require Import ZArith Ascii.
From stdpp Require Import base option list strings gmap sets.

#[local] Set Warnings "-clear-no-such-hyp".

Local Open Scope Z_scope.
Local Open Scope stdpp_scope.

(** ** Exceptions *)

(** The exception classes the embedded code can raise. *)
Inductive exn : Type :=
  | KeyError
  | TypeError
  | IndexError
  | AttributeError
  | ValueError
  | OverflowError.

Inductive result (A : Type) : Type :=
  | Ok (a : A)
  | Raise (e : exn).
Arguments Ok {A} a.
Arguments Raise {A} e.

Definition result_bind {A B} (f : A → result B) (m : result A) : result B :=
  match m with
  | Ok a => f a
  | Raise e => Raise e
  end.

#[global] Instance result_ret : MRet result := fun A a => Ok a.
#[global] Instance result_mbind : MBind result := fun A B f m => result_bind f m.

Definition is_ok {A} (m : result A) : bool :=
  match m with Ok _ => true | Raise _ => false end.

(** [mapM] for [result], evaluated left to right as a list comprehension. *)
Fixpoint result_mapM {A B} (f : A → result B) (l : list A) : result (list B) :=
  match l with
  | [] => Ok []
  | a :: l' => b ← f a; bs ← result_mapM f l'; Ok (b :: bs)
  end.

(** ** Python strings

    A [str] is a sequence of characters; the embedding keeps the code
    points below 256.  Only the methods the program calls are modelled. *)

Definition LF : ascii := "010"%char.
Definition nl : string := String LF "".

(** [str.isspace] on one character: TAB, LF, VT, FF, CR, FS, GS, RS, US,
    SPACE, NEL and NBSP. *)
Definition is_space (c : ascii) : bool :=
  let n := N_of_ascii c in
  ((9 <=? n) && (n <=? 13) || (28 <=? n) && (n <=? 32)
   || (n =? 133) || (n =? 160))%N.

Fixpoint lstrip (s : string) : string :=
  match s with
  | "" => ""
  | String c s' => if is_space c then lstrip s' else s
  end.

Fixpoint rstrip (s : string) : string :=
  match s with
  | "" => ""
  | String c s' =>
      match rstrip s' with
      | "" => if is_space c then "" else String c ""
      | r => String c r
      end
  end.

(** [s.strip()] *)
Definition strip (s : string) : string := lstrip (rstrip s).

(** [s.split(sep)] for a separator of one character: every occurrence
    splits, empty pieces are kept, and the result is never empty. *)
Fixpoint py_split (sep : ascii) (s : string) : list string :=
  match s with
  | "" => [""]
  | String c s' =>
      if decide (c = sep) then "" :: py_split sep s'
      else match py_split sep s' with
           | [] => [String c ""]
           | piece :: rest => String c piece :: rest
           end
  end.

(** [sep.join(l)] *)
Fixpoint py_join (sep : string) (l : list string) : string :=
  match l with
  | [] => ""
  | [s] => s
  | s :: l' => s +:+ sep +:+ py_join sep l'
  end.

(** [l[i]] for [i >= 0] *)
Definition index {A} (l : list A) (i : nat) : result A :=
  match l !! i with
  | Some a => Ok a
  | None => Raise IndexError
  end.

(** [l[-k]] for [k >= 1] *)
Definition index_neg {A} (l : list A) (k : nat) : result A :=
  if decide (k ≤ length l)%nat then index l (length l - k) else Raise IndexError.

(** ** JSON values as Python objects *)

(** What [json.loads] and the Google client return.  Numbers are kept as
    integers: no path of the program reads a number.  An object is the
    list of its bindings, read by its first binding for a key. *)
#[warnings="-register-all"]
Inductive json : Type :=
  | JNull
  | JBool (b : bool)
  | JNum (n : Z)
  | JStr (s : string)
  | JArr (l : list json)
  | JObj (kv : list (string * json)).

Fixpoint assoc {A} (k : string) (kv : list (string * A)) : option A :=
  match kv with
  | [] => None
  | (k', v) :: kv' => if decide (k' = k) then Some v else assoc k kv'
  end.

(** [v[k]] for a [str] key *)
Definition getitem (v : json) (k : string) : result json :=
  match v with
  | JObj kv => match assoc k kv with Some x => Ok x | None => Raise KeyError end
  | _ => Raise TypeError
  end.

(** [v[i]] for an [int] index [i >= 0] *)
Definition getindex (v : json) (i : nat) : result json :=
  match v with
  | JArr l => index l i
  | JStr s =>
      match String.get i s with
      | Some c => Ok (JStr (String c ""))
      | None => Raise IndexError
      end
  | JObj _ => Raise KeyError
  | _ => Raise TypeError
  end.

(** [v[k1][k2]...] *)
Fixpoint getpath (v : json) (ks : list string) : result json :=
  match ks with
  | [] => Ok v
  | k :: ks' => x ← getitem v k; getpath x ks'
  end.

(** Truth value of an object, as tested by [if v:]. *)
Definition truthy (v : json) : bool :=
  match v with
  | JNull => false
  | JBool b => b
  | JNum n => negb (n =? 0)
  | JStr s => negb (String.eqb s "")
  | JArr l => negb (Nat.eqb (length l) 0)
  | JObj kv => negb (Nat.eqb (length kv) 0)
  end.

(** [len(v)] *)
Definition py_len (v : json) : result nat :=
  match v with
  | JStr s => Ok (String.length s)
  | JArr l => Ok (length l)
  | JObj kv => Ok (length kv)
  | _ => Raise TypeError
  end.

(** [v.split(sep)], [v.strip()]: methods of [str] only. *)
Definition split_method (v : json) (sep : ascii) : result (list string) :=
  match v with
  | JStr s => Ok (py_split sep s)
  | _ => Raise AttributeError
  end.

Definition strip_method (v : json) : result string :=
  match v with
  | JStr s => Ok (strip s)
  | _ => Raise AttributeError
  end.

(** ['literal' + v]: concatenation to a [str] needs a [str]. *)
Definition as_str (v : json) : result string :=
  match v with
  | JStr s => Ok s
  | _ => Raise TypeError
  end.

(** [for a in v]: the items a loop or comprehension visits. *)
Definition py_iter (v : json) : result (list json) :=
  match v with
  | JArr l => Ok l
  | JStr s => Ok ((fun c => JStr (String c "")) <$> String.list_ascii_of_string s)
  | JObj kv => Ok ((fun p => JStr p.1) <$> kv)
  | _ => Raise TypeError
  end.

(** [x == y].  [True == 1] and [False == 0]; objects compare by their
    bindings whatever the order. *)
Fixpoint py_eq (x y : json) : bool :=
  match x, y with
  | JNull, JNull => true
  | JBool a, JBool b => Bool.eqb a b
  | JBool a, JNum n | JNum n, JBool a => n =? (if a then 1 else 0)
  | JNum a, JNum b => a =? b
  | JStr a, JStr b => String.eqb a b
  | JArr a, JArr b =>
      (fix go (a b : list json) : bool :=
         match a, b with
         | [], [] => true
         | x :: a', y :: b' => py_eq x y && go a' b'
         | _, _ => false
         end) a b
  | JObj a, JObj b =>
      Nat.eqb (length a) (length b)
      && (fix all (a : list (string * json)) : bool :=
            match a with
            | [] => true
            | (k, v) :: a' =>
                match assoc k b with
                | Some v' => py_eq v v'
                | None => false
                end && all a'
            end) a
  | _, _ => false
  end.

(** Keys of a [dict] or members of a [set]: the hashable objects.
    [True] and [1] are the same key. *)
Inductive pykey : Type :=
  | KNone
  | KInt (n : Z)
  | KStr (s : string).

#[global] Instance pykey_eq_dec : EqDecision pykey.
Proof. solve_decision. Defined.

#[global] Instance pykey_countable : Countable pykey.
Proof.
  refine (inj_countable'
            (fun k => match k with
                      | KNone => inl ()
                      | KInt n => inr (inl n)
                      | KStr s => inr (inr s)
                      end)
            (fun x => match x with
                      | inl _ => KNone
                      | inr (inl n) => KInt n
                      | inr (inr s) => KStr s
                      end) _).
  intros []; reflexivity.
Defined.

(** [hash(v)] succeeds: lists and dicts are unhashable. *)
Definition key_of (v : json) : result pykey :=
  match v with
  | JNull => Ok KNone
  | JBool b => Ok (KInt (if b then 1 else 0))
  | JNum n => Ok (KInt n)
  | JStr s => Ok (KStr s)
  | JArr _ | JObj _ => Raise TypeError
  end.

(** A [dict] with [str] keys built by the program. *)
Abbreviation pydict := (gmap string json).

(** [d[k]] on such a dict *)
Definition dict_get (d : pydict) (k : string) : result json :=
  match d !! k with
  | Some v => Ok v
  | None => Raise KeyError
  end.

(** ** Event Record Parser: [parse_events] *)

(** [line.split(":")[1].strip()] *)
Definition labeled_value (line : string) : result string :=
  piece ← index (py_split ":" line) 1;
  Ok (strip piece).

(** The body of the [try] block for one raw event, up to and including
    the key under which [tmp] is stored. *)
Definition parse_event (elem : json) : result (pykey * pydict) :=
  let tmp : pydict := ∅ in
  event_id ← getitem elem "id";
  let tmp := <["event_id" := event_id]> tmp in
  summary ← getitem elem "summary";
  let tmp := <["subject" := summary]> tmp in
  body ← getitem elem "description";
  stripped ← strip_method body;
  let description := py_split LF stripped in
  v ← index description 0 ≫= labeled_value;
  let tmp := <["description" := JStr v]> tmp in
  v ← index description 1 ≫= labeled_value;
  let tmp := <["notes" := JStr v]> tmp in
  v ← index description 2 ≫= labeled_value;
  let tmp := <["category" := JStr v]> tmp in
  v ← index description 3 ≫= labeled_value;
  let tmp := <["assignment_date" := JStr v]> tmp in
  dueDate ← (e ← getitem elem "end"; dt ← getitem e "dateTime"; split_method dt "T");
  v ← index dueDate 0;
  let tmp := <["due_date" := JStr v]> tmp in
  v ← index dueDate 1;
  let tmp := <["due_hour" := JStr v]> tmp in
  v ← index_neg description 2;
  let tmp := <["last_edited_time" := JStr (strip v)]> tmp in
  v ← index_neg description 1;
  let tmp := <["task_id" := JStr (strip v)]> tmp in
  k ← dict_get tmp "task_id" ≫= key_of;
  Ok (k, tmp).

(** One iteration of the loop: store under the decoded key, or append
    [[elem, error]] to [err]. *)
Definition parse_events_step (acc : gmap pykey pydict * list (json * exn))
    (elem : json) : gmap pykey pydict * list (json * exn) :=
  let '(parsed_events, err) := acc in
  match parse_event elem with
  | Ok (k, tmp) => (<[k := tmp]> parsed_events, err)
  | Raise error => (parsed_events, err ++ [(elem, error)])
  end.

Definition parse_events (events : list json)
    : gmap pykey pydict * list (json * exn) :=
  foldl parse_events_step (∅, []) events.

(** ** Task Record Parser: [parse_tasks_in_database] *)

(** [elem['properties']['Status']['select']['name']] *)
Definition package_status (elem : json) : result json :=
  getpath elem ["properties"; "Status"; "select"; "name"].

(** [package_status not in ['Completed', 'Closed', 'Failed']] *)
Definition status_is_open (status : json) : bool :=
  negb (existsb (py_eq status) [JStr "Completed"; JStr "Closed"; JStr "Failed"]).

(** [v != type(None)]: no decoded value is the class [NoneType], so the
    comparison holds whatever [v] is. *)
Definition differs_from_NoneType (v : json) : bool := true.

(** [type(v) != type(None)] *)
Definition is_not_None (v : json) : bool :=
  match v with JNull => false | _ => true end.

(** The first rich-text fragment, or the placeholder: the pattern of the
    title, description and notes fields. *)
Definition first_plain_text (field : json) (placeholder : string) : result json :=
  if truthy field then
    first ← getindex field 0;
    getitem first "plain_text"
  else Ok (JStr placeholder).

(** The body of the inner [try] block for one open record. *)
Definition parse_task (elem : json) : result (pykey * pydict) :=
  let tmp : pydict := ∅ in
  id ← getitem elem "id";
  let tmp := <["task_id" := id]> tmp in
  title ← getpath elem ["properties"; "Name"; "title"];
  v ← first_plain_text title "Title is not specified!";
  let tmp := <["name" := v]> tmp in
  rich ← getpath elem ["properties"; "Description"; "rich_text"];
  v ← first_plain_text rich "Description is empty!";
  let tmp := <["description" := v]> tmp in
  rich ← getpath elem ["properties"; "Notes"; "rich_text"];
  v ← first_plain_text rich "Notes are empty!";
  let tmp := <["notes" := v]> tmp in
  tags ← getpath elem ["properties"; "Category"; "multi_select"];
  n ← py_len tags;
  category ←
    (if decide (n ≠ 0%nat) then
       items ← py_iter tags;
       names ← result_mapM (fun a => getitem a "name") items;
       strs ← result_mapM as_str names;
       Ok (JStr (py_join ", " strs))
     else Ok (JArr [JStr "Not categorized!"]));
  let tmp := <["category" := category]> tmp in
  start ← getpath elem ["properties"; "Assignment Date"; "date"; "start"];
  tmp ←
    (if differs_from_NoneType start then
       assignment_date ← split_method start "T";
       if decide (length assignment_date = 2%nat) then
         d ← index assignment_date 0;
         let tmp := <["assignment_date" := JStr d]> tmp in
         t ← index assignment_date 1;
         h ← index (py_split "." t) 0;
         let tmp := <["assignment_hour" := JStr h]> tmp in
         z ← index (py_split "+" t) 1;
         Ok (<["user_time_zone" := JStr z]> tmp)
       else
         d ← index assignment_date 0;
         let tmp := <["assignment_date" := JStr d]> tmp in
         let tmp := <["assignment_hour" := JStr "00:00"]> tmp in
         Ok (<["user_time_zone" := JStr ""]> tmp)
     else Ok (<["assignment_date" := JStr "Assignment date is missing!"]> tmp));
  start ← getpath elem ["properties"; "Due Date"; "date"; "start"];
  tmp ←
    (if is_not_None start then
       due_date ← split_method start "T";
       if decide (length due_date = 2%nat) then
         d ← index due_date 0;
         let tmp := <["due_date" := JStr d]> tmp in
         t ← index due_date 1;
         h ← index (py_split "." t) 0;
         let tmp := <["due_hour" := JStr h]> tmp in
         z ← index (py_split "+" t) 1;
         Ok (<["user_time_zone" := JStr z]> tmp)
       else
         d ← index due_date 0;
         let tmp := <["due_date" := JStr d]> tmp in
         let tmp := <["due_hour" := JStr "12:00:00"]> tmp in
         z ← dict_get tmp "user_time_zone";
         if py_eq z (JStr "") then Ok (<["user_time_zone" := JStr "00:00"]> tmp)
         else Ok tmp
     else
       let tmp :=
         <["assignment_date" :=
             JStr "DUE DATE IS NOT SPECIFIED. TASK IS CREATED ON CREATION TIME!"]> tmp in
       created ← getitem elem "created_time";
       parts ← split_method created "T";
       d ← index parts 0;
       let tmp := <["due_date" := JStr d]> tmp in
       t ← index parts 1;
       h ← index (py_split "." t) 0;
       Ok (<["due_hour" := JStr h]> tmp));
  edited ← getitem elem "last_edited_time";
  let tmp := <["last_edited_time" := edited]> tmp in
  k ← dict_get tmp "task_id" ≫= key_of;
  Ok (k, tmp).

(** One iteration of the loop over the records.  Both handlers print
    [elem['url']], and an exception raised there leaves the function. *)
Definition parse_tasks_step (acc : gmap pykey pydict * list (json * exn))
    (elem : json) : result (gmap pykey pydict * list (json * exn)) :=
  let '(parsed_tasks, err) := acc in
  match package_status elem with
  | Raise error => _ ← getitem elem "url"; Ok (parsed_tasks, err)
  | Ok status =>
      if status_is_open status then
        match parse_task elem with
        | Ok (k, tmp) => Ok (<[k := tmp]> parsed_tasks, err)
        | Raise error => _ ← getitem elem "url"; Ok (parsed_tasks, err ++ [(elem, error)])
        end
      else Ok (parsed_tasks, err)
  end.

Fixpoint parse_tasks_loop (results : list json)
    (acc : gmap pykey pydict * list (json * exn))
    : result (gmap pykey pydict * list (json * exn)) :=
  match results with
  | [] => Ok acc
  | elem :: rest => acc' ← parse_tasks_step acc elem; parse_tasks_loop rest acc'
  end.

(** [db_json] is [db_response.json()]. *)
Definition parse_tasks_in_database (db_json : json)
    : result (gmap pykey pydict * list (json * exn)) :=
  results ← getitem db_json "results" ≫= py_iter;
  parse_tasks_loop results (∅, []).

(** ** The calendar port and the instants of an event *)

(** What the [datetime] library hands back: [isoformat] joins the date
    and the time of day (with its offset) by a ['T']. *)
Record datetime : Type := { iso_date : string; iso_time : string }.

Definition isoformat (dt : datetime) : string :=
  iso_date dt +:+ "T" +:+ iso_time dt.

(** The calls the program issues on [service.events()]. *)
Inductive call : Type :=
  | Insert (body : json)
  | Delete (event_id : json)
  | Update (event_id : json) (body : json).

(** [set(d.keys())] *)
Definition keys (d : gmap pykey pydict) : gset pykey := dom d.

Definition to_create_set (parsed_tasks parsed_events : gmap pykey pydict) : gset pykey :=
  keys parsed_tasks ∖ keys parsed_events.

Definition to_delete_set (parsed_tasks parsed_events : gmap pykey pydict) : gset pykey :=
  keys parsed_events ∖ keys parsed_tasks.

Definition may_update_set (parsed_tasks parsed_events : gmap pykey pydict) : gset pykey :=
  keys parsed_events ∩ keys parsed_tasks.

(** [d[k]] on a mapping keyed by task id *)
Definition mapping_get (d : gmap pykey pydict) (k : pykey) : result pydict :=
  match d !! k with
  | Some v => Ok v
  | None => Raise KeyError
  end.

(** What the calendar lists for an event created from [payload]: the
    payload under the identifier the calendar gave it. *)
Definition calendar_event (id : string) (payload : json) : json :=
  match payload with
  | JObj kv => JObj (("id", JStr id) :: kv)
  | other => other
  end.

(** ** Reading the parsers' results *)

(** [c in s] and the text of [s] before its first [c]. *)
Fixpoint contains (c : ascii) (s : string) : bool :=
  match s with
  | "" => false
  | String x s' => if decide (x = c) then true else contains c s'
  end.

Fixpoint before (c : ascii) (s : string) : string :=
  match s with
  | "" => ""
  | String x s' => if decide (x = c) then "" else String x (before c s')
  end.

(** [lines] joined by line feeds in front of [last]. *)
Definition join_lines (lines : list string) (last : string) : string :=
  foldr (fun line rest => line +:+ nl +:+ rest) last lines.

(** The last event of the input, in input order, that decodes to key [k]. *)
Definition decodes_to (k : pykey) (elem : json) : option pydict :=
  match parse_event elem with
  | Ok (k', tmp) => if decide (k' = k) then Some tmp else None
  | Raise _ => None
  end.

Definition last_decoded (k : pykey) (events : list json) : option pydict :=
  last (omap (decodes_to k) events).

(** The events that fail to decode, each with its exception. *)
Definition decode_failures (events : list json) : list (json * exn) :=
  omap (fun elem => match parse_event elem with
                    | Ok _ => None
                    | Raise error => Some (elem, error)
                    end) events.

(** The statuses that close a task, and where an entry of the task
    mapping comes from. *)
Definition closed_statuses : list string := ["Completed"; "Closed"; "Failed"].

Definition from_open_record (results : list json) (k : pykey) (task : pydict) : Prop :=
  ∃ elem status,
    elem ∈ results
    ∧ package_status elem = Ok status
    ∧ (∀ s, s ∈ closed_statuses → status ≠ JStr s)
    ∧ parse_task elem = Ok (k, task).

(** ** The rest of the program *)

(** The keys of a normalized task and of a decoded event. *)
Definition task_fields : gset string :=
  list_to_set ["task_id"; "name"; "description"; "notes"; "category"; "assignment_date";
               "assignment_hour"; "user_time_zone"; "due_date"; "due_hour";
               "last_edited_time"].

Definition event_fields : gset string :=
  list_to_set ["event_id"; "subject"; "description"; "notes"; "category";
               "assignment_date"; "due_date"; "due_hour"; "last_edited_time"; "task_id"].

(** [read_events]: [listing] is what [service.events().list(...).execute()]
    does, a response or an exception.  [response.get('items', [])] is
    inside the [try] block; its handler prints and the function then
    returns [None]. *)
Definition read_events (listing : result json) : json :=
  match listing with
  | Ok (JObj kv) => default (JArr []) (assoc "items" kv)
  | _ => JNull
  end.

(** [parse_events] on whatever [read_events] returned: the loop visits
    [py_iter events]. *)
Definition parse_events_of (events : json)
    : result (gmap pykey pydict * list (json * exn)) :=
  elems ← py_iter events;
  Ok (parse_events elems).

(** The two date blocks of [parse_task] (lines 216-227 and 229-244), as
    functions of the dict built so far and of the [start] value read. *)
Definition assignment_block (tmp : pydict) (start : json) : result pydict :=
  if differs_from_NoneType start then
    assignment_date ← split_method start "T";
    if decide (length assignment_date = 2%nat) then
      d ← index assignment_date 0;
      let tmp := <["assignment_date" := JStr d]> tmp in
      t ← index assignment_date 1;
      h ← index (py_split "." t) 0;
      let tmp := <["assignment_hour" := JStr h]> tmp in
      z ← index (py_split "+" t) 1;
      Ok (<["user_time_zone" := JStr z]> tmp)
    else
      d ← index assignment_date 0;
      let tmp := <["assignment_date" := JStr d]> tmp in
      let tmp := <["assignment_hour" := JStr "00:00"]> tmp in
      Ok (<["user_time_zone" := JStr ""]> tmp)
  else Ok (<["assignment_date" := JStr "Assignment date is missing!"]> tmp).

Definition due_block (elem : json) (tmp : pydict) (start : json) : result pydict :=
  if is_not_None start then
    due_date ← split_method start "T";
    if decide (length due_date = 2%nat) then
      d ← index due_date 0;
      let tmp := <["due_date" := JStr d]> tmp in
      t ← index due_date 1;
      h ← index (py_split "." t) 0;
      let tmp := <["due_hour" := JStr h]> tmp in
      z ← index (py_split "+" t) 1;
      Ok (<["user_time_zone" := JStr z]> tmp)
    else
      d ← index due_date 0;
      let tmp := <["due_date" := JStr d]> tmp in
      let tmp := <["due_hour" := JStr "12:00:00"]> tmp in
      z ← dict_get tmp "user_time_zone";
      if py_eq z (JStr "") then Ok (<["user_time_zone" := JStr "00:00"]> tmp)
      else Ok tmp
  else
    let tmp :=
      <["assignment_date" :=
          JStr "DUE DATE IS NOT SPECIFIED. TASK IS CREATED ON CREATION TIME!"]> tmp in
    created ← getitem elem "created_time";
    parts ← split_method created "T";
    d ← index parts 0;
    let tmp := <["due_date" := JStr d]> tmp in
    t ← index parts 1;
    h ← index (py_split "." t) 0;
    Ok (<["due_hour" := JStr h]> tmp).

(** The category of lines 210-214. *)
Definition category_of (tags : json) : result json :=
  n ← py_len tags;
  if decide (n ≠ 0%nat) then
    items ← py_iter tags;
    names ← result_mapM (fun a => getitem a "name") items;
    strs ← result_mapM as_str names;
    Ok (JStr (py_join ", " strs))
  else Ok (JArr [JStr "Not categorized!"]).

(** What the loop of [parse_tasks_in_database] does with one record:
    nothing ([None]) for a record skipped or closed, else the parse. *)
Definition task_outcome (elem : json) : option (result (pykey * pydict)) :=
  match package_status elem with
  | Ok status => if status_is_open status then Some (parse_task elem) else None
  | Raise _ => None
  end.

Definition task_failures (results : list json) : list (json * exn) :=
  omap (fun elem => match task_outcome elem with
                    | Some (Raise error) => Some (elem, error)
                    | _ => None
                    end) results.

Definition parses_to (k : pykey) (elem : json) : option pydict :=
  match task_outcome elem with
  | Some (Ok (k', tmp)) => if decide (k' = k) then Some tmp else None
  | _ => None
  end.

Definition last_parsed (k : pykey) (results : list json) : option pydict :=
  last (omap (parses_to k) results).

(** The records on which a handler runs and prints [elem['url']]. *)
Definition handler_runs (elem : json) : bool :=
  match package_status elem with
  | Raise _ => true
  | Ok status => status_is_open status && negb (is_ok (parse_task elem))
  end.

(** The calls that add an event to the calendar. *)
Definition is_insert (c : call) : Prop := ∃ body, c = Insert body.

(** ** Sample records *)

Definition rich_text (fragments : list string) : json :=
  JArr ((fun s => JObj [("plain_text", JStr s)]) <$> fragments).

(** A record as the store returns it. *)
Definition notion_record (id status : string) (description : list string)
    (tags : list string) (assigned due : json) : json :=
  JObj
    [("id", JStr id);
     ("url", JStr ("https://www.notion.so/" +:+ id));
     ("created_time", JStr "2024-04-30T08:00:00.000Z");
     ("last_edited_time", JStr "2024-05-01T10:00:00.000Z");
     ("properties",
       JObj
         [("Status", JObj [("select", JObj [("name", JStr status)])]);
          ("Name", JObj [("title", rich_text ["Write report"])]);
          ("Description", JObj [("rich_text", rich_text description)]);
          ("Notes", JObj [("rich_text", rich_text [])]);
          ("Category",
            JObj [("multi_select", JArr ((fun t => JObj [("name", JStr t)]) <$> tags))]);
          ("Assignment Date", JObj [("date", assigned)]);
          ("Due Date", JObj [("date", due)])])].

Definition date_value (start : string) : json := JObj [("start", JStr start)].

Definition report_record : json :=
  notion_record "abc" "In progress" ["Quarterly numbers"] ["Work"; "Urgent"]
    (date_value "2024-05-01T10:00:00.000+02:00") (date_value "2024-05-03").

Definition completed_record : json :=
  notion_record "done" "Completed" ["Filed"] ["Work"]
    (date_value "2024-05-01") (date_value "2024-05-03").

Definition untagged_record : json :=
  notion_record "abc" "In progress" ["Quarterly numbers"] []
    (date_value "2024-05-01") (date_value "2024-05-03").

Definition undated_record : json :=
  notion_record "abc" "In progress" ["Quarterly numbers"] ["Work"]
    JNull (date_value "2024-05-03").

Definition unstarted_record : json :=
  notion_record "abc" "In progress" ["Quarterly numbers"] ["Work"]
    (JObj [("start", JNull)]) (date_value "2024-05-03").

Definition two_line_record : json :=
  notion_record "abc" "In progress" ["Quarterly numbers" +:+ nl +:+ "and the forecast"]
    ["Work"] (date_value "2024-05-01") (date_value "2024-05-03").

(** A record whose assignment time is given west of Greenwich, one whose
    due date is empty, and one whose due date has no [start]. *)
Definition west_record : json :=
  notion_record "abc" "In progress" ["Quarterly numbers"] ["Work"]
    (date_value "2024-05-01T10:00:00.000-05:00") (date_value "2024-05-03").

Definition dueless_record : json :=
  notion_record "abc" "In progress" ["Quarterly numbers"] ["Work"]
    (date_value "2024-05-01") JNull.

Definition open_ended_record : json :=
  notion_record "abc" "In progress" ["Quarterly numbers"] ["Work"]
    (date_value "2024-05-01") (JObj [("start", JNull)]).

(** A record whose assignment time is written in the basic ISO format,
    without colons. *)
Definition basic_record : json :=
  notion_record "abc" "In progress" ["Quarterly numbers"] ["Work"; "Urgent"]
    (date_value "2024-05-01T100000.000+0200") (date_value "2024-05-03").

(** A record with neither a status nor a [url]. *)
Definition bare_record : json := JObj [("id", JStr "xyz")].

(** An event made by hand in the calendar: it has no description. *)
Definition handmade_event : json :=
  JObj [("id", JStr "e9"); ("summary", JStr "Lunch");
        ("end", JObj [("dateTime", JStr "2024-05-03T13:00:00+00:00")])].

Definition database (records : list json) : json := JObj [("results", JArr records)].

(** The task a record normalizes to (the empty dict if it does not). *)
Definition task_of (record : json) : pydict :=
  match parse_task record with
  | Ok (_, tmp) => tmp
  | Raise _ => ∅
  end.

(** An event as the calendar lists it. *)
Definition listed_event (id body : string) : json :=
  JObj [("id", JStr id); ("summary", JStr "Write report"); ("description", JStr body);
        ("end", JObj [("dateTime", JStr "2024-05-03T12:30:00+00:00")])].

Definition marker_lines (edited id : string) : string :=
  "----------" +:+ nl +:+ "Please do not edit following lines!" +:+ nl
  +:+ edited +:+ nl +:+ id +:+ nl.

Definition colon_body : string :=
  "Description: Call Bob: 3pm" +:+ nl +:+ "Notes: Notes are empty!" +:+ nl
  +:+ "Category: Work" +:+ nl +:+ "Assignment Date: 2024-05-01 - 10:00:00" +:+ nl
  +:+ marker_lines "2024-05-01T10:00:00.000Z" "abc".

Definition plain_body (description edited id : string) : string :=
  "Description: " +:+ description +:+ nl +:+ "Notes: Notes are empty!" +:+ nl
  +:+ "Category: Work" +:+ nl +:+ "Assignment Date: 2024-05-01 - 00" +:+ nl
  +:+ marker_lines edited id.

(** Mappings for one task: the task alone, and the event mapping decoded
    from a listed event whose marker is current, or older. *)
Definition report_tasks : gmap pykey pydict := {[KStr "abc" := task_of report_record]}.

Definition current_events : gmap pykey pydict :=
  (parse_events
     [listed_event "e1" (plain_body "Quarterly numbers" "2024-05-01T10:00:00.000Z" "abc")]).1.

Definition stale_events : gmap pykey pydict :=
  (parse_events
     [listed_event "e1" (plain_body "Quarterly numbers" "2024-04-30T09:00:00.000Z" "abc")]).1.

Definition two_line_tasks : gmap pykey pydict := {[KStr "abc" := task_of two_line_record]}.

Definition untagged_tasks : gmap pykey pydict := {[KStr "abc" := task_of untagged_record]}.

(** The event a mapping holds for the sample task. *)
Definition event_of (parsed_events : gmap pykey pydict) : pydict :=
  default ∅ (parsed_events !! KStr "abc").

(** An instance of the library and of the service for closed examples:
    [int] reads decimal digits, a zone is its pair of numbers, a date is
    written as given, the instants are left as they are (no example
    reads them), and the service accepts every call. *)
Fixpoint decimal_digits (s : string) (acc : Z) : result Z :=
  match s with
  | "" => Ok acc
  | String c s' =>
      let n := N_of_ascii c in
      if ((48 <=? n) && (n <=? 57))%N
      then decimal_digits s' (10 * acc + Z.of_N (n - 48))
      else Raise ValueError
  end.

Definition decimal (s : string) : result Z :=
  match s with
  | "" => Raise ValueError
  | _ => decimal_digits s 0
  end.

Definition two_digits (n : Z) : string :=
  String (ascii_of_N (Z.to_N (48 + n / 10)))
    (String (ascii_of_N (Z.to_N (48 + n mod 10))) "").

Definition written_zone (hours minutes : Z) : result (Z * Z) := Ok (hours, minutes).

Definition written_datetime (y mo d h mi s : Z) (zone : Z * Z) : result datetime :=
  Ok {| iso_date := two_digits (y / 100) +:+ two_digits (y mod 100) +:+ "-"
                    +:+ two_digits mo +:+ "-" +:+ two_digits d;
        iso_time := two_digits h +:+ ":" +:+ two_digits mi +:+ ":" +:+ two_digits s
                    +:+ "+" +:+ two_digits zone.1 +:+ ":" +:+ two_digits zone.2 |}.

Definition new_year : datetime := {| iso_date := "2024-01-01"; iso_time := "00:00:00+00:00" |}.

Definition keep_instant (dt : datetime) : result datetime := Ok dt.

Definition accepting : call → unit → option string * unit := fun _ s => (None, s).

(** A function of the section below at this instance: with the library,
    with the service as well, and with sets visited in the order of
    [elements]. *)
Abbreviation with_library f :=
  (f decimal (Z * Z)%type written_zone written_datetime new_year keep_instant keep_instant).
Abbreviation with_service f := (with_library f unit accepting).
Abbreviation with_order f := (with_service f elements).

Section Sync.

Set Default Proof Using "Type".

(** What the program takes from Python and its [datetime] library:
    [int] on a [str], the [timezone] of an offset given in hours and
    minutes, the [datetime] constructor (each raises on a bad argument),
    the clock read by [datetime.now()], the half hour added by
    [timedelta], and [astimezone()] (each raises [OverflowError] when
    the instant leaves the range of [datetime]).  Every statement below
    holds whatever they do. *)
Variable py_int : string → result Z.
Variable tzinfo : Type.
Variable make_timezone : Z → Z → result tzinfo.
Variable make_datetime : Z → Z → Z → Z → Z → Z → tzinfo → result datetime.
Variable now : datetime.
Variable add_30_minutes : datetime → result datetime.
Variable astimezone : datetime → result datetime.

(** The calendar service: a call either completes ([None]) or raises
    inside the caller's [try] block, which returns [str(error)]. *)
Variable service : Type.
Variable execute : call → service → option string * service.

(** The order in which a [for] loop visits a set. *)
Variable set_order : gset pykey → list pykey.
Hypothesis set_order_perm : ∀ X, set_order X ≡ₚ elements X.

(** *** [str_to_date] *)

Definition str_to_date (date hour user_time_zone : json) : result datetime :=
  due_date ← split_method date "-" ≫= result_mapM py_int;
  due_hour ← split_method hour ":" ≫= result_mapM py_int;
  zone ← split_method user_time_zone ":";
  '(user_time_zone_hours, user_time_zone_minutes) ←
    match zone with
    | [hours; minutes] => Ok (hours, minutes)
    | _ => Raise ValueError
    end;
  hours ← py_int user_time_zone_hours;
  minutes ← py_int user_time_zone_minutes;
  user_time_zone ← make_timezone hours minutes;
  y ← index due_date 0; mo ← index due_date 1; d ← index due_date 2;
  h ← index due_hour 0; mi ← index due_hour 1; s ← index due_hour 2;
  make_datetime y mo d h mi s user_time_zone.

(** *** Event Projector: [task_to_event] *)

Definition event_start (task : pydict) : datetime :=
  match (d ← dict_get task "due_date";
         h ← dict_get task "due_hour";
         z ← dict_get task "user_time_zone";
         str_to_date d h z) with
  | Ok start => start
  | Raise _ => now
  end.

Definition event_description (task : pydict) : result string :=
  d ← dict_get task "description" ≫= as_str;
  let s := "Description: " +:+ d +:+ nl in
  n ← dict_get task "notes" ≫= as_str;
  let s := s +:+ "Notes: " +:+ n +:+ nl in
  c ← dict_get task "category" ≫= as_str;
  let s := s +:+ "Category: " +:+ c +:+ nl in
  a ← dict_get task "assignment_date" ≫= as_str;
  h ← dict_get task "assignment_hour" ≫= as_str;
  let s := s +:+ "Assignment Date: " +:+ a +:+ " - " +:+ h +:+ nl in
  let s := s +:+ "----------" +:+ nl in
  let s := s +:+ "Please do not edit following lines!" +:+ nl in
  e ← dict_get task "last_edited_time" ≫= as_str;
  let s := s +:+ e +:+ nl in
  i ← dict_get task "task_id" ≫= as_str;
  Ok (s +:+ i +:+ nl).

(** The sum [event_start + timedelta(minutes=30)] and the two calls of
    [astimezone()] are outside the [try] block: an [OverflowError] of
    theirs leaves the function. *)
Definition task_to_event (task : pydict) : result json :=
  let event_start := event_start task in
  event_finish ← add_30_minutes event_start;
  description ← event_description task;
  name ← dict_get task "name";
  start ← astimezone event_start;
  finish ← astimezone event_finish;
  Ok (JObj
        [("summary", name);
         ("description", JStr description);
         ("start", JObj [("dateTime", JStr (isoformat start))]);
         ("end", JObj [("dateTime", JStr (isoformat finish))]);
         ("reminders",
           JObj [("useDefault", JBool false);
                 ("overrides",
                   JArr [JObj [("method", JStr "popup"); ("minutes", JNum (24 * 60))];
                         JObj [("method", JStr "popup"); ("minutes", JNum 30)]])])]).

(** The payload a task projects to ([None] when the projection raises). *)
Definition payload_of (task : pydict) : json :=
  match task_to_event task with
  | Ok event => event
  | Raise _ => JNull
  end.

(** *** Reconciliation Engine *)

(** The state a run threads: the service and the log of the calls
    issued so far.  An exception leaves the state as it then is. *)
Definition world : Type := service * list call.

Definition M (A : Type) : Type := world → result A * world.

Definition M_ret {A} (a : A) : M A := fun w => (Ok a, w).

Definition M_bind {A B} (m : M A) (f : A → M B) : M B :=
  fun w =>
    match m w with
    | (Ok a, w') => f a w'
    | (Raise e, w') => (Raise e, w')
    end.

Definition M_lift {A} (r : result A) : M A := fun w => (r, w).

(** [try: service.events().<call>.execute() ... except: return str(error)] *)
Definition issue (c : call) : M (option string) :=
  fun w =>
    let '(outcome, s) := execute c w.1 in
    (Ok outcome, (s, w.2 ++ [c])).

Definition to_create (task : pydict) : M (option string) :=
  M_bind (M_lift (task_to_event task)) (fun event =>
  issue (Insert event)).

Definition to_delete (parsed_event : pydict) : M (option string) :=
  M_bind (M_lift (dict_get parsed_event "event_id")) (fun event_id =>
  M_bind (M_lift (dict_get parsed_event "subject")) (fun subject =>
  issue (Delete event_id))).

Definition may_update (task parsed_event : pydict) : M (option string) :=
  M_bind (M_lift (dict_get task "last_edited_time")) (fun edited_task =>
  M_bind (M_lift (dict_get parsed_event "last_edited_time")) (fun edited_event =>
  if negb (py_eq edited_task edited_event) then
    M_bind (M_lift (task_to_event task)) (fun tmp =>
    M_bind (M_lift (dict_get parsed_event "event_id")) (fun event_id =>
    issue (Update event_id tmp)))
  else M_ret None)).

(** [for task_id in ids: err = action(task_id); errs.append(err)] *)
Fixpoint for_each (action : pykey → M (option string)) (ids : list pykey)
    (errs : list (option string)) : M (list (option string)) :=
  match ids with
  | [] => M_ret errs
  | task_id :: rest =>
      M_bind (action task_id) (fun err => for_each action rest (errs ++ [err]))
  end.

Definition create_action (parsed_tasks : gmap pykey pydict) (task_id : pykey)
    : M (option string) :=
  M_bind (M_lift (mapping_get parsed_tasks task_id)) to_create.

Definition delete_action (parsed_events : gmap pykey pydict) (task_id : pykey)
    : M (option string) :=
  M_bind (M_lift (mapping_get parsed_events task_id)) to_delete.

Definition update_action (parsed_tasks parsed_events : gmap pykey pydict)
    (task_id : pykey) : M (option string) :=
  M_bind (M_lift (mapping_get parsed_tasks task_id)) (fun task =>
  M_bind (M_lift (mapping_get parsed_events task_id)) (fun event =>
  may_update task event)).

(** The value returned: [[task_ids, error]]. *)
Record sync_report : Type := {
  task_ids : gset pykey * gset pykey * gset pykey;
  error : list (option string) * list (option string) * list (option string)
}.

Definition synchronize_tasks (parsed_tasks parsed_events : gmap pykey pydict)
    : M sync_report :=
  let create_ids := to_create_set parsed_tasks parsed_events in
  let delete_ids := to_delete_set parsed_tasks parsed_events in
  let update_ids := may_update_set parsed_tasks parsed_events in
  M_bind (for_each (create_action parsed_tasks) (set_order create_ids) [])
    (fun to_create_err =>
  M_bind (for_each (delete_action parsed_events) (set_order delete_ids) [])
    (fun to_delete_err =>
  M_bind (for_each (update_action parsed_tasks parsed_events) (set_order update_ids) [])
    (fun may_update_err =>
  M_ret {| task_ids := (create_ids, delete_ids, update_ids);
           error := (to_create_err, to_delete_err, may_update_err) |}))).

(** A loop that runs to its end: the slots it appends, action by
    action, and the state it threads. *)
Inductive steps (action : pykey → M (option string))
    : world → list pykey → list (option string) → world → Prop :=
  | steps_done w : steps action w [] [] w
  | steps_next w w1 w2 task_id rest slot slots :
      action task_id w = (Ok slot, w1) →
      steps action w1 rest slots w2 →
      steps action w (task_id :: rest) (slot :: slots) w2.

(** The calls one key adds to the log when its action returns. *)
Definition create_calls (parsed_tasks : gmap pykey pydict) (task_id : pykey) : list call :=
  match parsed_tasks !! task_id with
  | Some task =>
      match task_to_event task with
      | Ok event => [Insert event]
      | Raise _ => []
      end
  | None => []
  end.

Definition delete_calls (parsed_events : gmap pykey pydict) (task_id : pykey) : list call :=
  match parsed_events !! task_id with
  | Some parsed_event =>
      match dict_get parsed_event "event_id", dict_get parsed_event "subject" with
      | Ok event_id, Ok _ => [Delete event_id]
      | _, _ => []
      end
  | None => []
  end.

Definition update_calls (parsed_tasks parsed_events : gmap pykey pydict)
    (task_id : pykey) : list call :=
  match parsed_tasks !! task_id, parsed_events !! task_id with
  | Some task, Some parsed_event =>
      match dict_get task "last_edited_time", dict_get parsed_event "last_edited_time" with
      | Ok edited_task, Ok edited_event =>
          if py_eq edited_task edited_event then []
          else match task_to_event task, dict_get parsed_event "event_id" with
               | Ok tmp, Ok event_id => [Update event_id tmp]
               | _, _ => []
               end
      | _, _ => []
      end
  | _, _ => []
  end.

(** Mappings on which no action raises: every task projects and carries
    its marker, every event carries what [parse_events] stores. *)
Definition tasks_project (parsed_tasks : gmap pykey pydict) : Prop :=
  ∀ k task,
    parsed_tasks !! k = Some task →
    is_ok (task_to_event task) = true ∧ is_Some (task !! "last_edited_time").

Definition events_decoded (parsed_events : gmap pykey pydict) : Prop :=
  ∀ k event,
    parsed_events !! k = Some event →
    is_Some (event !! "event_id") ∧ is_Some (event !! "subject")
    ∧ is_Some (event !! "last_edited_time").

(** The pipeline of the script (lines 410-421): parse the tasks, read
    and parse the events, synchronize. *)
Definition main (db_json : json) (listing : result json) : M sync_report :=
  M_bind (M_lift (parse_tasks_in_database db_json)) (fun tasks =>
  let all_events := read_events listing in
  M_bind (M_lift (parse_events_of all_events)) (fun events =>
  synchronize_tasks tasks.1 events.1)).

(** Proofs by propositional automation first drop the parameters of the
    section that the goal does not mention. *)
Ltac forget_env :=
  try clear set_order_perm; try clear set_order; try clear execute;
  try clear service; try clear astimezone; try clear add_30_minutes;
  try clear now; try clear make_datetime; try clear make_timezone;
  try clear tzinfo; try clear py_int.

(** ** The error monad *)

Lemma bind_Ok {A B} (f : A → result B) (a : A) : (Ok a ≫= f) = f a.
Proof. reflexivity. Qed.

Lemma bind_Raise {A B} (f : A → result B) (e : exn) : (Raise e ≫= f) = Raise e.
Proof. reflexivity. Qed.

Lemma bind_Ok_inv {A B} (f : A → result B) (m : result A) (b : B) :
  (m ≫= f) = Ok b → ∃ a, m = Ok a ∧ f a = Ok b.
Proof. destruct m as [a|e]; [eauto | discriminate]. Qed.

Lemma getpath_snoc (v : json) (ks : list string) (k : string) :
  getpath v (ks ++ [k]) = (getpath v ks ≫= fun x => getitem x k).
Proof.
  revert v. induction ks as [|k' ks IH]; intros v; simpl.
  - destruct (getitem v k); reflexivity.
  - destruct (getitem v k') as [x|e]; simpl; [apply IH | reflexivity].
Qed.

(** ** Reconciliation: the three key sets *)

(** Equality of two sets of keys, member by member. *)
Ltac by_membership :=
  apply set_eq; intros ?;
  rewrite ?elem_of_union, ?elem_of_intersection, ?elem_of_difference, ?elem_of_empty;
  forget_env; tauto.

Lemma classification_disjoint (T E : gmap pykey pydict) :
  to_create_set T E ## to_delete_set T E
  ∧ to_create_set T E ## may_update_set T E
  ∧ to_delete_set T E ## may_update_set T E.
Proof.
  unfold to_create_set, to_delete_set, may_update_set.
  repeat split; apply elem_of_disjoint; intros k;
    rewrite ?elem_of_difference, ?elem_of_intersection; forget_env; tauto.
Qed.

Lemma classification_cover (T E : gmap pykey pydict) :
  to_create_set T E ∪ to_delete_set T E ∪ may_update_set T E = keys T ∪ keys E.
Proof.
  unfold to_create_set, to_delete_set, may_update_set.
  apply set_eq. intros k. rewrite !elem_of_union, elem_of_intersection, !elem_of_difference.
  destruct (decide (k ∈ keys T)), (decide (k ∈ keys E)); forget_env; tauto.
Qed.

Lemma M_bind_Ok_inv {A B} (m : M A) (f : A → M B) w b w' :
  M_bind m f w = (Ok b, w') → ∃ a w1, m w = (Ok a, w1) ∧ f a w1 = (Ok b, w').
Proof.
  unfold M_bind. destruct (m w) as [[a|e] w1]; [eauto | discriminate].
Qed.

Lemma for_each_steps action ids errs w out w' :
  for_each action ids errs w = (Ok out, w') ↔
  ∃ slots, out = errs ++ slots ∧ steps action w ids slots w'.
Proof.
  revert errs w out. induction ids as [|k ids IH]; intros errs w out; simpl.
  - unfold M_ret. split.
    + intros [= <- <-]. exists []. rewrite app_nil_r. split; [done | constructor].
    + intros (slots & Hout & Hs). inversion Hs; subst. by rewrite app_nil_r.
  - split.
    + intros (slot & w1 & Hk & Hrest)%M_bind_Ok_inv.
      apply IH in Hrest as (slots & Hout & Hs).
      exists (slot :: slots). rewrite Hout, <- app_assoc. split; [done | by econstructor].
    + intros (slots & Hout & Hs). inversion Hs as [|? w1 ? ? ? slot slots' Hk Hrest]; subst.
      unfold M_bind. rewrite Hk. apply IH. exists slots'.
      by rewrite <- app_assoc.
Qed.

Lemma steps_length action w ids slots w' :
  steps action w ids slots w' → length slots = length ids.
Proof. induction 1; simpl; congruence. Qed.

Lemma steps_Forall2 action w ids slots w' :
  steps action w ids slots w' →
  Forall2 (fun k slot => ∃ w1 w2, action k w1 = (Ok slot, w2)) ids slots.
Proof. induction 1; constructor; eauto. Qed.

Lemma synchronize_tasks_inv (T E : gmap pykey pydict) w report w' :
  synchronize_tasks T E w = (Ok report, w') →
  ∃ ce de ue w1 w2,
    report = {| task_ids := (to_create_set T E, to_delete_set T E, may_update_set T E);
                error := (ce, de, ue) |}
    ∧ steps (create_action T) w (set_order (to_create_set T E)) ce w1
    ∧ steps (delete_action E) w1 (set_order (to_delete_set T E)) de w2
    ∧ steps (update_action T E) w2 (set_order (may_update_set T E)) ue w'.
Proof.
  unfold synchronize_tasks.
  intros (ce & w1 & Hc & H)%M_bind_Ok_inv.
  apply M_bind_Ok_inv in H as (de & w2 & Hd & H).
  apply M_bind_Ok_inv in H as (ue & w3 & Hu & H).
  unfold M_ret in H. injection H as <- <-.
  apply for_each_steps in Hc as (ce' & -> & Hc).
  apply for_each_steps in Hd as (de' & -> & Hd).
  apply for_each_steps in Hu as (ue' & -> & Hu).
  exists ce', de', ue', w1, w2. eauto.
Qed.

Lemma for_each_returns action ids :
  (∀ k, k ∈ ids → ∀ w, ∃ slot w', action k w = (Ok slot, w')) →
  ∀ errs w, ∃ out w', for_each action ids errs w = (Ok out, w').
Proof.
  induction ids as [|k ids IH]; intros Hact errs w; simpl.
  - by eexists _, _.
  - destruct (Hact k (list_elem_of_here _ _) w) as (slot & w1 & Hk).
    unfold M_bind. rewrite Hk. apply IH.
    intros k' Hk'. apply Hact. by right.
Qed.

Lemma issue_returns (c : call) w : ∃ slot w', issue c w = (Ok slot, w').
Proof. unfold issue. destruct (execute c w.1). by eexists _, _. Qed.

Lemma create_action_returns (T : gmap pykey pydict) k w :
  tasks_project T → k ∈ keys T → ∃ slot w', create_action T k w = (Ok slot, w').
Proof.
  intros HT Hk. unfold keys in Hk. apply elem_of_dom in Hk as [task Hk].
  destruct (HT k task Hk) as [Hok _].
  unfold create_action, to_create, mapping_get, M_bind, M_lift. rewrite Hk.
  destruct (task_to_event task); [apply issue_returns | discriminate].
Qed.

Lemma delete_action_returns (E : gmap pykey pydict) k w :
  events_decoded E → k ∈ keys E → ∃ slot w', delete_action E k w = (Ok slot, w').
Proof.
  intros HE Hk. unfold keys in Hk. apply elem_of_dom in Hk as [event Hk].
  destruct (HE k event Hk) as ([id Hid] & [sb Hsb] & _).
  unfold delete_action, to_delete, mapping_get, dict_get, M_bind, M_lift.
  rewrite Hk, Hid, Hsb. apply issue_returns.
Qed.

Lemma update_action_returns (T E : gmap pykey pydict) k w :
  tasks_project T → events_decoded E → k ∈ keys T → k ∈ keys E →
  ∃ slot w', update_action T E k w = (Ok slot, w').
Proof.
  intros HT HE Hkt Hke. unfold keys in Hkt, Hke.
  apply elem_of_dom in Hkt as [task Hkt]. apply elem_of_dom in Hke as [event Hke].
  destruct (HT k task Hkt) as [Hok [x Hx]].
  destruct (HE k event Hke) as ([id Hid] & _ & [y Hy]).
  unfold update_action, may_update, mapping_get, dict_get, M_bind, M_lift, M_ret.
  rewrite Hkt, Hke, Hx, Hy, Hid.
  destruct (py_eq x y); simpl; [by eexists _, _|].
  destruct (task_to_event task); [apply issue_returns | discriminate].
Qed.

(** On such mappings the run returns. *)
Lemma synchronize_tasks_returns (T E : gmap pykey pydict) w :
  tasks_project T → events_decoded E →
  ∃ report w', synchronize_tasks T E w = (Ok report, w').
Proof using set_order_perm.
  intros HT HE. unfold synchronize_tasks.
  destruct (for_each_returns (create_action T) (set_order (to_create_set T E)))
    with (errs := @nil (option string)) (w := w) as (ce & w1 & Hc).
  { intros k Hk w0. apply create_action_returns; [done|].
    rewrite (set_order_perm _), elem_of_elements in Hk.
    unfold to_create_set in Hk. by apply elem_of_difference in Hk as [? _]. }
  destruct (for_each_returns (delete_action E) (set_order (to_delete_set T E)))
    with (errs := @nil (option string)) (w := w1) as (de & w2 & Hd).
  { intros k Hk w0. apply delete_action_returns; [done|].
    rewrite (set_order_perm _), elem_of_elements in Hk.
    unfold to_delete_set in Hk. by apply elem_of_difference in Hk as [? _]. }
  destruct (for_each_returns (update_action T E) (set_order (may_update_set T E)))
    with (errs := @nil (option string)) (w := w2) as (ue & w3 & Hu).
  { intros k Hk w0.
    rewrite (set_order_perm _), elem_of_elements in Hk.
    unfold may_update_set in Hk. apply elem_of_intersection in Hk as [? ?].
    by apply update_action_returns. }
  unfold M_bind, M_ret. rewrite Hc, Hd, Hu. by eexists _, _.
Qed.

(** C1: the key sets the engine returns are keys(T) − keys(E),
    keys(E) − keys(T) and keys(T) ∩ keys(E); they are pairwise disjoint,
    their union is keys(T) ∪ keys(E), so every key of either mapping is
    in exactly one of them; these are the sets in the report of every
    run that returns, and the run returns whenever every task projects
    and every event carries its decoded fields. *)
Theorem synchronize_tasks_partition (parsed_tasks parsed_events : gmap pykey pydict) :
  let create_ids := to_create_set parsed_tasks parsed_events in
  let delete_ids := to_delete_set parsed_tasks parsed_events in
  let update_ids := may_update_set parsed_tasks parsed_events in
  create_ids = keys parsed_tasks ∖ keys parsed_events
  ∧ delete_ids = keys parsed_events ∖ keys parsed_tasks
  ∧ update_ids = keys parsed_tasks ∩ keys parsed_events
  ∧ create_ids ## delete_ids ∧ create_ids ## update_ids ∧ delete_ids ## update_ids
  ∧ create_ids ∪ delete_ids ∪ update_ids = keys parsed_tasks ∪ keys parsed_events
  ∧ (∀ k, k ∈ keys parsed_tasks ∪ keys parsed_events →
       (k ∈ create_ids ∧ (k ∉ delete_ids) ∧ (k ∉ update_ids))
       ∨ ((k ∉ create_ids) ∧ k ∈ delete_ids ∧ (k ∉ update_ids))
       ∨ ((k ∉ create_ids) ∧ (k ∉ delete_ids) ∧ k ∈ update_ids))
  ∧ (∀ w report w',
       synchronize_tasks parsed_tasks parsed_events w = (Ok report, w') →
       task_ids report = (create_ids, delete_ids, update_ids))
  ∧ (tasks_project parsed_tasks → events_decoded parsed_events →
     ∀ w, ∃ report w',
       synchronize_tasks parsed_tasks parsed_events w = (Ok report, w')
       ∧ task_ids report = (create_ids, delete_ids, update_ids)).
Proof using set_order_perm.
  intros create_ids delete_ids update_ids.
  destruct (classification_disjoint parsed_tasks parsed_events) as (Hcd & Hcu & Hdu).
  pose proof (classification_cover parsed_tasks parsed_events) as Hcover.
  split; [done|]. split; [done|].
  split; [unfold update_ids, may_update_set; by_membership|].
  assert (Hids : ∀ w report w',
            synchronize_tasks parsed_tasks parsed_events w = (Ok report, w') →
            task_ids report = (create_ids, delete_ids, update_ids)).
  { intros w report w' (ce & de & ue & w1 & w2 & -> & _)%synchronize_tasks_inv. done. }
  split; [done|]. split; [done|]. split; [done|]. split; [done|].
  split; [|split; [exact Hids|]].
  - intros k. unfold create_ids, delete_ids, update_ids.
    unfold to_create_set, to_delete_set, may_update_set.
    rewrite elem_of_union, elem_of_intersection, !elem_of_difference.
    destruct (decide (k ∈ keys parsed_tasks)), (decide (k ∈ keys parsed_events));
      forget_env; tauto.
  - intros HT HE w.
    destruct (synchronize_tasks_returns parsed_tasks parsed_events w HT HE)
      as (report & w' & Hrun).
    exists report, w'. split; [exact Hrun | exact (Hids _ _ _ Hrun)].
Qed.

(** ** Event Record Parser: duplicates *)

Lemma parse_events_step_errors acc elem :
  (parse_events_step acc elem).2 = acc.2 ++ decode_failures [elem].
Proof.
  destruct acc as [m errs]. unfold parse_events_step, decode_failures. simpl.
  destruct (parse_event elem) as [[k tmp]|e]; simpl; [by rewrite app_nil_r | done].
Qed.

Lemma parse_events_step_lookup acc elem k :
  (parse_events_step acc elem).1 !! k =
  match decodes_to k elem with Some tmp => Some tmp | None => acc.1 !! k end.
Proof.
  destruct acc as [m errs]. unfold parse_events_step, decodes_to. simpl.
  destruct (parse_event elem) as [[k' tmp]|e]; simpl; [|done].
  destruct (decide (k' = k)) as [->|Hne].
  - by rewrite lookup_insert_eq.
  - by rewrite lookup_insert_ne.
Qed.

Lemma decode_failures_cons elem events :
  decode_failures (elem :: events) = decode_failures [elem] ++ decode_failures events.
Proof.
  unfold decode_failures. simpl. destruct (parse_event elem) as [?|?]; reflexivity.
Qed.

Lemma last_decoded_cons k elem events :
  last_decoded k (elem :: events) =
  match last_decoded k events with
  | Some tmp => Some tmp
  | None => decodes_to k elem
  end.
Proof.
  unfold last_decoded. simpl. destruct (decodes_to k elem) as [tmp|]; [|by destruct (last _)].
  rewrite last_cons. by destruct (last _).
Qed.

Lemma parse_events_fold events acc :
  (foldl parse_events_step acc events).2 = acc.2 ++ decode_failures events
  ∧ ∀ k, (foldl parse_events_step acc events).1 !! k =
         match last_decoded k events with Some tmp => Some tmp | None => acc.1 !! k end.
Proof.
  revert acc. induction events as [|elem events IH]; intros acc; cbn [foldl].
  - split; [symmetry; apply app_nil_r | done].
  - destruct (IH (parse_events_step acc elem)) as [Herr Hmap]. split.
    + rewrite (decode_failures_cons elem events), Herr, parse_events_step_errors.
      symmetry. apply app_assoc.
    + intros k. rewrite Hmap, parse_events_step_lookup, last_decoded_cons.
      by destruct (last_decoded k events).
Qed.

(** C9: [parse_events] keys its output by the decoded task id, and
    under each key holds the last event of the input, in input order,
    that decodes to it: earlier events with the same task id are
    overwritten.  The error list holds exactly the events that fail to
    decode, so an overwritten duplicate is in neither output. *)
Theorem parse_events_keeps_last (events : list json) :
  (∀ k, (parse_events events).1 !! k = last_decoded k events)
  ∧ (parse_events events).2 = decode_failures events
  ∧ (∀ first second rest k tmp1 tmp2,
       events = first :: second :: rest →
       parse_event first = Ok (k, tmp1) →
       parse_event second = Ok (k, tmp2) →
       last_decoded k rest = None →
       (parse_events events).1 !! k = Some tmp2
       ∧ ∀ error, ((first, error) ∉ (parse_events events).2)).
Proof.
  unfold parse_events.
  destruct (parse_events_fold events (∅, [])) as [Herr Hmap]. simpl in Herr, Hmap.
  assert (Hlook : ∀ k, (foldl parse_events_step (∅, []) events).1 !! k = last_decoded k events).
  { intros k. rewrite Hmap. destruct (last_decoded k events); [done | apply lookup_empty]. }
  split; [done|]. split; [done|].
  intros first second rest k tmp1 tmp2 -> H1 H2 Hrest.
  assert (Hnot : ∀ error, (first, error) ∉ decode_failures (first :: second :: rest)).
  { intros error Hin. unfold decode_failures in Hin.
    apply list_elem_of_omap in Hin as (elem & _ & Hin).
    destruct (parse_event elem) as [?|e] eqn:He; [discriminate|].
    injection Hin as <- <-. congruence. }
  rewrite Herr, Hlook. split; [|exact Hnot].
  rewrite !last_decoded_cons, Hrest. unfold decodes_to. rewrite H2.
  by rewrite decide_True.
Qed.

(** ** Task Record Parser: closed records *)

Lemma py_eq_str (v : json) (s : string) : py_eq v (JStr s) = true ↔ v = JStr s.
Proof.
  destruct v; simpl; try (split; [discriminate | by intros [=]]).
  rewrite String.eqb_eq. split; [by intros -> | by intros [=]].
Qed.

Lemma status_is_open_true (status : json) :
  status_is_open status = true ↔ ∀ s, s ∈ closed_statuses → status ≠ JStr s.
Proof.
  unfold status_is_open, closed_statuses. rewrite negb_true_iff. split.
  - intros Hnone s Hs ->. revert Hnone.
    apply not_false_iff_true, existsb_exists. exists (JStr s). split.
    + rewrite !elem_of_cons in Hs. destruct Hs as [->|[->|[->|Hs]]]; simpl; auto.
      by apply elem_of_nil in Hs.
    + by apply py_eq_str.
  - intros Hne. apply not_true_iff_false. intros (lit & Hin & Heq)%existsb_exists.
    simpl in Hin. destruct Hin as [<-|[<-|[<-|[]]]];
      apply py_eq_str in Heq; (eapply Hne; [|exact Heq]);
      unfold closed_statuses; rewrite !elem_of_cons; auto.
Qed.

Lemma parse_tasks_step_closed acc elem s :
  package_status elem = Ok (JStr s) → s ∈ closed_statuses →
  parse_tasks_step acc elem = Ok acc.
Proof.
  intros Hstatus Hs. unfold parse_tasks_step. destruct acc as [m errs]. rewrite Hstatus.
  destruct (status_is_open (JStr s)) eqn:Hopen; [|done].
  by destruct (proj1 (status_is_open_true _) Hopen s Hs).
Qed.

Lemma parse_tasks_step_provenance acc elem out k task :
  parse_tasks_step acc elem = Ok out → out.1 !! k = Some task →
  acc.1 !! k = Some task ∨ from_open_record [elem] k task.
Proof.
  unfold parse_tasks_step. destruct acc as [m errs].
  destruct (package_status elem) as [status|e] eqn:Hstatus.
  - destruct (status_is_open status) eqn:Hopen.
    + destruct (parse_task elem) as [[k' tmp]|e] eqn:Hparse.
      * intros [= <-]. simpl. destruct (decide (k' = k)) as [->|Hne].
        -- rewrite lookup_insert_eq. intros [= <-]. right.
           exists elem, status. split; [left|]. split; [done|]. split; [|done].
           by apply status_is_open_true.
        -- rewrite lookup_insert_ne by done. auto.
      * destruct (getitem elem "url"); [|discriminate]. intros [= <-]. auto.
    + intros [= <-]. auto.
  - destruct (getitem elem "url"); [|discriminate]. intros [= <-]. auto.
Qed.

Lemma parse_tasks_loop_provenance results acc out k task :
  parse_tasks_loop results acc = Ok out → out.1 !! k = Some task →
  acc.1 !! k = Some task ∨ from_open_record results k task.
Proof.
  revert acc. induction results as [|elem results IH]; intros acc; simpl.
  - intros [= <-]. auto.
  - intros (acc' & Hstep & Hloop)%bind_Ok_inv Hk.
    destruct (IH _ Hloop Hk) as [Hacc|(el & st & Hin & H)].
    + destruct (parse_tasks_step_provenance _ _ _ _ _ Hstep Hacc)
        as [?|(el & st & Hin & H)]; [auto|].
      right. exists el, st. split; [|done]. apply list_elem_of_singleton in Hin as ->. left.
    + right. exists el, st. split; [by right | done].
Qed.

(** C7: a record whose status reads Completed, Closed or Failed leaves
    the task mapping and the error list as they were, and every entry
    of the mapping [parse_tasks_in_database] returns was parsed from a
    record of the input whose status is none of the three. *)
Theorem closed_records_excluded :
  (∀ elem s acc,
     package_status elem = Ok (JStr s) → s ∈ closed_statuses →
     parse_tasks_step acc elem = Ok acc)
  ∧ (∀ db parsed_tasks err k task,
       parse_tasks_in_database db = Ok (parsed_tasks, err) →
       parsed_tasks !! k = Some task →
       ∃ results,
         (getitem db "results" ≫= py_iter) = Ok results
         ∧ from_open_record results k task).
Proof.
  split.
  - intros elem s acc. apply parse_tasks_step_closed.
  - intros db parsed_tasks err k task Hparse Hk. unfold parse_tasks_in_database in Hparse.
    apply bind_Ok_inv in Hparse as (results & Hresults & Hloop).
    exists results. split; [done|].
    destruct (parse_tasks_loop_provenance _ _ _ k task Hloop Hk) as [Hempty|?]; [|done].
    simpl in Hempty. by rewrite lookup_empty in Hempty.
Qed.

(** ** Task Record Parser: a null assignment date *)

(** Peel the leading statement of a block that is shown to raise. *)
Ltac peel_bind :=
  lazymatch goal with
  | |- ∃ _, (?m ≫= _) = Raise _ =>
      destruct m as [?|?] eqn:?; [rewrite bind_Ok | rewrite bind_Raise; eauto]
  end.

Lemma null_date_start_raises (elem : json) :
  getpath elem ["properties"; "Assignment Date"; "date"] = Ok JNull →
  getpath elem ["properties"; "Assignment Date"; "date"; "start"] = Raise TypeError.
Proof.
  intros Hdate.
  change ["properties"; "Assignment Date"; "date"; "start"]
    with (["properties"; "Assignment Date"; "date"] ++ ["start"]).
  rewrite getpath_snoc, Hdate. reflexivity.
Qed.

Lemma parse_task_null_assignment (elem : json) :
  getpath elem ["properties"; "Assignment Date"; "date"] = Ok JNull
  ∨ getpath elem ["properties"; "Assignment Date"; "date"; "start"] = Ok JNull →
  ∃ error, parse_task elem = Raise error.
Proof.
  intros Hnull. unfold parse_task.
  do 10 peel_bind.
  destruct Hnull as [Hdate%null_date_start_raises|Hstart].
  - rewrite Hdate. eauto.
  - rewrite Hstart. rewrite bind_Ok. unfold differs_from_NoneType.
    exists AttributeError. reflexivity.
Qed.

(** One iteration of the loop on such a record, when the handler finds
    the [url] it prints. *)
Lemma null_assignment_date_step (elem status : json)
    (acc : gmap pykey pydict * list (json * exn)) :
  package_status elem = Ok status →
  status_is_open status = true →
  getpath elem ["properties"; "Assignment Date"; "date"] = Ok JNull
  ∨ getpath elem ["properties"; "Assignment Date"; "date"; "start"] = Ok JNull →
  is_ok (getitem elem "url") = true →
  differs_from_NoneType JNull = true
  ∧ ∃ error,
      parse_task elem = Raise error
      ∧ parse_tasks_step acc elem = Ok (acc.1, acc.2 ++ [(elem, error)]).
Proof.
  intros Hstatus Hopen Hnull Hurl. split; [reflexivity|].
  destruct (parse_task_null_assignment elem Hnull) as [error Hraise].
  exists error. split; [done|].
  unfold parse_tasks_step. destruct acc as [m errs].
  rewrite Hstatus, Hopen, Hraise.
  destruct (getitem elem "url"); [reflexivity | discriminate].
Qed.

(** ** Task Record Parser: the category *)

(** Turn a block that returned into the values its statements bound. *)
Ltac invert_block :=
  repeat match goal with
    | H : (_ ≫= _) = Ok _ |- _ => apply bind_Ok_inv in H as (? & ? & H)
    | H : (if decide ?P then _ else _) = Ok _ |- _ => destruct (decide P)
    | H : (if ?c then _ else _) = Ok _ |- _ => destruct c eqn:?
    | H : Ok _ = Ok _ |- _ => injection H as H
    end.

Ltac lookup_field :=
  repeat (rewrite lookup_insert_ne by discriminate); try rewrite lookup_insert_eq.

Lemma parse_task_category (elem : json) (k : pykey) (tmp : pydict) :
  parse_task elem = Ok (k, tmp) →
  ∃ tags n,
    getpath elem ["properties"; "Category"; "multi_select"] = Ok tags
    ∧ py_len tags = Ok n
    ∧ (n = 0%nat → tmp !! "category" = Some (JArr [JStr "Not categorized!"]))
    ∧ (n ≠ 0%nat →
       ∃ items names strs,
         py_iter tags = Ok items
         ∧ result_mapM (fun a => getitem a "name") items = Ok names
         ∧ result_mapM as_str names = Ok strs
         ∧ tmp !! "category" = Some (JStr (py_join ", " strs))).
Proof.
  unfold parse_task, differs_from_NoneType. intros H.
  apply bind_Ok_inv in H as (id & _ & H).
  apply bind_Ok_inv in H as (title & _ & H).
  apply bind_Ok_inv in H as (name & _ & H).
  apply bind_Ok_inv in H as (rich & _ & H).
  apply bind_Ok_inv in H as (description & _ & H).
  apply bind_Ok_inv in H as (rich' & _ & H).
  apply bind_Ok_inv in H as (notes & _ & H).
  apply bind_Ok_inv in H as (tags & Htags & H).
  apply bind_Ok_inv in H as (n & Hn & H).
  apply bind_Ok_inv in H as (category & Hcategory & H).
  exists tags, n. split; [exact Htags|]. split; [exact Hn|].
  assert (Hcat : tmp !! "category" = Some category).
  { clear Hcategory. invert_block; subst; lookup_field; reflexivity. }
  rewrite Hcat. destruct (decide (n ≠ 0%nat)) as [Hn0|Hn0]; split; intros Hn'; try done.
  - apply bind_Ok_inv in Hcategory as (items & Hitems & Hcategory).
    apply bind_Ok_inv in Hcategory as (names & Hnames & Hcategory).
    apply bind_Ok_inv in Hcategory as (strs & Hstrs & Hcategory).
    injection Hcategory as <-. eauto 10.
  - by injection Hcategory as <-.
Qed.

(** C8: with at least one tag the category is the tags' names joined
    by a comma and a space; with no tag the parser stores the
    one-element list [["Not categorized!"]], which is not a string:
    the Event Projector, which appends the category to a [str], raises
    on such a task, and what it raises is [TypeError] unless the half
    hour added to the start has already overflowed. *)
Theorem empty_tag_list_category_is_a_list :
  (∀ elem k tmp,
     parse_task elem = Ok (k, tmp) →
     ∃ tags n,
       getpath elem ["properties"; "Category"; "multi_select"] = Ok tags
       ∧ py_len tags = Ok n
       ∧ (n = 0%nat → tmp !! "category" = Some (JArr [JStr "Not categorized!"]))
       ∧ (n ≠ 0%nat →
          ∃ items names strs,
            py_iter tags = Ok items
            ∧ result_mapM (fun a => getitem a "name") items = Ok names
            ∧ result_mapM as_str names = Ok strs
            ∧ tmp !! "category" = Some (JStr (py_join ", " strs))))
  ∧ parse_tasks_in_database (database [untagged_record])
    = Ok ({[KStr "abc" := task_of untagged_record]}, [])
  ∧ task_of untagged_record !! "category" = Some (JArr [JStr "Not categorized!"])
  ∧ is_ok (task_to_event (task_of untagged_record)) = false
  ∧ (∀ finish,
       add_30_minutes (event_start (task_of untagged_record)) = Ok finish →
       task_to_event (task_of untagged_record) = Raise TypeError)
  ∧ task_of report_record !! "category" = Some (JStr "Work, Urgent").
Proof.
  split; [exact parse_task_category|].
  split; [reflexivity|]. split; [reflexivity|]. split; [|split; [|reflexivity]].
  - unfold task_to_event.
    by destruct (add_30_minutes (event_start (task_of untagged_record))).
  - intros finish Hfinish. unfold task_to_event. by rewrite Hfinish.
Qed.

(** ** Reconciliation: the loops *)

Lemma set_order_empty : set_order ∅ = [].
Proof using set_order_perm.
  apply Permutation_nil_r. rewrite (set_order_perm ∅), elements_empty. done.
Qed.

Lemma set_order_singleton (k : pykey) : set_order {[k]} = [k].
Proof using set_order_perm.
  apply Permutation_singleton_r. rewrite (set_order_perm {[k]}), elements_singleton. done.
Qed.

Lemma set_order_length (X : gset pykey) : length (set_order X) = size X.
Proof using set_order_perm. by rewrite (set_order_perm X). Qed.

Lemma elem_of_set_order (X : gset pykey) (k : pykey) : k ∈ set_order X ↔ k ∈ X.
Proof using set_order_perm. by rewrite (set_order_perm X), elem_of_elements. Qed.

Lemma set_order_once (X : gset pykey) (k : pykey) :
  k ∈ X → ∃ l1 l2, set_order X = l1 ++ k :: l2 ∧ (k ∉ l1) ∧ (k ∉ l2).
Proof using set_order_perm.
  intros Hk. apply elem_of_set_order, list_elem_of_split in Hk as (l1 & l2 & Heq).
  exists l1, l2. split; [done|].
  assert (Hnodup : NoDup (set_order X)).
  { rewrite (set_order_perm X). apply NoDup_elements. }
  rewrite Heq in Hnodup. apply NoDup_app in Hnodup as (_ & Hl1 & Hl2).
  apply NoDup_cons in Hl2 as [Hl2 _]. split; [|done].
  intros Hin. apply (Hl1 k Hin). left.
Qed.

Lemma update_action_may_update (T E : gmap pykey pydict) k task event w :
  T !! k = Some task → E !! k = Some event →
  update_action T E k w = may_update task event w.
Proof.
  intros Ht He. unfold update_action, mapping_get, M_bind, M_lift. by rewrite Ht, He.
Qed.

Lemma may_update_unchanged (task event : pydict) (a : string) w :
  task !! "last_edited_time" = Some (JStr a) →
  event !! "last_edited_time" = Some (JStr a) →
  may_update task event w = (Ok None, w).
Proof.
  intros Ht He. unfold may_update, dict_get, M_bind, M_lift. rewrite Ht, He. simpl.
  by rewrite String.eqb_refl.
Qed.

Lemma may_update_changed (task event : pydict) (a b : string) body id w :
  task !! "last_edited_time" = Some (JStr a) →
  event !! "last_edited_time" = Some (JStr b) →
  a ≠ b →
  task_to_event task = Ok body →
  event !! "event_id" = Some id →
  may_update task event w =
    (Ok (execute (Update id body) w.1).1,
     ((execute (Update id body) w.1).2, w.2 ++ [Update id body])).
Proof.
  intros Ht He Hne Hbody Hid. unfold may_update, dict_get, M_bind, M_lift.
  rewrite Ht, He. simpl. apply String.eqb_neq in Hne. rewrite Hne. simpl.
  rewrite Hbody, Hid. unfold issue. by destruct (execute (Update id body) w.1).
Qed.

Lemma issue_log (c : call) w slot w' :
  issue c w = (Ok slot, w') → w'.2 = w.2 ++ [c].
Proof. unfold issue. destruct (execute c w.1). by intros [= _ <-]. Qed.

Lemma create_action_log (T : gmap pykey pydict) k w slot w' :
  create_action T k w = (Ok slot, w') → w'.2 = w.2 ++ create_calls T k.
Proof.
  unfold create_action, create_calls, to_create, mapping_get, M_bind, M_lift.
  destruct (T !! k) as [task|]; [|discriminate].
  destruct (task_to_event task) as [event|]; [|discriminate]. apply issue_log.
Qed.

Lemma delete_action_log (E : gmap pykey pydict) k w slot w' :
  delete_action E k w = (Ok slot, w') → w'.2 = w.2 ++ delete_calls E k.
Proof.
  unfold delete_action, delete_calls, to_delete, mapping_get, M_bind, M_lift.
  destruct (E !! k) as [event|]; [|discriminate].
  destruct (dict_get event "event_id") as [id|]; [|discriminate].
  destruct (dict_get event "subject") as [subject|]; [|discriminate]. apply issue_log.
Qed.

Lemma update_action_log (T E : gmap pykey pydict) k w slot w' :
  update_action T E k w = (Ok slot, w') → w'.2 = w.2 ++ update_calls T E k.
Proof.
  unfold update_action, update_calls, may_update, mapping_get, M_bind, M_lift, M_ret.
  destruct (T !! k) as [task|]; [|discriminate].
  destruct (E !! k) as [event|]; [|discriminate].
  destruct (dict_get task "last_edited_time") as [x|]; [|discriminate].
  destruct (dict_get event "last_edited_time") as [y|]; [|discriminate].
  destruct (py_eq x y); simpl.
  - intros [= _ <-]. by rewrite app_nil_r.
  - destruct (task_to_event task) as [tmp|]; [|discriminate].
    destruct (dict_get event "event_id") as [id|]; [|discriminate]. apply issue_log.
Qed.

Lemma steps_log action (calls : pykey → list call) w ids slots w' :
  (∀ k w1 slot w2, action k w1 = (Ok slot, w2) → w2.2 = w1.2 ++ calls k) →
  steps action w ids slots w' →
  w'.2 = w.2 ++ flat_map calls ids.
Proof.
  intros Hcalls. induction 1 as [w|w w1 w2 k rest slot slots Hk _ IH]; simpl.
  - by rewrite app_nil_r.
  - rewrite IH, (Hcalls _ _ _ _ Hk). symmetry. apply app_assoc.
Qed.

(** The log of a run that returns: key by key, in the order of the three
    loops, what each key's action issues. *)
Lemma synchronize_tasks_log (T E : gmap pykey pydict) w report w' :
  synchronize_tasks T E w = (Ok report, w') →
  w'.2 = w.2
         ++ flat_map (create_calls T) (set_order (to_create_set T E))
         ++ flat_map (delete_calls E) (set_order (to_delete_set T E))
         ++ flat_map (update_calls T E) (set_order (may_update_set T E)).
Proof.
  intros (ce & de & ue & w1 & w2 & _ & Hc & Hd & Hu)%synchronize_tasks_inv.
  rewrite (steps_log _ _ _ _ _ _ (update_action_log T E) Hu).
  rewrite (steps_log _ _ _ _ _ _ (delete_action_log E) Hd).
  rewrite (steps_log _ _ _ _ _ _ (create_action_log T) Hc).
  by rewrite <- !app_assoc.
Qed.

(** X21: for a key of both mappings the update loop, and no other loop,
    visits the key once and runs [may_update] on its task and event.
    When the two [last_edited_time] strings are equal the call returns
    without touching the service or the log; when they differ, and the
    task projects to a payload, it issues one call, the update of the
    event's own [event_id] with that payload.  Nothing but the two
    strings decides between the two, and the log of a run that returns
    is made of what each visited key issues. *)
Theorem may_update_compares_last_edited_time
    (parsed_tasks parsed_events : gmap pykey pydict) (k : pykey)
    (task event : pydict) (a b : string) :
  parsed_tasks !! k = Some task →
  parsed_events !! k = Some event →
  task !! "last_edited_time" = Some (JStr a) →
  event !! "last_edited_time" = Some (JStr b) →
  (∃ l1 l2,
     set_order (may_update_set parsed_tasks parsed_events) = l1 ++ k :: l2
     ∧ (k ∉ l1) ∧ (k ∉ l2))
  ∧ (k ∉ set_order (to_create_set parsed_tasks parsed_events))
  ∧ (k ∉ set_order (to_delete_set parsed_tasks parsed_events))
  ∧ (∀ w, update_action parsed_tasks parsed_events k w = may_update task event w)
  ∧ (a = b →
     update_calls parsed_tasks parsed_events k = []
     ∧ ∀ w, may_update task event w = (Ok None, w))
  ∧ (a ≠ b → ∀ body id,
       task_to_event task = Ok body →
       event !! "event_id" = Some id →
       update_calls parsed_tasks parsed_events k = [Update id body]
       ∧ ∀ w, may_update task event w =
                (Ok (execute (Update id body) w.1).1,
                 ((execute (Update id body) w.1).2, w.2 ++ [Update id body])))
  ∧ (∀ w report w',
       synchronize_tasks parsed_tasks parsed_events w = (Ok report, w') →
       w'.2 = w.2
              ++ flat_map (create_calls parsed_tasks)
                   (set_order (to_create_set parsed_tasks parsed_events))
              ++ flat_map (delete_calls parsed_events)
                   (set_order (to_delete_set parsed_tasks parsed_events))
              ++ flat_map (update_calls parsed_tasks parsed_events)
                   (set_order (may_update_set parsed_tasks parsed_events))).
Proof using set_order_perm.
  intros Ht He Hta Heb.
  assert (HkT : k ∈ keys parsed_tasks) by (apply elem_of_dom; eauto).
  assert (HkE : k ∈ keys parsed_events) by (apply elem_of_dom; eauto).
  split; [|split; [|split; [|split; [|split; [|split]]]]].
  - apply set_order_once. unfold may_update_set. by apply elem_of_intersection.
  - rewrite elem_of_set_order. unfold to_create_set. rewrite elem_of_difference. forget_env. tauto.
  - rewrite elem_of_set_order. unfold to_delete_set. rewrite elem_of_difference. forget_env. tauto.
  - intros w. by apply update_action_may_update.
  - intros <-. split; [|intros w; by eapply may_update_unchanged].
    unfold update_calls, dict_get. rewrite Ht, He, Hta, Heb. simpl.
    by rewrite String.eqb_refl.
  - intros Hne body id Hbody Hid. split; [|intros w; by eapply may_update_changed].
    unfold update_calls, dict_get. rewrite Ht, He, Hta, Heb, Hbody, Hid. simpl.
    apply String.eqb_neq in Hne. by rewrite Hne.
  - apply synchronize_tasks_log.
Qed.

(** C6 (amended): a run that returns has appended one slot to the
    update error list for every key of the intersection set, in the
    order the loop visits them, whether or not a call was attempted.
    For a key whose two [last_edited_time] strings are equal no call
    is made and the slot is [None]. *)
Theorem may_update_err_has_a_slot_per_key
    (parsed_tasks parsed_events : gmap pykey pydict) w report w' :
  synchronize_tasks parsed_tasks parsed_events w = (Ok report, w') →
  length (error report).2 = size (may_update_set parsed_tasks parsed_events)
  ∧ Forall2
      (fun k slot =>
         ∀ task event a,
           parsed_tasks !! k = Some task →
           parsed_events !! k = Some event →
           task !! "last_edited_time" = Some (JStr a) →
           event !! "last_edited_time" = Some (JStr a) →
           slot = None
           ∧ ∀ w1, update_action parsed_tasks parsed_events k w1 = (Ok None, w1))
      (set_order (may_update_set parsed_tasks parsed_events))
      (error report).2.
Proof using set_order_perm.
  intros (ce & de & ue & w1 & w2 & -> & _ & _ & Hu)%synchronize_tasks_inv. simpl.
  split.
  - by rewrite (steps_length _ _ _ _ _ Hu), set_order_length.
  - eapply Forall2_impl; [exact (steps_Forall2 _ _ _ _ _ Hu)|].
    intros k slot (wa & wb & Hact) task event a Ht He Hta Hea.
    assert (Hnoop : ∀ w0, update_action parsed_tasks parsed_events k w0 = (Ok None, w0)).
    { intros w0. rewrite (update_action_may_update _ _ _ _ _ _ Ht He).
      by eapply may_update_unchanged. }
    split; [|exact Hnoop]. rewrite Hnoop in Hact. by injection Hact as <- _.
Qed.

(** ** Reconciliation: a second run *)

Lemma classify_task_without_event (k : pykey) (task : pydict) :
  to_create_set {[k := task]} ∅ = {[k]}
  ∧ to_delete_set {[k := task]} ∅ = ∅
  ∧ may_update_set {[k := task]} ∅ = ∅.
Proof.
  unfold to_create_set, to_delete_set, may_update_set, keys.
  rewrite dom_singleton_L, dom_empty_L. repeat split; by_membership.
Qed.

Lemma synchronize_tasks_creates (k : pykey) (task : pydict) (body : json) w :
  task_to_event task = Ok body →
  synchronize_tasks {[k := task]} ∅ w =
    (Ok {| task_ids := ({[k]}, ∅, ∅);
           error := ([(execute (Insert body) w.1).1], [], []) |},
     ((execute (Insert body) w.1).2, w.2 ++ [Insert body])).
Proof using set_order_perm.
  intros Hbody. unfold synchronize_tasks.
  destruct (classify_task_without_event k task) as (-> & -> & ->).
  rewrite set_order_singleton, set_order_empty. cbn [for_each].
  unfold create_action, to_create, mapping_get, M_bind, M_lift, M_ret, issue.
  rewrite lookup_singleton_eq, Hbody.
  by destruct (execute (Insert body) w.1).
Qed.

(** What [task_to_event] built when it returns. *)
Lemma task_to_event_inv (task : pydict) (payload : json) :
  task_to_event task = Ok payload →
  ∃ event_finish description name start finish reminders,
    add_30_minutes (event_start task) = Ok event_finish
    ∧ event_description task = Ok description
    ∧ dict_get task "name" = Ok name
    ∧ astimezone (event_start task) = Ok start
    ∧ astimezone event_finish = Ok finish
    ∧ payload = JObj [("summary", name); ("description", JStr description);
                      ("start", JObj [("dateTime", JStr (isoformat start))]);
                      ("end", JObj [("dateTime", JStr (isoformat finish))]);
                      ("reminders", reminders)].
Proof.
  unfold task_to_event. intros H.
  apply bind_Ok_inv in H as (event_finish & Hevent_finish & H).
  apply bind_Ok_inv in H as (description & Hdescription & H).
  apply bind_Ok_inv in H as (name & Hname & H).
  apply bind_Ok_inv in H as (start & Hstart & H).
  apply bind_Ok_inv in H as (finish & Hfinish & H).
  injection H as <-. by eexists event_finish, description, name, start, finish, _.
Qed.

(** C3: a task whose description has two lines, and whose projection
    returns.  The first run creates its event; the calendar then lists
    the projected payload, which the Event Record Parser fails to
    decode (the second line of the body has no colon), so the event
    mapping of the second run is empty, the task is in [to_create]
    again, and the second run inserts the same payload once more. *)
Theorem second_run_creates_two_line_task_again (payload : json) :
  task_to_event (task_of two_line_record) = Ok payload →
  parse_tasks_in_database (database [two_line_record]) = Ok (two_line_tasks, [])
  ∧ (∀ w, synchronize_tasks two_line_tasks ∅ w =
            (Ok {| task_ids := ({[KStr "abc"]}, ∅, ∅);
                   error := ([(execute (Insert payload) w.1).1], [], []) |},
             ((execute (Insert payload) w.1).2, w.2 ++ [Insert payload])))
  ∧ ∀ id,
      parse_events [calendar_event id payload]
        = (∅, [(calendar_event id payload, IndexError)])
      ∧ to_create_set two_line_tasks (parse_events [calendar_event id payload]).1
        = {[KStr "abc"]}
      ∧ ∀ w, ∃ report w',
          synchronize_tasks two_line_tasks
            (parse_events [calendar_event id payload]).1 w = (Ok report, w')
          ∧ w'.2 = w.2 ++ [Insert payload].
Proof using set_order_perm.
  intros Hpayload.
  split; [reflexivity|]. split.
  - intros w. by apply synchronize_tasks_creates.
  - intros id.
    assert (Hparse : parse_events [calendar_event id payload]
                     = (∅, [(calendar_event id payload, IndexError)])).
    { destruct (task_to_event_inv _ _ Hpayload)
        as (event_finish & description & name & start & finish & reminders
            & _ & Hdescription & _ & _ & _ & ->).
      assert (Hbody : event_description (task_of two_line_record)
                      = Ok ("Description: Quarterly numbers" +:+ nl +:+ "and the forecast"
                            +:+ nl +:+ "Notes: Notes are empty!" +:+ nl
                            +:+ "Category: Work" +:+ nl
                            +:+ "Assignment Date: 2024-05-01 - 00:00" +:+ nl
                            +:+ marker_lines "2024-05-01T10:00:00.000Z" "abc"))
        by reflexivity.
      rewrite Hbody in Hdescription. injection Hdescription as <-. reflexivity. }
    split; [exact Hparse|]. rewrite Hparse. simpl fst.
    split; [apply classify_task_without_event|].
    intros w. eexists _, _. split; [by apply synchronize_tasks_creates|]. done.
Qed.

(** ** Strings: [split] and [strip] over concatenations *)

Lemma append_cons (c : ascii) (s t : string) : String c s +:+ t = String c (s +:+ t).
Proof. reflexivity. Qed.

Lemma append_nil_l (t : string) : "" +:+ t = t.
Proof. reflexivity. Qed.

Lemma append_assoc (a b c : string) : (a +:+ b) +:+ c = a +:+ b +:+ c.
Proof.
  induction a as [|x a IH]; [reflexivity|].
  rewrite !append_cons. by rewrite IH.
Qed.

Lemma contains_append (c : ascii) (a b : string) :
  contains c (a +:+ b) = contains c a || contains c b.
Proof.
  induction a as [|x a IH]; [reflexivity|].
  rewrite append_cons. simpl. destruct (decide (x = c)); [reflexivity | exact IH].
Qed.

Lemma py_split_plain (c : ascii) (s : string) :
  contains c s = false → py_split c s = [s].
Proof.
  induction s as [|x s IH]; [reflexivity|]. simpl.
  destruct (decide (x = c)); [discriminate|]. intros Hs. by rewrite (IH Hs).
Qed.

Lemma py_split_append (c : ascii) (a b : string) :
  contains c a = false → py_split c (a +:+ String c b) = a :: py_split c b.
Proof.
  induction a as [|x a IH].
  - intros _. rewrite append_nil_l. simpl. by rewrite decide_True.
  - rewrite append_cons. simpl. destruct (decide (x = c)); [discriminate|].
    intros Ha. by rewrite (IH Ha).
Qed.

Lemma py_split_head (c : ascii) (s : string) :
  ∃ rest, py_split c s = before c s :: rest.
Proof.
  induction s as [|x s [rest IH]]; [by exists []|]. simpl.
  destruct (decide (x = c)); [eauto|]. rewrite IH. eauto.
Qed.

Lemma py_split_two (c : ascii) (s : string) :
  contains c s = true → ∃ p q rest, py_split c s = p :: q :: rest.
Proof.
  induction s as [|x s IH]; [discriminate|]. simpl.
  destruct (decide (x = c)).
  - intros _. destruct (py_split_head c s) as [rest ->]. eauto.
  - intros Hs. destruct (IH Hs) as (p & q & rest & ->). eauto.
Qed.

Lemma before_append (c : ascii) (a b : string) :
  contains c a = false → before c (a +:+ b) = a +:+ before c b.
Proof.
  induction a as [|x a IH]; [reflexivity|].
  rewrite !append_cons. simpl. destruct (decide (x = c)); [discriminate|].
  intros Ha. by rewrite (IH Ha).
Qed.

Lemma before_prefix (c : ascii) (s : string) : ∃ tail, s = before c s +:+ tail.
Proof.
  induction s as [|x s [tail IH]]; [by exists ""|]. simpl.
  destruct (decide (x = c)).
  - by exists (String x s).
  - exists tail. rewrite append_cons. by rewrite <- IH.
Qed.

Lemma rstrip_append (a b : string) :
  rstrip b ≠ "" → rstrip (a +:+ b) = a +:+ rstrip b.
Proof.
  intros Hb. induction a as [|x a IH]; [reflexivity|].
  rewrite !append_cons. simpl. rewrite IH.
  destruct (a +:+ rstrip b) eqn:Heq; [|reflexivity].
  destruct a; [|discriminate]. by rewrite append_nil_l in Heq.
Qed.

Lemma rstrip_trailing_space (s : string) (c : ascii) :
  is_space c = true → rstrip (s +:+ String c "") = rstrip s.
Proof.
  intros Hc. induction s as [|x s IH].
  - rewrite append_nil_l. simpl. by rewrite Hc.
  - rewrite append_cons. simpl. by rewrite IH.
Qed.

Lemma rstrip_idempotent (s : string) : rstrip (rstrip s) = rstrip s.
Proof.
  induction s as [|x s IH]; [reflexivity|]. simpl.
  destruct (rstrip s) as [|y r] eqn:Hr.
  - destruct (is_space x) eqn:Hx; [reflexivity|]. simpl. by rewrite Hx.
  - simpl. simpl in IH. by rewrite IH.
Qed.

Lemma contains_rstrip (c : ascii) (s : string) :
  contains c s = false → contains c (rstrip s) = false.
Proof.
  induction s as [|x s IH]; [reflexivity|]. simpl.
  destruct (decide (x = c)) as [|Hx]; [discriminate|]. intros Hs.
  destruct (rstrip s) as [|y r] eqn:Hr.
  - destruct (is_space x); [reflexivity|]. simpl. by rewrite decide_False.
  - simpl. rewrite decide_False by done. exact (IH Hs).
Qed.

Lemma strip_leading_space (c : ascii) (s : string) :
  is_space c = true → strip (String c s) = strip s.
Proof.
  intros Hc. unfold strip. simpl.
  destruct (rstrip s) as [|y r]; simpl; by rewrite Hc.
Qed.

Lemma strip_rstrip (s : string) : strip (rstrip s) = strip s.
Proof. unfold strip. by rewrite rstrip_idempotent. Qed.

Lemma strip_nonempty (s : string) : strip s ≠ "" → rstrip s ≠ "".
Proof. unfold strip. intros Hs Hr. apply Hs. by rewrite Hr. Qed.

Lemma nl_append (s : string) : nl +:+ s = String LF s.
Proof. reflexivity. Qed.

Lemma append_nonempty_r (a b : string) : b ≠ "" → a +:+ b ≠ "".
Proof. intros Hb. destruct a; [by rewrite append_nil_l | by rewrite append_cons]. Qed.

Lemma join_lines_nonempty (lines : list string) (last : string) :
  last ≠ "" → join_lines lines last ≠ "".
Proof.
  intros Hlast. destruct lines as [|line lines]; [done|].
  cbn [join_lines foldr]. apply append_nonempty_r. by rewrite nl_append.
Qed.

Lemma rstrip_join_lines (lines : list string) (last : string) :
  rstrip last ≠ "" → rstrip (join_lines lines last) = join_lines lines (rstrip last).
Proof.
  intros Hlast. induction lines as [|line lines IH]; [reflexivity|].
  cbn [join_lines foldr]. fold (join_lines lines last). fold (join_lines lines (rstrip last)).
  assert (Hrest : rstrip (nl +:+ join_lines lines last)
                  = nl +:+ join_lines lines (rstrip last)).
  { rewrite rstrip_append; rewrite IH; [done|]. by apply join_lines_nonempty. }
  rewrite rstrip_append; rewrite Hrest; [done|]. by rewrite nl_append.
Qed.

Lemma py_split_join_lines (lines : list string) (last : string) :
  Forall (fun line => contains LF line = false) lines →
  py_split LF (join_lines lines last) = lines ++ py_split LF last.
Proof.
  induction 1 as [|line lines Hline _ IH]; [reflexivity|].
  cbn [join_lines foldr]. fold (join_lines lines last).
  rewrite nl_append.
  rewrite (py_split_append LF line _ Hline), IH. reflexivity.
Qed.

(** ** Event Record Parser: values with a colon *)

Lemma labeled_value_before (label v : string) :
  contains ":" label = false →
  labeled_value (label +:+ String ":" v) = Ok (strip (before ":" v)).
Proof.
  intros Hlabel. unfold labeled_value. rewrite (py_split_append ":" label v Hlabel).
  destruct (py_split_head ":" v) as [rest ->]. reflexivity.
Qed.

Lemma labeled_value_plain (label v : string) :
  contains ":" label = false → contains ":" v = false →
  labeled_value (label +:+ String ":" (String " " v)) = Ok (strip v).
Proof.
  intros Hlabel Hv. rewrite (labeled_value_before label _ Hlabel).
  change (String " " v) with (" " +:+ v).
  rewrite (before_append ":" " " v eq_refl).
  destruct (py_split_head ":" v) as [rest Hrest].
  rewrite (py_split_plain ":" v Hv) in Hrest. injection Hrest as <- _.
  by rewrite append_cons, append_nil_l, strip_leading_space.
Qed.

Lemma append_nil_r (s : string) : s +:+ "" = s.
Proof. induction s as [|x s IH]; [reflexivity|]. rewrite append_cons. by rewrite IH. Qed.

Lemma labeled_value_cut (label value rest : string) :
  contains ":" label = false → contains ":" value = false →
  labeled_value (label +:+ ":" +:+ value +:+ ":" +:+ rest) = Ok (strip value).
Proof.
  intros Hlabel Hvalue. rewrite !append_cons, !append_nil_l.
  rewrite (labeled_value_before label _ Hlabel), (before_append ":" value _ Hvalue).
  simpl before. by rewrite append_nil_r.
Qed.

(** C5: [split(":")[1]] keeps the text between the first and the second
    colon of a labeled line, so a value that contains a colon is cut at
    it, whatever follows: the description "Call Bob: 3pm" is decoded as
    "Call Bob", and the assignment line the Projector writes, whose hour
    has colons, as "2024-05-01 - 10". *)
Theorem labeled_value_stops_at_second_colon :
  (∀ label value rest,
     contains ":" label = false → contains ":" value = false →
     labeled_value (label +:+ ":" +:+ value +:+ ":" +:+ rest) = Ok (strip value))
  ∧ labeled_value "Description: Call Bob: 3pm" = Ok "Call Bob"
  ∧ labeled_value "Assignment Date: 2024-05-01 - 10:00:00" = Ok "2024-05-01 - 10"
  ∧ labeled_value "Notes: Notes are empty!" = Ok "Notes are empty!"
  ∧ ∃ tmp,
      parse_events [listed_event "e1" colon_body] = ({[KStr "abc" := tmp]}, [])
      ∧ tmp !! "description" = Some (JStr "Call Bob")
      ∧ tmp !! "assignment_date" = Some (JStr "2024-05-01 - 10").
Proof.
  split; [exact labeled_value_cut|].
  repeat split; try reflexivity.
  eexists. repeat split; reflexivity.
Qed.

(** ** Projection followed by decoding *)

Lemma event_description_lines (task : pydict) (d n c a h e i : string) :
  task !! "description" = Some (JStr d) →
  task !! "notes" = Some (JStr n) →
  task !! "category" = Some (JStr c) →
  task !! "assignment_date" = Some (JStr a) →
  task !! "assignment_hour" = Some (JStr h) →
  task !! "last_edited_time" = Some (JStr e) →
  task !! "task_id" = Some (JStr i) →
  event_description task =
    Ok (join_lines
          ["Description: " +:+ d; "Notes: " +:+ n; "Category: " +:+ c;
           "Assignment Date: " +:+ a +:+ " - " +:+ h;
           "----------"; "Please do not edit following lines!"; e]
          (i +:+ nl)).
Proof.
  intros Hd Hn Hc Ha Hh He Hi. unfold event_description, dict_get.
  rewrite Hd, Hn, Hc, Ha, Hh, He, Hi. cbn [as_str mbind result_mbind result_bind].
  f_equal. cbn [join_lines foldr]. rewrite !append_assoc. reflexivity.
Qed.

Lemma parse_event_of_lines (elem eid summary : json) (body v0 v1 v2 v3 d0 d1 e i : string)
    (rest : list string) :
  getitem elem "id" = Ok eid →
  getitem elem "summary" = Ok summary →
  getitem elem "description" = Ok (JStr body) →
  (index (py_split LF (strip body)) 0 ≫= labeled_value) = Ok v0 →
  (index (py_split LF (strip body)) 1 ≫= labeled_value) = Ok v1 →
  (index (py_split LF (strip body)) 2 ≫= labeled_value) = Ok v2 →
  (index (py_split LF (strip body)) 3 ≫= labeled_value) = Ok v3 →
  (x ← getitem elem "end"; dt ← getitem x "dateTime"; split_method dt "T")
    = Ok (d0 :: d1 :: rest) →
  index_neg (py_split LF (strip body)) 2 = Ok e →
  index_neg (py_split LF (strip body)) 1 = Ok i →
  ∃ event,
    parse_event elem = Ok (KStr (strip i), event)
    ∧ event !! "event_id" = Some eid
    ∧ event !! "subject" = Some summary
    ∧ event !! "description" = Some (JStr v0)
    ∧ event !! "notes" = Some (JStr v1)
    ∧ event !! "category" = Some (JStr v2)
    ∧ event !! "assignment_date" = Some (JStr v3)
    ∧ event !! "last_edited_time" = Some (JStr (strip e))
    ∧ event !! "task_id" = Some (JStr (strip i)).
Proof.
  intros Hid Hsummary Hbody H0 H1 H2 H3 Hend He Hi.
  eexists. split.
  - unfold parse_event. rewrite Hid, bind_Ok, Hsummary, bind_Ok, Hbody, bind_Ok.
    cbn [strip_method]. rewrite bind_Ok, H0, bind_Ok, H1, bind_Ok, H2, bind_Ok, H3, bind_Ok.
    rewrite Hend, bind_Ok. cbn [index lookup list_lookup]. rewrite !bind_Ok.
    rewrite He, bind_Ok, Hi, bind_Ok. unfold dict_get. rewrite lookup_insert_eq.
    reflexivity.
  - repeat split; lookup_field; reflexivity.
Qed.

Lemma lstrip_nonspace (c : ascii) (s : string) :
  is_space c = false → lstrip (String c s) = String c s.
Proof. intros Hc. simpl. by rewrite Hc. Qed.

Lemma contains_isoformat (dt : datetime) : contains "T" (isoformat dt) = true.
Proof.
  unfold isoformat. rewrite contains_append, append_cons. simpl.
  apply orb_true_r.
Qed.

(** The lines the Event Record Parser sees in a projected body. *)
Lemma projected_body_lines (d n c a h e i : string) :
  Forall (fun s => contains LF s = false) [d; n; c; a; h; e; i] →
  strip i ≠ "" →
  py_split LF
    (strip (join_lines
              ["Description: " +:+ d; "Notes: " +:+ n; "Category: " +:+ c;
               "Assignment Date: " +:+ a +:+ " - " +:+ h;
               "----------"; "Please do not edit following lines!"; e]
              (i +:+ nl)))
  = ["Description: " +:+ d; "Notes: " +:+ n; "Category: " +:+ c;
     "Assignment Date: " +:+ a +:+ " - " +:+ h;
     "----------"; "Please do not edit following lines!"; e; rstrip i].
Proof.
  intros Hlines Hi.
  apply Forall_cons in Hlines as [Hd Hlines]. apply Forall_cons in Hlines as [Hn Hlines].
  apply Forall_cons in Hlines as [Hc Hlines]. apply Forall_cons in Hlines as [Ha Hlines].
  apply Forall_cons in Hlines as [Hh Hlines]. apply Forall_cons in Hlines as [He Hlines].
  apply Forall_cons in Hlines as [Hi' _].
  assert (Hlast : rstrip (i +:+ nl) = rstrip i) by by apply rstrip_trailing_space.
  unfold strip. rewrite rstrip_join_lines; rewrite Hlast; [|by apply strip_nonempty].
  match goal with
  | |- py_split LF (lstrip ?J) = _ => assert (Hhead : lstrip J = J)
  end.
  { cbn [join_lines foldr]. rewrite !append_cons. by apply lstrip_nonspace. }
  rewrite Hhead, py_split_join_lines.
  - rewrite (py_split_plain LF (rstrip i)); [reflexivity|]. by apply contains_rstrip.
  - repeat apply Forall_cons_2; try apply Forall_nil_2;
      rewrite ?contains_append, ?Hd, ?Hn, ?Hc, ?Ha, ?Hh, ?He; reflexivity.
Qed.

(** The fields decoded from the projection of a task with plain fields,
    when the projector's date arithmetic returns. *)
Lemma projection_decodes_fields (task : pydict) (id : string) (name : json)
    (d n c a h e i : string) (event_finish start finish : datetime) :
  task !! "name" = Some name →
  task !! "description" = Some (JStr d) →
  task !! "notes" = Some (JStr n) →
  task !! "category" = Some (JStr c) →
  task !! "assignment_date" = Some (JStr a) →
  task !! "assignment_hour" = Some (JStr h) →
  task !! "last_edited_time" = Some (JStr e) →
  task !! "task_id" = Some (JStr i) →
  Forall (fun s => contains LF s = false) [d; n; c; a; h; e; i] →
  Forall (fun s => contains ":" s = false) [d; n; c; a] →
  strip i ≠ "" →
  add_30_minutes (event_start task) = Ok event_finish →
  astimezone (event_start task) = Ok start →
  astimezone event_finish = Ok finish →
  ∃ payload event,
    task_to_event task = Ok payload
    ∧ parse_event (calendar_event id payload) = Ok (KStr (strip i), event)
    ∧ event !! "task_id" = Some (JStr (strip i))
    ∧ event !! "last_edited_time" = Some (JStr (strip e))
    ∧ event !! "description" = Some (JStr (strip d))
    ∧ event !! "notes" = Some (JStr (strip n))
    ∧ event !! "category" = Some (JStr (strip c))
    ∧ event !! "assignment_date" = Some (JStr (strip (a +:+ " - " +:+ before ":" h))).
Proof.
  intros Hname Hd Hn Hc Ha Hh He Hi Hlines Hcolons Hid Hevent_finish Hstart Hfinish'.
  pose proof (event_description_lines task d n c a h e i Hd Hn Hc Ha Hh He Hi) as Hbody.
  pose proof (projected_body_lines d n c a h e i Hlines Hid) as Hsplit.
  apply Forall_cons in Hcolons as [Hd' Hcolons]. apply Forall_cons in Hcolons as [Hn' Hcolons].
  apply Forall_cons in Hcolons as [Hc' Hcolons]. apply Forall_cons in Hcolons as [Ha' _].
  set (body := join_lines _ _) in Hbody, Hsplit.
  assert (Hpayload : ∃ started reminders,
            task_to_event task =
              Ok (JObj [("summary", name); ("description", JStr body); ("start", started);
                        ("end", JObj [("dateTime", JStr (isoformat finish))]);
                        ("reminders", reminders)])).
  { eexists _, _. unfold task_to_event. rewrite Hevent_finish, bind_Ok, Hbody, bind_Ok.
    unfold dict_get. rewrite Hname, bind_Ok, Hstart, bind_Ok, Hfinish', bind_Ok.
    reflexivity. }
  destruct Hpayload as (started & reminders & Hpayload).
  destruct (py_split_two "T" _ (contains_isoformat finish)) as (d0 & d1 & rest & Hfinish).
  match type of Hpayload with _ = Ok ?p => set (payload := p) in Hpayload end.
  destruct (parse_event_of_lines
              (calendar_event id payload) (JStr id) name body
              (strip d) (strip n) (strip c) (strip (a +:+ " - " +:+ before ":" h))
              d0 d1 e (rstrip i) rest) as (event & Hevent & _ & _ & H0 & H1 & H2 & H3 & H4 & H5).
  - reflexivity.
  - reflexivity.
  - reflexivity.
  - rewrite Hsplit. apply (labeled_value_plain "Description" d eq_refl Hd').
  - rewrite Hsplit. apply (labeled_value_plain "Notes" n eq_refl Hn').
  - rewrite Hsplit. apply (labeled_value_plain "Category" c eq_refl Hc').
  - rewrite Hsplit. cbn [index lookup list_lookup]. rewrite bind_Ok.
    change ("Assignment Date: " +:+ a +:+ " - " +:+ h)
      with ("Assignment Date" +:+ String ":" (" " +:+ a +:+ " - " +:+ h)).
    rewrite (labeled_value_before "Assignment Date" _ eq_refl).
    rewrite (before_append ":" " " _ eq_refl), (before_append ":" a _ Ha').
    rewrite (before_append ":" " - " _ eq_refl).
    by rewrite append_cons, append_nil_l, strip_leading_space.
  - exact (f_equal Ok Hfinish).
  - by rewrite Hsplit.
  - by rewrite Hsplit.
  - rewrite strip_rstrip in Hevent, H5.
    exists payload, event. split; [exact Hpayload|].
    repeat (split; [assumption|]). assumption.
Qed.


Lemma append_longer (a : string) (c : ascii) (t : string) : a +:+ String c t ≠ a.
Proof.
  induction a as [|x a IH]; [discriminate|].
  rewrite append_cons. intros [= H]. by apply IH.
Qed.

Lemma lstrip_head (s : string) (c : ascii) (r : string) :
  lstrip s = String c r → is_space c = false.
Proof.
  induction s as [|x s IH]; [discriminate|]. simpl.
  destruct (is_space x) eqn:Hx; [exact IH|]. by intros [= <- _].
Qed.

(** A date followed by [" - "] and anything is never, once trimmed, the
    date alone. *)
Lemma strip_joined_differs (a x : string) : strip (a +:+ " - " +:+ x) ≠ a.
Proof.
  assert (Htail : ∃ q, rstrip (" - " +:+ x) = String " " (String "-" q)).
  { change (" - " +:+ x) with (String " " (String "-" (String " " x))).
    cbn [rstrip]. destruct (rstrip x) as [|y r].
    - by exists "".
    - destruct (is_space " "); by eexists. }
  destruct Htail as [q Hq]. unfold strip.
  rewrite rstrip_append by (by rewrite Hq). rewrite Hq. clear Hq.
  induction a as [|c a IH].
  - discriminate.
  - rewrite append_cons. cbn [lstrip]. destruct (is_space c) eqn:Hc.
    + intros Heq. apply lstrip_head in Heq. congruence.
    + intros [= Heq]. by apply append_longer in Heq.
Qed.

(** C2 (amended): a task whose text fields are single lines, whose
    description, notes, category and assignment date have no colon,
    whose task id is not blank, and for which the projector's date
    arithmetic returns (the half hour added to the start and the two
    calls of [astimezone()], all outside the [try] block), projects to
    a payload that the Event Record Parser decodes; the decoded task
    id, last edited time, description, notes and category are those of
    the task, trimmed of surrounding white space.  The assignment date
    is not recovered: the body carries the date and the hour on one
    line, and what is decoded from that line is never the task's
    assignment date. *)
Theorem projected_task_decodes (task : pydict) (id : string) (name : json)
    (d n c a h e i : string) (event_finish start finish : datetime) :
  task !! "name" = Some name →
  task !! "description" = Some (JStr d) →
  task !! "notes" = Some (JStr n) →
  task !! "category" = Some (JStr c) →
  task !! "assignment_date" = Some (JStr a) →
  task !! "assignment_hour" = Some (JStr h) →
  task !! "last_edited_time" = Some (JStr e) →
  task !! "task_id" = Some (JStr i) →
  Forall (fun s => contains LF s = false) [d; n; c; a; h; e; i] →
  Forall (fun s => contains ":" s = false) [d; n; c; a] →
  strip i ≠ "" →
  add_30_minutes (event_start task) = Ok event_finish →
  astimezone (event_start task) = Ok start →
  astimezone event_finish = Ok finish →
  ∃ payload event,
    task_to_event task = Ok payload
    ∧ parse_event (calendar_event id payload) = Ok (KStr (strip i), event)
    ∧ parse_events [calendar_event id payload] = ({[KStr (strip i) := event]}, [])
    ∧ event !! "task_id" = Some (JStr (strip i))
    ∧ event !! "last_edited_time" = Some (JStr (strip e))
    ∧ event !! "description" = Some (JStr (strip d))
    ∧ event !! "notes" = Some (JStr (strip n))
    ∧ event !! "category" = Some (JStr (strip c))
    ∧ ∃ joined, event !! "assignment_date" = Some (JStr joined) ∧ joined ≠ a.
Proof.
  intros Hname Hd Hn Hc Ha Hh He Hi Hlines Hcolons Hid Hevent_finish Hstart Hfinish.
  destruct (projection_decodes_fields task id name d n c a h e i event_finish start finish)
    as (payload & event & Hpayload & Hevent & H5 & H4 & H0 & H1 & H2 & H3); try done.
  exists payload, event.
  split; [exact Hpayload|]. split; [exact Hevent|]. split.
  { unfold parse_events. cbn [foldl]. unfold parse_events_step. rewrite Hevent.
    by rewrite insert_empty. }
  split; [exact H5|]. split; [exact H4|]. split; [exact H0|].
  split; [exact H1|]. split; [exact H2|].
  eexists. split; [exact H3|]. apply strip_joined_differs.
Qed.

Lemma classify_task_with_event (k : pykey) (task event : pydict) :
  to_create_set {[k := task]} {[k := event]} = ∅
  ∧ to_delete_set {[k := task]} {[k := event]} = ∅
  ∧ may_update_set {[k := task]} {[k := event]} = {[k]}.
Proof.
  unfold to_create_set, to_delete_set, may_update_set, keys.
  rewrite !dom_singleton_L. repeat split; by_membership.
Qed.

(** The run that follows the creation of an event, for a task as in
    [projection_decodes_fields] whose task id and last edited time carry
    no surrounding white space: the key is classified as [may_update]
    only and no call is issued. *)
Lemma second_run_is_a_no_op (task : pydict) (id : string) (name : json)
    (d n c a h e i : string) (event_finish start finish : datetime) :
  task !! "name" = Some name →
  task !! "description" = Some (JStr d) →
  task !! "notes" = Some (JStr n) →
  task !! "category" = Some (JStr c) →
  task !! "assignment_date" = Some (JStr a) →
  task !! "assignment_hour" = Some (JStr h) →
  task !! "last_edited_time" = Some (JStr e) →
  task !! "task_id" = Some (JStr i) →
  Forall (fun s => contains LF s = false) [d; n; c; a; h; e; i] →
  Forall (fun s => contains ":" s = false) [d; n; c; a] →
  i ≠ "" → strip i = i → strip e = e →
  add_30_minutes (event_start task) = Ok event_finish →
  astimezone (event_start task) = Ok start →
  astimezone event_finish = Ok finish →
  ∃ event,
    parse_events [calendar_event id (payload_of task)] = ({[KStr i := event]}, [])
    ∧ ∀ w, synchronize_tasks {[KStr i := task]} {[KStr i := event]} w =
             (Ok {| task_ids := (∅, ∅, {[KStr i]}); error := ([], [], [None]) |}, w).
Proof using set_order_perm.
  intros Hname Hd Hn Hc Ha Hh He Hi Hlines Hcolons Hne Hsi Hse Hevent_finish Hstart Hfinish.
  destruct (projection_decodes_fields task id name d n c a h e i event_finish start finish)
    as (payload & event & Hpayload & Hevent & _ & Hedited & _); try done.
  { by rewrite Hsi. }
  rewrite Hsi in Hevent. rewrite Hse in Hedited.
  exists event. split.
  - unfold payload_of. rewrite Hpayload. unfold parse_events. cbn [foldl].
    unfold parse_events_step. rewrite Hevent. by rewrite insert_empty.
  - intros w. unfold synchronize_tasks.
    destruct (classify_task_with_event (KStr i) task event) as (-> & -> & ->).
    rewrite set_order_singleton, set_order_empty. cbn [for_each].
    assert (Hnoop : update_action {[KStr i := task]} {[KStr i := event]} (KStr i) w
                    = (Ok None, w)).
    { rewrite (update_action_may_update _ _ _ task event) by apply lookup_singleton_eq.
      by apply (may_update_unchanged task event e). }
    unfold M_bind, M_ret. cbn beta iota. by rewrite Hnoop.
Qed.

(** * Further properties of the program *)

(** ** Event Record Parser: what a decoded event holds *)

Lemma lstrip_idempotent (s : string) : lstrip (lstrip s) = lstrip s.
Proof.
  induction s as [|c s IH]; [reflexivity|]. simpl.
  destruct (is_space c) eqn:Hc; [exact IH|]. simpl. by rewrite Hc.
Qed.

Lemma rstrip_lstrip (s : string) : rstrip s = s → rstrip (lstrip s) = lstrip s.
Proof.
  induction s as [|c s IH]; [reflexivity|]. intros Hs.
  cbn [lstrip]. destruct (is_space c) eqn:Hc; [|exact Hs].
  apply IH. simpl in Hs. rewrite Hc in Hs.
  destruct (rstrip s) as [|x r]; [discriminate|]. by injection Hs.
Qed.

Lemma strip_idempotent (s : string) : strip (strip s) = strip s.
Proof.
  unfold strip. rewrite (rstrip_lstrip (rstrip s) (rstrip_idempotent s)).
  apply lstrip_idempotent.
Qed.

Lemma labeled_value_trimmed (line v : string) :
  labeled_value line = Ok v → strip v = v.
Proof.
  unfold labeled_value. intros (piece & _ & [= <-])%bind_Ok_inv. apply strip_idempotent.
Qed.

(** What [parse_event] read when it returns. *)
Lemma parse_event_inv (elem : json) (k : pykey) (tmp : pydict) :
  parse_event elem = Ok (k, tmp) →
  ∃ eid summary body v0 v1 v2 v3 d0 d1 e i,
    getitem elem "id" = Ok eid
    ∧ getitem elem "summary" = Ok summary
    ∧ getitem elem "description" = Ok (JStr body)
    ∧ (index (py_split LF (strip body)) 0 ≫= labeled_value) = Ok v0
    ∧ (index (py_split LF (strip body)) 1 ≫= labeled_value) = Ok v1
    ∧ (index (py_split LF (strip body)) 2 ≫= labeled_value) = Ok v2
    ∧ (index (py_split LF (strip body)) 3 ≫= labeled_value) = Ok v3
    ∧ index_neg (py_split LF (strip body)) 2 = Ok e
    ∧ index_neg (py_split LF (strip body)) 1 = Ok i
    ∧ k = KStr (strip i)
    ∧ tmp = <["task_id" := JStr (strip i)]>
              (<["last_edited_time" := JStr (strip e)]>
                 (<["due_hour" := JStr d1]>
                    (<["due_date" := JStr d0]>
                       (<["assignment_date" := JStr v3]>
                          (<["category" := JStr v2]>
                             (<["notes" := JStr v1]>
                                (<["description" := JStr v0]>
                                   (<["subject" := summary]>
                                      (<["event_id" := eid]> ∅))))))))).
Proof.
  unfold parse_event. intros H.
  apply bind_Ok_inv in H as (eid & Hid & H).
  apply bind_Ok_inv in H as (summary & Hsummary & H).
  apply bind_Ok_inv in H as (body & Hbody & H).
  apply bind_Ok_inv in H as (stripped & Hstripped & H).
  destruct body as [| | |body| |]; try discriminate. injection Hstripped as <-.
  apply bind_Ok_inv in H as (v0 & H0 & H).
  apply bind_Ok_inv in H as (v1 & H1 & H).
  apply bind_Ok_inv in H as (v2 & H2 & H).
  apply bind_Ok_inv in H as (v3 & H3 & H).
  apply bind_Ok_inv in H as (dueDate & _ & H).
  apply bind_Ok_inv in H as (d0 & _ & H).
  apply bind_Ok_inv in H as (d1 & _ & H).
  apply bind_Ok_inv in H as (e & He & H).
  apply bind_Ok_inv in H as (i & Hi & H).
  unfold dict_get in H. rewrite lookup_insert_eq in H. simpl in H.
  injection H as <- <-.
  exists eid, summary, body, v0, v1, v2, v3, d0, d1, e, i. by repeat split.
Qed.

Lemma parse_events_provenance (events : list json) (k : pykey) (tmp : pydict) :
  (parse_events events).1 !! k = Some tmp →
  ∃ elem, elem ∈ events ∧ parse_event elem = Ok (k, tmp).
Proof.
  unfold parse_events. destruct (parse_events_fold events (∅, [])) as [_ Hmap].
  rewrite Hmap. simpl. rewrite lookup_empty.
  destruct (last_decoded k events) as [tmp'|] eqn:Hlast; [|discriminate].
  intros [= ->]. unfold last_decoded in Hlast.
  apply last_Some_elem_of, list_elem_of_omap in Hlast as (elem & Hin & Hdec).
  exists elem. split; [done|]. unfold decodes_to in Hdec.
  destruct (parse_event elem) as [[k' tmp']|]; [|discriminate].
  destruct (decide (k' = k)) as [->|]; [|discriminate]. by injection Hdec as ->.
Qed.

(** X1: every entry of the mapping [parse_events] returns was decoded
    from an event of the input, holds exactly the ten fields of a
    decoded event, carries the listed event's [id] as [event_id] and its
    [summary] as [subject], and is stored under its own [task_id]; that
    task id, the last edited time and the four labeled values are
    strings without surrounding white space. *)
Theorem parse_events_entries_are_decoded (events : list json) (k : pykey) (tmp : pydict) :
  (parse_events events).1 !! k = Some tmp →
  dom tmp = event_fields
  ∧ ∃ elem eid summary id edited,
      elem ∈ events
      ∧ parse_event elem = Ok (k, tmp)
      ∧ getitem elem "id" = Ok eid ∧ tmp !! "event_id" = Some eid
      ∧ getitem elem "summary" = Ok summary ∧ tmp !! "subject" = Some summary
      ∧ k = KStr id ∧ tmp !! "task_id" = Some (JStr id) ∧ strip id = id
      ∧ tmp !! "last_edited_time" = Some (JStr edited) ∧ strip edited = edited
      ∧ ∀ field, field ∈ ["description"; "notes"; "category"; "assignment_date"] →
          ∃ v, tmp !! field = Some (JStr v) ∧ strip v = v.
Proof.
  intros (elem & Hin & Hparse)%parse_events_provenance.
  destruct (parse_event_inv elem k tmp Hparse)
    as (eid & summary & body & v0 & v1 & v2 & v3 & d0 & d1 & e & i
        & Hid & Hsummary & _ & H0 & H1 & H2 & H3 & _ & _ & -> & ->).
  split.
  - rewrite !dom_insert_L, dom_empty_L. reflexivity.
  - exists elem, eid, summary, (strip i), (strip e).
    split; [done|]. split; [done|]. split; [done|].
    split; [by lookup_field|]. split; [done|]. split; [by lookup_field|].
    split; [done|]. split; [by lookup_field|]. split; [apply strip_idempotent|].
    split; [by lookup_field|]. split; [apply strip_idempotent|].
    apply bind_Ok_inv in H0 as (l0 & _ & H0). apply bind_Ok_inv in H1 as (l1 & _ & H1).
    apply bind_Ok_inv in H2 as (l2 & _ & H2). apply bind_Ok_inv in H3 as (l3 & _ & H3).
    intros field Hfield. rewrite !elem_of_cons in Hfield.
    destruct Hfield as [->|[->|[->|[->|Hfield]]]]; [..|by apply elem_of_nil in Hfield].
    + exists v0. split; [by lookup_field | by eapply labeled_value_trimmed].
    + exists v1. split; [by lookup_field | by eapply labeled_value_trimmed].
    + exists v2. split; [by lookup_field | by eapply labeled_value_trimmed].
    + exists v3. split; [by lookup_field | by eapply labeled_value_trimmed].
Qed.

(** ** Event Record Parser: events that do not decode *)

Lemma labeled_line_raises (lines : list string) (i : nat) :
  (∀ line, lines !! i = Some line → contains ":" line = false) →
  ∃ error, (index lines i ≫= labeled_value) = Raise error.
Proof.
  intros Hline. unfold index. destruct (lines !! i) as [line|]; [|by eexists].
  rewrite bind_Ok. unfold labeled_value.
  rewrite (py_split_plain ":" line (Hline line eq_refl)). by eexists.
Qed.

Lemma parse_event_raises (elem : json) :
  (∀ body, getitem elem "description" ≠ Ok (JStr body))
  ∨ (∃ body i,
       getitem elem "description" = Ok (JStr body) ∧ (i < 4)%nat
       ∧ ∀ line, py_split LF (strip body) !! i = Some line → contains ":" line = false) →
  ∃ error, parse_event elem = Raise error.
Proof.
  intros Hbad. unfold parse_event. do 2 peel_bind.
  destruct Hbad as [Hnot|(body & i & Hbody & Hi & Hline)].
  - destruct (getitem elem "description") as [v|] eqn:Hv;
      [rewrite bind_Ok | rewrite bind_Raise; by eexists].
    destruct v as [| | |body| |]; try (eexists; reflexivity).
    by destruct (Hnot body).
  - rewrite Hbody, bind_Ok. cbn [strip_method]. rewrite bind_Ok.
    destruct (labeled_line_raises _ i Hline) as [error Herror].
    destruct i as [|[|[|[|i]]]]; [| | | |lia].
    + rewrite Herror. by eexists.
    + peel_bind. rewrite Herror. by eexists.
    + do 2 peel_bind. rewrite Herror. by eexists.
    + do 3 peel_bind. rewrite Herror. by eexists.
Qed.

(** X2: an event that has no [description], or one that is not a text,
    or one whose body, once trimmed, misses one of its first four lines
    or has one of them without a colon, does not decode: whatever the
    rest of the input, it is in the error list of [parse_events] with
    its exception and it is the source of no entry of the mapping. *)
Theorem undecodable_event_is_reported (events : list json) (elem : json) :
  elem ∈ events →
  (∀ body, getitem elem "description" ≠ Ok (JStr body))
  ∨ (∃ body i,
       getitem elem "description" = Ok (JStr body) ∧ (i < 4)%nat
       ∧ ∀ line, py_split LF (strip body) !! i = Some line → contains ":" line = false) →
  ∃ error,
    parse_event elem = Raise error
    ∧ (elem, error) ∈ (parse_events events).2
    ∧ ∀ k tmp, (parse_events events).1 !! k = Some tmp → parse_event elem ≠ Ok (k, tmp).
Proof.
  intros Hin Hbad. destruct (parse_event_raises elem Hbad) as [error Hraise].
  exists error. split; [done|]. split.
  - unfold parse_events. destruct (parse_events_fold events (∅, [])) as [-> _]. simpl.
    apply list_elem_of_omap. exists elem. by rewrite Hraise.
  - intros k tmp _. by rewrite Hraise.
Qed.

(** ** Task Record Parser: the normalized record *)

Lemma assignment_block_inv (tmp : pydict) (start : json) (tmp1 : pydict) :
  assignment_block tmp start = Ok tmp1 →
  ∃ s d h z,
    start = JStr s
    ∧ tmp1 = <["user_time_zone" := JStr z]>
               (<["assignment_hour" := JStr h]> (<["assignment_date" := JStr d]> tmp))
    ∧ ((∃ t, py_split "T" s = [d; t]
             ∧ index (py_split "." t) 0 = Ok h ∧ index (py_split "+" t) 1 = Ok z)
       ∨ (length (py_split "T" s) ≠ 2%nat ∧ index (py_split "T" s) 0 = Ok d
          ∧ h = "00:00" ∧ z = "")).
Proof.
  unfold assignment_block, differs_from_NoneType. intros H.
  apply bind_Ok_inv in H as (parts & Hparts & H).
  destruct start as [| | |s| |]; try discriminate. injection Hparts as <-.
  destruct (decide (length (py_split "T" s) = 2%nat)) as [Hlen|Hlen].
  - apply bind_Ok_inv in H as (d & Hd & H). apply bind_Ok_inv in H as (t & Ht & H).
    apply bind_Ok_inv in H as (h & Hh & H). apply bind_Ok_inv in H as (z & Hz & H).
    injection H as <-. exists s, d, h, z. split; [done|]. split; [done|]. left. exists t.
    destruct (py_split "T" s) as [|d' [|t' [|]]]; try discriminate.
    injection Hd as ->. injection Ht as ->. done.
  - apply bind_Ok_inv in H as (d & Hd & H). injection H as <-.
    exists s, d, "00:00", "". split; [done|]. split; [done|]. by right.
Qed.

Lemma due_block_inv (elem : json) (tmp : pydict) (start : json) (tmp2 : pydict) :
  due_block elem tmp start = Ok tmp2 →
  (∃ s d t h z,
      start = JStr s ∧ py_split "T" s = [d; t]
      ∧ index (py_split "." t) 0 = Ok h ∧ index (py_split "+" t) 1 = Ok z
      ∧ tmp2 = <["user_time_zone" := JStr z]>
                 (<["due_hour" := JStr h]> (<["due_date" := JStr d]> tmp)))
  ∨ (∃ s d z,
        start = JStr s ∧ length (py_split "T" s) ≠ 2%nat
        ∧ index (py_split "T" s) 0 = Ok d
        ∧ tmp !! "user_time_zone" = Some z
        ∧ tmp2 = if py_eq z (JStr "")
                 then <["user_time_zone" := JStr "00:00"]>
                        (<["due_hour" := JStr "12:00:00"]> (<["due_date" := JStr d]> tmp))
                 else <["due_hour" := JStr "12:00:00"]> (<["due_date" := JStr d]> tmp))
  ∨ (∃ created d t h,
        start = JNull ∧ getitem elem "created_time" = Ok (JStr created)
        ∧ index (py_split "T" created) 0 = Ok d ∧ index (py_split "T" created) 1 = Ok t
        ∧ index (py_split "." t) 0 = Ok h
        ∧ tmp2 = <["due_hour" := JStr h]>
                   (<["due_date" := JStr d]>
                      (<["assignment_date" :=
                           JStr "DUE DATE IS NOT SPECIFIED. TASK IS CREATED ON CREATION TIME!"]>
                         tmp))).
Proof.
  unfold due_block. intros H. destruct start as [| | |s| |]; cbn [is_not_None] in H;
    try (apply bind_Ok_inv in H as (parts & Hparts & _); discriminate).
  - right. right.
    apply bind_Ok_inv in H as (created & Hcreated & H).
    apply bind_Ok_inv in H as (parts & Hparts & H).
    destruct created as [| | |created| |]; try discriminate. injection Hparts as <-.
    apply bind_Ok_inv in H as (d & Hd & H). apply bind_Ok_inv in H as (t & Ht & H).
    apply bind_Ok_inv in H as (h & Hh & H). injection H as <-.
    by exists created, d, t, h.
  - apply bind_Ok_inv in H as (parts & Hparts & H). injection Hparts as <-.
    destruct (decide (length (py_split "T" s) = 2%nat)) as [Hlen|Hlen].
    + left.
      apply bind_Ok_inv in H as (d & Hd & H). apply bind_Ok_inv in H as (t & Ht & H).
      apply bind_Ok_inv in H as (h & Hh & H). apply bind_Ok_inv in H as (z & Hz & H).
      injection H as <-. exists s, d, t, h, z.
      destruct (py_split "T" s) as [|d' [|t' [|]]]; try discriminate.
      injection Hd as ->. injection Ht as ->. done.
    + right. left.
      apply bind_Ok_inv in H as (d & Hd & H). apply bind_Ok_inv in H as (z & Hz & H).
      unfold dict_get in Hz. rewrite !lookup_insert_ne in Hz by discriminate.
      destruct (tmp !! "user_time_zone") as [z'|] eqn:Hz'; [|discriminate].
      injection Hz as ->. exists s, d, z. split; [done|]. split; [done|]. split; [done|].
      split; [done|]. destruct (py_eq z (JStr "")); by injection H as <-.
Qed.

(** What [parse_task] read and built when it returns. *)
Lemma parse_task_inv (elem : json) (k : pykey) (tmp : pydict) :
  parse_task elem = Ok (k, tmp) →
  ∃ id title name rich description rich' notes tags category start tmp1 start' tmp2 edited,
    getitem elem "id" = Ok id
    ∧ getpath elem ["properties"; "Name"; "title"] = Ok title
    ∧ first_plain_text title "Title is not specified!" = Ok name
    ∧ getpath elem ["properties"; "Description"; "rich_text"] = Ok rich
    ∧ first_plain_text rich "Description is empty!" = Ok description
    ∧ getpath elem ["properties"; "Notes"; "rich_text"] = Ok rich'
    ∧ first_plain_text rich' "Notes are empty!" = Ok notes
    ∧ getpath elem ["properties"; "Category"; "multi_select"] = Ok tags
    ∧ category_of tags = Ok category
    ∧ getpath elem ["properties"; "Assignment Date"; "date"; "start"] = Ok start
    ∧ assignment_block
        (<["category" := category]>
           (<["notes" := notes]>
              (<["description" := description]>
                 (<["name" := name]> (<["task_id" := id]> ∅))))) start = Ok tmp1
    ∧ getpath elem ["properties"; "Due Date"; "date"; "start"] = Ok start'
    ∧ due_block elem tmp1 start' = Ok tmp2
    ∧ getitem elem "last_edited_time" = Ok edited
    ∧ key_of id = Ok k
    ∧ tmp = <["last_edited_time" := edited]> tmp2
    ∧ tmp !! "task_id" = Some id ∧ tmp !! "name" = Some name
    ∧ tmp !! "description" = Some description ∧ tmp !! "notes" = Some notes
    ∧ tmp !! "category" = Some category ∧ tmp !! "last_edited_time" = Some edited.
Proof.
  unfold parse_task. intros H.
  apply bind_Ok_inv in H as (id & Hid & H).
  apply bind_Ok_inv in H as (title & Htitle & H).
  apply bind_Ok_inv in H as (name & Hname & H).
  apply bind_Ok_inv in H as (rich & Hrich & H).
  apply bind_Ok_inv in H as (description & Hdescription & H).
  apply bind_Ok_inv in H as (rich' & Hrich' & H).
  apply bind_Ok_inv in H as (notes & Hnotes & H).
  apply bind_Ok_inv in H as (tags & Htags & H).
  apply bind_Ok_inv in H as (n & Hn & H).
  apply bind_Ok_inv in H as (category & Hcategory & H).
  apply bind_Ok_inv in H as (start & Hstart & H).
  apply bind_Ok_inv in H as (tmp1 & Htmp1 & H).
  apply bind_Ok_inv in H as (start' & Hstart' & H).
  apply bind_Ok_inv in H as (tmp2 & Htmp2 & H).
  apply bind_Ok_inv in H as (edited & Hedited & H).
  apply bind_Ok_inv in H as (k' & Hk & H). injection H as <- <-.
  change (assignment_block
            (<["category" := category]>
               (<["notes" := notes]>
                  (<["description" := description]>
                     (<["name" := name]> (<["task_id" := id]> ∅))))) start = Ok tmp1)
    in Htmp1.
  change (due_block elem tmp1 start' = Ok tmp2) in Htmp2.
  assert (Hcat : category_of tags = Ok category).
  { unfold category_of. by rewrite Hn. }
  exists id, title, name, rich, description, rich', notes, tags, category, start, tmp1,
    start', tmp2, edited.
  repeat (split; [done|]).
  assert (Hkept : ∀ field,
            field ∈ ["task_id"; "name"; "description"; "notes"; "category"] →
            (<["last_edited_time" := edited]> tmp2 : pydict) !! field
            = (<["category" := category]>
                 (<["notes" := notes]>
                    (<["description" := description]>
                       (<["name" := name]> (<["task_id" := id]> ∅)))) : pydict) !! field).
  { intros field Hfield.
    destruct (assignment_block_inv _ _ _ Htmp1) as (s & d & h & z & _ & -> & _).
    rewrite !elem_of_cons in Hfield.
    destruct (due_block_inv _ _ _ _ Htmp2)
      as [(? & ? & ? & ? & ? & _ & _ & _ & _ & ->)
         |[(? & ? & z' & _ & _ & _ & _ & ->)|(? & ? & ? & ? & _ & _ & _ & _ & _ & ->)]];
      try destruct (py_eq z' (JStr ""));
      destruct Hfield as [->|[->|[->|[->|[->|Hfield]]]]];
      try (by apply elem_of_nil in Hfield);
      repeat (rewrite (lookup_insert_ne (M := gmap string)) by discriminate); reflexivity. }
  assert (Hid' : (<["last_edited_time" := edited]> tmp2 : pydict) !! "task_id" = Some id).
  { rewrite Hkept by (rewrite !elem_of_cons; auto 10). by lookup_field. }
  split.
  { apply bind_Ok_inv in Hk as (v & Hv & Hk). unfold dict_get in Hv.
    rewrite Hid' in Hv. by injection Hv as <-. }
  split; [done|]. split; [done|].
  split; [rewrite Hkept by (rewrite !elem_of_cons; auto 10); by lookup_field|].
  split; [rewrite Hkept by (rewrite !elem_of_cons; auto 10); by lookup_field|].
  split; [rewrite Hkept by (rewrite !elem_of_cons; auto 10); by lookup_field|].
  split; [rewrite Hkept by (rewrite !elem_of_cons; auto 10); by lookup_field|].
  by lookup_field.
Qed.

Lemma index_split_head (c : ascii) (s : string) :
  index (py_split c s) 0 = Ok (before c s).
Proof. destruct (py_split_head c s) as (rest & ->). reflexivity. Qed.

(** The two date blocks of a record that parses. *)
Lemma parse_task_blocks (elem : json) (k : pykey) (tmp : pydict) :
  parse_task elem = Ok (k, tmp) →
  ∃ base start tmp1 start' tmp2 edited,
    getpath elem ["properties"; "Assignment Date"; "date"; "start"] = Ok start
    ∧ assignment_block base start = Ok tmp1
    ∧ getpath elem ["properties"; "Due Date"; "date"; "start"] = Ok start'
    ∧ due_block elem tmp1 start' = Ok tmp2
    ∧ dom base = list_to_set ["task_id"; "name"; "description"; "notes"; "category"]
    ∧ tmp = <["last_edited_time" := edited]> tmp2.
Proof.
  intros H.
  destruct (parse_task_inv elem k tmp H)
    as (id & title & name & rich & description & rich' & notes & tags & category & start
        & tmp1 & start' & tmp2 & edited & _ & _ & _ & _ & _ & _ & _ & _ & _ & Hstart
        & Htmp1 & Hstart' & Htmp2 & _ & _ & Htmp & _).
  eexists _, start, tmp1, start', tmp2, edited.
  split; [done|]. split; [exact Htmp1|]. split; [done|]. split; [done|].
  split; [|done]. rewrite !dom_insert_L, dom_empty_L. reflexivity.
Qed.

Lemma parse_tasks_provenance (db_json : json) tasks err (k : pykey) (task : pydict) :
  parse_tasks_in_database db_json = Ok (tasks, err) →
  tasks !! k = Some task →
  ∃ results, (getitem db_json "results" ≫= py_iter) = Ok results
             ∧ from_open_record results k task.
Proof.
  unfold parse_tasks_in_database. intros (results & Hresults & Hloop)%bind_Ok_inv Hk.
  exists results. split; [done|].
  destruct (parse_tasks_loop_provenance results (∅, []) (tasks, err) k task Hloop Hk)
    as [Hempty|Hopen]; [|done].
  simpl in Hempty. by rewrite lookup_empty in Hempty.
Qed.

(** X3: every task of the mapping [parse_tasks_in_database] returns
    holds exactly the eleven fields of a normalized task, is stored
    under the record's own [id], and its five date fields are strings. *)
Theorem parsed_tasks_are_normalized (db_json : json) (tasks : gmap pykey pydict)
    (err : list (json * exn)) (k : pykey) (task : pydict) :
  parse_tasks_in_database db_json = Ok (tasks, err) →
  tasks !! k = Some task →
  dom task = task_fields
  ∧ (∃ id, task !! "task_id" = Some id ∧ key_of id = Ok k)
  ∧ ∀ field,
      field ∈ ["assignment_date"; "assignment_hour"; "user_time_zone"; "due_date";
               "due_hour"] →
      ∃ s, task !! field = Some (JStr s).
Proof.
  intros Hdb Hk.
  destruct (parse_tasks_provenance _ _ _ _ _ Hdb Hk)
    as (results & _ & elem & status & _ & _ & _ & Hparse).
  split; [|split].
  - destruct (parse_task_blocks elem k task Hparse)
      as (base & start & tmp1 & start' & tmp2 & edited & _ & Htmp1 & _ & Htmp2 & Hbase & ->).
    destruct (assignment_block_inv _ _ _ Htmp1) as (s & d & h & z & _ & -> & _).
    destruct (due_block_inv _ _ _ _ Htmp2)
      as [(? & ? & ? & ? & ? & _ & _ & _ & _ & ->)
         |[(? & ? & z' & _ & _ & _ & _ & ->)|(? & ? & ? & ? & _ & _ & _ & _ & _ & ->)]];
      try destruct (py_eq z' (JStr ""));
      rewrite !dom_insert_L, Hbase; reflexivity.
  - destruct (parse_task_inv elem k task Hparse)
      as (id & title & name & rich & description & rich' & notes & tags & category & start
          & tmp1 & start' & tmp2 & edited & _ & _ & _ & _ & _ & _ & _ & _ & _ & _
          & _ & _ & _ & _ & Hkey & _ & Hid & _).
    by exists id.
  - destruct (parse_task_blocks elem k task Hparse)
      as (base & start & tmp1 & start' & tmp2 & edited & _ & Htmp1 & _ & Htmp2 & _ & ->).
    destruct (assignment_block_inv _ _ _ Htmp1) as (s & d & h & z & _ & -> & _).
    intros field Hfield. rewrite !elem_of_cons in Hfield.
    destruct (due_block_inv _ _ _ _ Htmp2)
      as [(? & ? & ? & ? & ? & _ & _ & _ & _ & ->)
         |[(? & ? & z' & _ & _ & _ & Hz' & ->)|(? & ? & ? & ? & _ & _ & _ & _ & _ & ->)]];
      try (rewrite lookup_insert_eq in Hz'; injection Hz' as <-;
           destruct (py_eq (JStr z) (JStr "")));
      destruct Hfield as [->|[->|[->|[->|[->|Hfield]]]]];
      try (by apply elem_of_nil in Hfield);
      eexists; lookup_field; reflexivity.
Qed.

(** ** Task Record Parser: the text fields *)

Lemma first_plain_text_cases (field : json) (placeholder : string) (v : json) :
  first_plain_text field placeholder = Ok v →
  (truthy field = false → v = JStr placeholder)
  ∧ ∀ first rest, field = JArr (first :: rest) → getitem first "plain_text" = Ok v.
Proof.
  unfold first_plain_text. intros H. split.
  - intros Hfalse. rewrite Hfalse in H. by injection H.
  - intros first rest ->. exact H.
Qed.

(** X4: in a record that parses, the name, the description and the
    notes are each the [plain_text] of the first fragment of their
    rich-text list, whatever follows it, and the placeholder when the
    list is empty. *)
Theorem text_fields_take_first_fragment (elem : json) (k : pykey) (tmp : pydict) :
  parse_task elem = Ok (k, tmp) →
  ∀ property kind field placeholder,
    (property, kind, field, placeholder)
      ∈ [("Name", "title", "name", "Title is not specified!");
         ("Description", "rich_text", "description", "Description is empty!");
         ("Notes", "rich_text", "notes", "Notes are empty!")] →
    ∃ fragments v,
      getpath elem ["properties"; property; kind] = Ok fragments
      ∧ tmp !! field = Some v
      ∧ (truthy fragments = false → v = JStr placeholder)
      ∧ ∀ first rest,
          fragments = JArr (first :: rest) → getitem first "plain_text" = Ok v.
Proof.
  intros H property kind field placeholder Hin.
  destruct (parse_task_inv elem k tmp H)
    as (id & title & name & rich & description & rich' & notes & tags & category & start
        & tmp1 & start' & tmp2 & edited & _ & Htitle & Hname & Hrich & Hdescription
        & Hrich' & Hnotes & _ & _ & _ & _ & _ & _ & _ & _ & _ & _ & Hn & Hd & Hno & _).
  rewrite !elem_of_cons in Hin.
  destruct Hin as [[= -> -> -> ->]|[[= -> -> -> ->]|[[= -> -> -> ->]|Hin]]];
    [..|by apply elem_of_nil in Hin].
  - exists title, name. split; [done|]. split; [done|].
    by apply first_plain_text_cases.
  - exists rich, description. split; [done|]. split; [done|].
    by apply first_plain_text_cases.
  - exists rich', notes. split; [done|]. split; [done|].
    by apply first_plain_text_cases.
Qed.

(** ** Task Record Parser: the dates *)

(** X5: how a record that parses gets its due date.  A date without a
    time gives noon and a time zone that is never empty; a date with a
    time gives the time up to its first ['.'] and the text after its
    first ['+'] as the time zone, which replaces the one of the
    assignment date; a [start] that is [None] gives the date and time
    of [created_time] and overwrites the assignment date with a
    notice. *)
Theorem due_date_decoding (elem : json) (k : pykey) (tmp : pydict) (start : json) :
  parse_task elem = Ok (k, tmp) →
  getpath elem ["properties"; "Due Date"; "date"; "start"] = Ok start →
  (∀ s, start = JStr s → contains "T" s = false →
     tmp !! "due_date" = Some (JStr s)
     ∧ tmp !! "due_hour" = Some (JStr "12:00:00")
     ∧ ∃ z, tmp !! "user_time_zone" = Some (JStr z) ∧ z ≠ "")
  ∧ (∀ s d t, start = JStr s → py_split "T" s = [d; t] →
       tmp !! "due_date" = Some (JStr d)
       ∧ tmp !! "due_hour" = Some (JStr (before "." t))
       ∧ ∃ z, index (py_split "+" t) 1 = Ok z ∧ tmp !! "user_time_zone" = Some (JStr z))
  ∧ (start = JNull →
       ∃ created t,
         getitem elem "created_time" = Ok (JStr created)
         ∧ index (py_split "T" created) 1 = Ok t
         ∧ tmp !! "due_date" = Some (JStr (before "T" created))
         ∧ tmp !! "due_hour" = Some (JStr (before "." t))
         ∧ tmp !! "assignment_date"
           = Some (JStr "DUE DATE IS NOT SPECIFIED. TASK IS CREATED ON CREATION TIME!")).
Proof.
  intros H Hstart.
  destruct (parse_task_blocks elem k tmp H)
    as (base & a & tmp1 & start' & tmp2 & edited & _ & Htmp1 & Hstart' & Htmp2 & _ & ->).
  rewrite Hstart in Hstart'. injection Hstart' as <-.
  destruct (assignment_block_inv _ _ _ Htmp1) as (sa & da & ha & za & _ & -> & _).
  destruct (due_block_inv _ _ _ _ Htmp2)
    as [(s & d & t & h & z & -> & Hsplit & Hh & Hz & ->)
       |[(s & d & z & -> & Hlen & Hd & Hz & ->)
        |(created & d & t & h & -> & Hcreated & Hd & Ht & Hh & ->)]].
  - rewrite index_split_head in Hh. injection Hh as <-.
    split; [|split]; [| |discriminate].
    + intros s' [= <-] Hplain. rewrite (py_split_plain _ _ Hplain) in Hsplit. discriminate.
    + intros s' d' t' [= <-] Hsplit'. rewrite Hsplit in Hsplit'. injection Hsplit' as <- <-.
      split; [by lookup_field|]. split; [by lookup_field|].
      exists z. split; [done|]. by lookup_field.
  - rewrite lookup_insert_eq in Hz. injection Hz as <-.
    split; [|split]; [| |discriminate].
    + intros s' [= <-] Hplain. rewrite (py_split_plain _ _ Hplain) in Hd.
      injection Hd as <-.
      destruct (py_eq (JStr za) (JStr "")) eqn:Hza.
      * split; [by lookup_field|]. split; [by lookup_field|].
        exists "00:00". split; [by lookup_field|discriminate].
      * split; [by lookup_field|]. split; [by lookup_field|].
        exists za. split; [by lookup_field|].
        intros ->. by rewrite (proj2 (py_eq_str (JStr "") "") eq_refl) in Hza.
    + intros s' d' t' [= <-] Hsplit'. rewrite Hsplit' in Hlen. by destruct Hlen.
  - rewrite index_split_head in Hd, Hh. injection Hd as <-. injection Hh as <-.
    split; [|split]; [discriminate|discriminate|].
    intros _. exists created, t. split; [done|]. split; [done|].
    split; [by lookup_field|]. split; [by lookup_field|]. by lookup_field.
Qed.

(** X6: how a record that parses and has a due date gets its assignment
    date.  A date with a time gives the date, the time up to its first
    ['.'] as the hour, and needs a ['+'] after the ['T']; a date without
    a time gives the date and the hour [00:00].  The value read is
    always a text: a [start] that is [None] never parses. *)
Theorem assignment_date_decoding (elem : json) (k : pykey) (tmp : pydict) :
  parse_task elem = Ok (k, tmp) →
  ∃ s,
    getpath elem ["properties"; "Assignment Date"; "date"; "start"] = Ok (JStr s)
    ∧ (∀ d t, py_split "T" s = [d; t] →
         contains "+" t = true
         ∧ tmp !! "assignment_hour" = Some (JStr (before "." t))
         ∧ (getpath elem ["properties"; "Due Date"; "date"; "start"] ≠ Ok JNull →
            tmp !! "assignment_date" = Some (JStr d)))
    ∧ (contains "T" s = false →
         tmp !! "assignment_hour" = Some (JStr "00:00")
         ∧ (getpath elem ["properties"; "Due Date"; "date"; "start"] ≠ Ok JNull →
            tmp !! "assignment_date" = Some (JStr s))).
Proof.
  intros H.
  destruct (parse_task_blocks elem k tmp H)
    as (base & a & tmp1 & start' & tmp2 & edited & Ha & Htmp1 & Hstart' & Htmp2 & _ & ->).
  destruct (assignment_block_inv _ _ _ Htmp1) as (s & d & h & z & -> & -> & Hcases).
  exists s. split; [done|].
  assert (Hkept :
    (<["last_edited_time" := edited]> tmp2 : pydict) !! "assignment_hour" = Some (JStr h)
    ∧ (start' ≠ JNull →
       (<["last_edited_time" := edited]> tmp2 : pydict) !! "assignment_date"
       = Some (JStr d))).
  { destruct (due_block_inv _ _ _ _ Htmp2)
      as [(? & ? & ? & ? & ? & _ & _ & _ & _ & ->)
         |[(? & ? & z' & _ & _ & _ & _ & ->)|(? & ? & ? & ? & -> & _ & _ & _ & _ & ->)]];
      try destruct (py_eq z' (JStr "")); (split; [by lookup_field|]);
      try (intros _; by lookup_field).
    intros Hnull. by destruct Hnull. }
  destruct Hkept as [Hhour Hdate].
  assert (Hdue : getpath elem ["properties"; "Due Date"; "date"; "start"] ≠ Ok JNull →
                 start' ≠ JNull).
  { intros Hne ->. by apply Hne. }
  destruct Hcases as [(t & Hsplit & Hh & Hz)|(Hlen & Hd & -> & ->)]; split.
  - intros d' t' Hsplit'. rewrite Hsplit in Hsplit'. injection Hsplit' as <- <-.
    rewrite index_split_head in Hh. injection Hh as <-.
    split; [|split; [done|auto]].
    destruct (contains "+" t) eqn:Hplus; [done|].
    rewrite (py_split_plain _ _ Hplus) in Hz. discriminate.
  - intros Hplain. rewrite (py_split_plain _ _ Hplain) in Hsplit. discriminate.
  - intros d' t' Hsplit'. rewrite Hsplit' in Hlen. by destruct Hlen.
  - intros Hplain. rewrite (py_split_plain _ _ Hplain) in Hd. injection Hd as <-.
    split; [done|auto].
Qed.

(** ** Task Record Parser: records that do not parse *)

(** X7: a record whose assignment date or due date carries a time
    without a ['+'] after the ['T'] (a time zone west of Greenwich, or
    the [Z] suffix) does not parse: the time zone is read as the text
    after the first ['+']. *)
Theorem time_without_plus_is_an_error (elem : json) (property s d t : string) :
  property ∈ ["Assignment Date"; "Due Date"] →
  getpath elem ["properties"; property; "date"; "start"] = Ok (JStr s) →
  py_split "T" s = [d; t] →
  contains "+" t = false →
  ∃ error, parse_task elem = Raise error.
Proof.
  intros Hproperty Hstart Hsplit Hplus.
  destruct (parse_task elem) as [[k tmp]|error] eqn:H; [exfalso|by eexists].
  destruct (parse_task_blocks elem k tmp H)
    as (base & a & tmp1 & start' & tmp2 & edited & Ha & Htmp1 & Hstart' & Htmp2 & _ & _).
  rewrite !elem_of_cons in Hproperty.
  destruct Hproperty as [->|[->|Hproperty]]; [..|by apply elem_of_nil in Hproperty].
  - rewrite Hstart in Ha. injection Ha as <-.
    destruct (assignment_block_inv _ _ _ Htmp1)
      as (s' & d' & h & z & [= <-] & _ & [(t' & Hsplit' & _ & Hz)|(Hlen & _)]).
    + rewrite Hsplit in Hsplit'. injection Hsplit' as <- <-.
      rewrite (py_split_plain _ _ Hplus) in Hz. discriminate.
    + rewrite Hsplit in Hlen. by destruct Hlen.
  - rewrite Hstart in Hstart'. injection Hstart' as <-.
    destruct (due_block_inv _ _ _ _ Htmp2)
      as [(s' & d' & t' & h & z & [= <-] & Hsplit' & _ & Hz & _)
         |[(s' & d' & z & [= <-] & Hlen & _)|(? & ? & ? & ? & [=] & _)]].
    + rewrite Hsplit in Hsplit'. injection Hsplit' as <- <-.
      rewrite (py_split_plain _ _ Hplus) in Hz. discriminate.
    + rewrite Hsplit in Hlen. by destruct Hlen.
Qed.

Lemma getpath_through_null (elem : json) (ks : list string) (k : string) :
  getpath elem ks = Ok JNull → getpath elem (ks ++ [k]) = Raise TypeError.
Proof. intros H. by rewrite getpath_snoc, H. Qed.

(** X8: a record whose [Due Date] has no date (the property's [date] is
    [None], as the store returns it for an empty date) does not parse:
    the fall-back on the creation time is only taken for a date object
    whose [start] is [None]. *)
Theorem empty_due_date_is_an_error (elem : json) :
  getpath elem ["properties"; "Due Date"; "date"] = Ok JNull →
  ∃ error, parse_task elem = Raise error.
Proof.
  intros Hdate.
  destruct (parse_task elem) as [[k tmp]|error] eqn:H; [exfalso|by eexists].
  destruct (parse_task_blocks elem k tmp H)
    as (base & a & tmp1 & start' & tmp2 & edited & _ & _ & Hstart' & _).
  change ["properties"; "Due Date"; "date"; "start"]
    with (["properties"; "Due Date"; "date"] ++ ["start"]) in Hstart'.
  by rewrite (getpath_through_null _ _ _ Hdate) in Hstart'.
Qed.

(** ** Task Record Parser: the loop over the records *)

Lemma task_failures_cons elem results :
  task_failures (elem :: results) = task_failures [elem] ++ task_failures results.
Proof.
  unfold task_failures. simpl.
  by destruct (task_outcome elem) as [[?|?]|].
Qed.

Lemma last_parsed_cons k elem results :
  last_parsed k (elem :: results) =
  match last_parsed k results with
  | Some tmp => Some tmp
  | None => parses_to k elem
  end.
Proof.
  unfold last_parsed. simpl. destruct (parses_to k elem) as [tmp|]; [|by destruct (last _)].
  rewrite last_cons. by destruct (last _).
Qed.

Lemma parse_tasks_step_inv acc elem out :
  parse_tasks_step acc elem = Ok out →
  out.2 = acc.2 ++ task_failures [elem]
  ∧ ∀ k, out.1 !! k = match parses_to k elem with Some tmp => Some tmp | None => acc.1 !! k end.
Proof.
  destruct acc as [m errs].
  unfold parse_tasks_step, task_failures, parses_to, task_outcome. simpl.
  destruct (package_status elem) as [status|e].
  - destruct (status_is_open status).
    + destruct (parse_task elem) as [[k' tmp]|e].
      * intros [= <-]. simpl. split; [by rewrite app_nil_r|].
        intros k. destruct (decide (k' = k)) as [->|Hne].
        -- by rewrite lookup_insert_eq.
        -- by rewrite lookup_insert_ne.
      * intros (u & _ & [= <-])%bind_Ok_inv. by split.
    + intros [= <-]. simpl. split; [by rewrite app_nil_r|done].
  - intros (u & _ & [= <-])%bind_Ok_inv. simpl. split; [by rewrite app_nil_r|done].
Qed.

Lemma parse_tasks_loop_inv results acc out :
  parse_tasks_loop results acc = Ok out →
  out.2 = acc.2 ++ task_failures results
  ∧ ∀ k, out.1 !! k =
         match last_parsed k results with Some tmp => Some tmp | None => acc.1 !! k end.
Proof.
  revert acc. induction results as [|elem results IH]; intros acc; cbn [parse_tasks_loop].
  - intros [= <-]. split; [symmetry; apply app_nil_r | done].
  - intros (acc' & Hstep & Hloop)%bind_Ok_inv.
    destruct (IH acc' Hloop) as [Herr Hmap].
    destruct (parse_tasks_step_inv acc elem acc' Hstep) as [Herr' Hmap']. split.
    + rewrite (task_failures_cons elem results), Herr, Herr'. symmetry. apply app_assoc.
    + intros k. rewrite Hmap, Hmap', last_parsed_cons.
      by destruct (last_parsed k results).
Qed.

(** X9: what [parse_tasks_in_database] returns when it returns.  The
    mapping holds, under each key, the task of the last record in the
    list that is open and parses to that key; the error list holds, in
    the order of the list, the open records that do not parse, each
    with its exception.  A record whose status cannot be read, or whose
    status is closed, is in neither. *)
Theorem parse_tasks_keeps_last_and_reports (db_json : json) (results : list json)
    (tasks : gmap pykey pydict) (err : list (json * exn)) :
  (getitem db_json "results" ≫= py_iter) = Ok results →
  parse_tasks_in_database db_json = Ok (tasks, err) →
  err = task_failures results
  ∧ (∀ k, tasks !! k = last_parsed k results)
  ∧ ∀ elem error,
      (elem, error) ∈ err ↔
      elem ∈ results
      ∧ ∃ status, package_status elem = Ok status
                  ∧ status_is_open status = true ∧ parse_task elem = Raise error.
Proof.
  unfold parse_tasks_in_database. intros -> Hloop. rewrite bind_Ok in Hloop.
  destruct (parse_tasks_loop_inv results (∅, []) (tasks, err) Hloop) as [Herr Hmap].
  simpl in Herr, Hmap. subst err. split; [done|]. split.
  - intros k. rewrite Hmap, lookup_empty. by destruct (last_parsed k results).
  - intros elem error. unfold task_failures. rewrite list_elem_of_omap. split.
    + intros (elem' & Hin & Hsome). unfold task_outcome in Hsome.
      destruct (package_status elem') as [status|] eqn:Hstatus; [|discriminate].
      destruct (status_is_open status) eqn:Hopen; [|discriminate].
      destruct (parse_task elem') as [?|e] eqn:Hparse; [discriminate|].
      injection Hsome as <- <-. split; [done|]. by exists status.
    + intros (Hin & status & Hstatus & Hopen & Hparse). exists elem. split; [done|].
      unfold task_outcome. by rewrite Hstatus, Hopen, Hparse.
Qed.

Lemma parse_tasks_step_returns acc elem :
  is_ok (parse_tasks_step acc elem) = true ↔
  (handler_runs elem = true → is_ok (getitem elem "url") = true).
Proof.
  destruct acc as [m errs]. unfold parse_tasks_step, handler_runs.
  destruct (package_status elem) as [status|e].
  - destruct (status_is_open status); simpl.
    + destruct (parse_task elem) as [[k' tmp]|e]; simpl.
      * split; [done|]. by intros _.
      * destruct (getitem elem "url"); simpl; split; forget_env; auto.
    + split; [done|]. by intros _.
  - destruct (getitem elem "url"); simpl; split; forget_env; auto.
Qed.

Lemma parse_tasks_loop_returns results acc :
  is_ok (parse_tasks_loop results acc) = true ↔
  Forall (fun elem => handler_runs elem = true → is_ok (getitem elem "url") = true) results.
Proof.
  revert acc. induction results as [|elem results IH]; intros acc; cbn [parse_tasks_loop].
  - split; [by constructor | done].
  - rewrite Forall_cons, <- (parse_tasks_step_returns acc elem).
    destruct (parse_tasks_step acc elem) as [acc'|e]; simpl.
    + rewrite (IH acc'). forget_env. tauto.
    + split; [done|]. by intros [? _].
Qed.

(** X10: both handlers of the loop print the record's [url], so the
    function returns exactly when every record on which a handler runs
    (a record whose status cannot be read, or an open record that does
    not parse) has a [url]; one such record without it makes the whole
    call raise, whatever the other records are. *)
Theorem parse_tasks_returns_iff_handlers_find_url (db_json : json) (results : list json) :
  (getitem db_json "results" ≫= py_iter) = Ok results →
  is_ok (parse_tasks_in_database db_json) = true ↔
  Forall (fun elem => handler_runs elem = true → is_ok (getitem elem "url") = true) results.
Proof.
  unfold parse_tasks_in_database. intros ->. rewrite bind_Ok.
  apply parse_tasks_loop_returns.
Qed.

(** ** Task Record Parser: a record without an assignment date *)

Lemma task_failures_app (l1 l2 : list json) :
  task_failures (l1 ++ l2) = task_failures l1 ++ task_failures l2.
Proof. unfold task_failures. apply omap_app. Qed.

Lemma last_parsed_skip (k : pykey) (l1 l2 : list json) (elem : json) :
  parses_to k elem = None → last_parsed k (l1 ++ elem :: l2) = last_parsed k (l1 ++ l2).
Proof.
  intros Hnone. unfold last_parsed. rewrite !omap_app. cbn [omap list_omap].
  by rewrite Hnone.
Qed.

Lemma last_parsed_provenance (k : pykey) (results : list json) (task : pydict) :
  last_parsed k results = Some task → from_open_record results k task.
Proof.
  unfold last_parsed. intros H.
  apply last_Some_elem_of, list_elem_of_omap in H as (elem & Hin & Hparsed).
  unfold parses_to, task_outcome in Hparsed.
  destruct (package_status elem) as [status|] eqn:Hstatus; [|discriminate].
  destruct (status_is_open status) eqn:Hopen; [|discriminate].
  destruct (parse_task elem) as [[k' tmp]|] eqn:Hparse; [|discriminate].
  destruct (decide (k' = k)) as [->|]; [|discriminate]. injection Hparsed as ->.
  exists elem, status. split; [done|]. split; [done|].
  split; [by apply status_is_open_true|done].
Qed.

(** C10: an open record whose Assignment Date has a null date object,
    or a null start, raises inside the inner [try] block of
    [parse_tasks_in_database].  In what the function returns, the
    record is in the error list with its exception, at its place among
    the records that do not parse, and the mapping is the one the other
    records give: every entry of it is the parse of another record.
    The guard [!= type(None)] holds for every value, the null one too,
    so the branch that stores the "missing" placeholder is not the one
    taken.  The function returns whenever the records on which a
    handler runs, this one among them, carry the [url] the handler
    prints. *)
Theorem null_assignment_date_is_an_error (db_json : json) (l1 l2 : list json)
    (elem status : json) :
  (getitem db_json "results" ≫= py_iter) = Ok (l1 ++ elem :: l2) →
  package_status elem = Ok status →
  status_is_open status = true →
  getpath elem ["properties"; "Assignment Date"; "date"] = Ok JNull
  ∨ getpath elem ["properties"; "Assignment Date"; "date"; "start"] = Ok JNull →
  differs_from_NoneType JNull = true
  ∧ ∃ error,
      parse_task elem = Raise error
      ∧ (∀ tasks err,
           parse_tasks_in_database db_json = Ok (tasks, err) →
           err = task_failures l1 ++ (elem, error) :: task_failures l2
           ∧ (elem, error) ∈ err
           ∧ (∀ k, tasks !! k = last_parsed k (l1 ++ l2))
           ∧ ∀ k task, tasks !! k = Some task → from_open_record (l1 ++ l2) k task)
      ∧ (Forall (fun record => handler_runs record = true →
                               is_ok (getitem record "url") = true) (l1 ++ elem :: l2) →
         ∃ tasks err, parse_tasks_in_database db_json = Ok (tasks, err)).
Proof.
  intros Hresults Hstatus Hopen Hnull. split; [reflexivity|].
  destruct (parse_task_null_assignment elem Hnull) as [error Hraise].
  exists error. split; [done|]. split.
  - intros tasks err Hdb. unfold parse_tasks_in_database in Hdb.
    rewrite Hresults, bind_Ok in Hdb.
    destruct (parse_tasks_loop_inv _ _ _ Hdb) as [Herr Hmap]. simpl in Herr, Hmap.
    assert (Hfail : task_failures [elem] = [(elem, error)]).
    { unfold task_failures, task_outcome. cbn [omap list_omap].
      by rewrite Hstatus, Hopen, Hraise. }
    assert (Hnone : ∀ k, parses_to k elem = None).
    { intros k. unfold parses_to, task_outcome. by rewrite Hstatus, Hopen, Hraise. }
    assert (Herr' : err = task_failures l1 ++ (elem, error) :: task_failures l2).
    { by rewrite Herr, task_failures_app, (task_failures_cons elem l2), Hfail. }
    assert (Hmap' : ∀ k, tasks !! k = last_parsed k (l1 ++ l2)).
    { intros k. rewrite Hmap, lookup_empty, (last_parsed_skip k l1 l2 elem (Hnone k)).
      by destruct (last_parsed k (l1 ++ l2)). }
    split; [exact Herr'|]. split; [|split; [exact Hmap'|]].
    + rewrite Herr'. apply elem_of_app. right. constructor.
    + intros k task Hk. apply last_parsed_provenance. by rewrite <- Hmap'.
  - intros Hurls. unfold parse_tasks_in_database. rewrite Hresults, bind_Ok.
    apply (parse_tasks_loop_returns _ (∅, [])) in Hurls.
    destruct (parse_tasks_loop (l1 ++ elem :: l2) (∅, [])) as [[tasks err]|];
      [by eexists _, _|discriminate].
Qed.

(** ** Event Projector *)

Lemma get_str_inv (task : pydict) (field : string) (s : string) :
  (dict_get task field ≫= as_str) = Ok s → task !! field = Some (JStr s).
Proof.
  unfold dict_get. destruct (task !! field) as [[| | |s'| |]|]; try discriminate.
  by intros [= ->].
Qed.

Lemma event_description_inv (task : pydict) (body : string) :
  event_description task = Ok body →
  ∃ d n c a h e i,
    task !! "description" = Some (JStr d) ∧ task !! "notes" = Some (JStr n)
    ∧ task !! "category" = Some (JStr c) ∧ task !! "assignment_date" = Some (JStr a)
    ∧ task !! "assignment_hour" = Some (JStr h)
    ∧ task !! "last_edited_time" = Some (JStr e) ∧ task !! "task_id" = Some (JStr i).
Proof.
  unfold event_description. intros H.
  apply bind_Ok_inv in H as (d & Hd%get_str_inv & H).
  apply bind_Ok_inv in H as (n & Hn%get_str_inv & H).
  apply bind_Ok_inv in H as (c & Hc%get_str_inv & H).
  apply bind_Ok_inv in H as (a & Ha%get_str_inv & H).
  apply bind_Ok_inv in H as (h & Hh%get_str_inv & H).
  apply bind_Ok_inv in H as (e & He%get_str_inv & H).
  apply bind_Ok_inv in H as (i & Hi%get_str_inv & H).
  by exists d, n, c, a, h, e, i.
Qed.

(** X11: [task_to_event] returns exactly when the task has a [name],
    its seven text fields are strings, and the date arithmetic outside
    the [try] block returns (the half hour added to the start, and
    [astimezone()] on the start and on the end).  A due date, hour or
    time zone that is missing or malformed does not make it raise: the
    exception is caught and the start is the current time. *)
Theorem task_to_event_returns_iff_text_fields (task : pydict) :
  is_ok (task_to_event task) = true ↔
  is_Some (task !! "name")
  ∧ (∀ field,
       field ∈ ["description"; "notes"; "category"; "assignment_date"; "assignment_hour";
                "last_edited_time"; "task_id"] →
       ∃ s, task !! field = Some (JStr s))
  ∧ ∃ event_finish,
      add_30_minutes (event_start task) = Ok event_finish
      ∧ is_ok (astimezone (event_start task)) = true
      ∧ is_ok (astimezone event_finish) = true.
Proof.
  split.
  - destruct (task_to_event task) as [payload|] eqn:Hpayload; [|discriminate]. intros _.
    destruct (task_to_event_inv task payload Hpayload)
      as (event_finish & body & name & start & finish & reminders
          & Hevent_finish & Hbody & Hname & Hstart & Hfinish & _).
    split; [|split].
    + unfold dict_get in Hname. destruct (task !! "name"); [by eexists|discriminate].
    + destruct (event_description_inv task body Hbody)
        as (d & n & c & a & h & e & i & Hd & Hn & Hc & Ha & Hh & He & Hi).
      intros field Hfield. rewrite !elem_of_cons in Hfield.
      destruct Hfield as [->|[->|[->|[->|[->|[->|[->|Hfield]]]]]]];
        [by eexists..|by apply elem_of_nil in Hfield].
    + exists event_finish. by rewrite Hstart, Hfinish.
  - intros ([name Hname] & Hfields & event_finish & Hevent_finish & Hstart & Hfinish).
    destruct (Hfields "description") as [d Hd]; [rewrite !elem_of_cons; auto 10|].
    destruct (Hfields "notes") as [n Hn]; [rewrite !elem_of_cons; auto 10|].
    destruct (Hfields "category") as [c Hc]; [rewrite !elem_of_cons; auto 10|].
    destruct (Hfields "assignment_date") as [a Ha]; [rewrite !elem_of_cons; auto 10|].
    destruct (Hfields "assignment_hour") as [h Hh]; [rewrite !elem_of_cons; auto 10|].
    destruct (Hfields "last_edited_time") as [e He]; [rewrite !elem_of_cons; auto 10|].
    destruct (Hfields "task_id") as [i Hi]; [rewrite !elem_of_cons; auto 10|].
    unfold task_to_event. rewrite Hevent_finish, bind_Ok.
    rewrite (event_description_lines task d n c a h e i Hd Hn Hc Ha Hh He Hi), bind_Ok.
    unfold dict_get. rewrite Hname, bind_Ok.
    destruct (astimezone (event_start task)); [|discriminate]. rewrite bind_Ok.
    by destruct (astimezone event_finish).
Qed.

Lemma result_mapM_inv {A B} (f : A → result B) (l : list A) (l' : list B) :
  result_mapM f l = Ok l' →
  length l' = length l ∧ Forall (fun a => is_ok (f a) = true) l.
Proof.
  revert l'. induction l as [|a l IH]; intros l'; simpl.
  - intros [= <-]. by split.
  - intros (b & Hb & H)%bind_Ok_inv. apply bind_Ok_inv in H as (bs & Hbs & [= <-]).
    destruct (IH bs Hbs) as [Hlen Hall]. split; [simpl; by rewrite Hlen|].
    constructor; [by rewrite Hb | done].
Qed.

Lemma index_Ok_length {A} (l : list A) (i : nat) (a : A) :
  index l i = Ok a → (i < length l)%nat.
Proof.
  unfold index. destruct (l !! i) eqn:Hl; [|discriminate]. intros _.
  by apply lookup_lt_Some in Hl.
Qed.

(** The time zone [str_to_date] accepts. *)
Lemma str_to_date_zone (date hour zone : json) (dt : datetime) :
  str_to_date date hour zone = Ok dt →
  ∃ z hours minutes, zone = JStr z ∧ py_split ":" z = [hours; minutes].
Proof.
  unfold str_to_date. intros H.
  apply bind_Ok_inv in H as (due_date & _ & H).
  apply bind_Ok_inv in H as (due_hour & _ & H).
  apply bind_Ok_inv in H as (parts & Hparts & H).
  destruct zone as [| | |z| |]; try discriminate. injection Hparts as <-.
  apply bind_Ok_inv in H as ([hours minutes] & Hzone & _).
  destruct (py_split ":" z) as [|x [|y [|? ?]]] eqn:Hsplit; try discriminate.
  by exists z, x, y.
Qed.

(** X12: the texts [str_to_date] turns into an instant.  The date has
    at least three parts between ['-'], the hour at least three parts
    between [':'] (so an hour given as [HH:MM] is refused), the time
    zone exactly two, and [int] accepts every one of these parts. *)
Theorem str_to_date_accepts (date hour zone : json) (dt : datetime) :
  str_to_date date hour zone = Ok dt →
  ∃ d h z,
    date = JStr d ∧ hour = JStr h ∧ zone = JStr z
    ∧ (3 ≤ length (py_split "-" d))%nat
    ∧ (3 ≤ length (py_split ":" h))%nat
    ∧ length (py_split ":" z) = 2%nat
    ∧ Forall (fun part => is_ok (py_int part) = true)
        (py_split "-" d ++ py_split ":" h ++ py_split ":" z).
Proof.
  intros H.
  destruct (str_to_date_zone _ _ _ _ H) as (z & hours & minutes & -> & Hzone).
  unfold str_to_date in H.
  apply bind_Ok_inv in H as (due_date & Hdate & H).
  apply bind_Ok_inv in Hdate as (dparts & Hdparts & Hdate).
  destruct date as [| | |d| |]; try discriminate. injection Hdparts as <-.
  apply bind_Ok_inv in H as (due_hour & Hhour & H).
  apply bind_Ok_inv in Hhour as (hparts & Hhparts & Hhour).
  destruct hour as [| | |h| |]; try discriminate. injection Hhparts as <-.
  cbn [split_method] in H. rewrite bind_Ok, Hzone, bind_Ok in H.
  apply bind_Ok_inv in H as (zh & Hzh & H). apply bind_Ok_inv in H as (zm & Hzm & H).
  apply bind_Ok_inv in H as (tz & _ & H).
  apply bind_Ok_inv in H as (y & _ & H). apply bind_Ok_inv in H as (mo & _ & H).
  apply bind_Ok_inv in H as (day & Hday%index_Ok_length & H).
  apply bind_Ok_inv in H as (hh & _ & H). apply bind_Ok_inv in H as (mi & _ & H).
  apply bind_Ok_inv in H as (ss & Hss%index_Ok_length & H).
  destruct (result_mapM_inv _ _ _ Hdate) as [Hdlen Hdall].
  destruct (result_mapM_inv _ _ _ Hhour) as [Hhlen Hhall].
  exists d, h, z. split; [done|]. split; [done|]. split; [done|].
  split; [clear -Hdlen Hday; lia|]. split; [clear -Hhlen Hss; lia|].
  split; [by rewrite Hzone|].
  rewrite !Forall_app. split; [done|]. split; [done|].
  rewrite Hzone. constructor; [by rewrite Hzh|]. constructor; [by rewrite Hzm|constructor].
Qed.

(** X13: a record whose due date's [start] is [None] and whose
    assignment date has no time parses to a task with an empty time
    zone, and the event of such a task starts at the current time
    instead of the creation time the parser stored as its due date. *)
Theorem undated_task_starts_now (elem : json) (k : pykey) (tmp : pydict) (s : string) :
  parse_task elem = Ok (k, tmp) →
  getpath elem ["properties"; "Due Date"; "date"; "start"] = Ok JNull →
  getpath elem ["properties"; "Assignment Date"; "date"; "start"] = Ok (JStr s) →
  contains "T" s = false →
  tmp !! "user_time_zone" = Some (JStr "") ∧ event_start tmp = now.
Proof.
  intros H Hdue Hassigned Hplain.
  destruct (parse_task_blocks elem k tmp H)
    as (base & a & tmp1 & start' & tmp2 & edited & Ha & Htmp1 & Hstart' & Htmp2 & _ & ->).
  rewrite Hassigned in Ha. injection Ha as <-.
  rewrite Hdue in Hstart'. injection Hstart' as <-.
  destruct (assignment_block_inv _ _ _ Htmp1)
    as (s' & d & h & z & [= <-] & -> & [(t & Hsplit & _)|(_ & _ & -> & ->)]).
  { rewrite (py_split_plain _ _ Hplain) in Hsplit. discriminate. }
  destruct (due_block_inv _ _ _ _ Htmp2)
    as [(? & ? & ? & ? & ? & [=] & _)
       |[(? & ? & ? & [=] & _)|(created & d' & t & h & _ & _ & _ & _ & _ & ->)]].
  assert (Hzone : (<["last_edited_time" := edited]>
                     (<["due_hour" := JStr h]>
                        (<["due_date" := JStr d']>
                           (<["assignment_date" :=
                                JStr "DUE DATE IS NOT SPECIFIED. TASK IS CREATED ON CREATION TIME!"]>
                              (<["user_time_zone" := JStr ""]>
                                 (<["assignment_hour" := JStr "00:00"]>
                                    (<["assignment_date" := JStr d]> base)))))) : pydict)
                  !! "user_time_zone" = Some (JStr "")).
  { by lookup_field. }
  split; [exact Hzone|].
  unfold event_start.
  match goal with
  | |- match ?m with Ok _ => _ | Raise _ => _ end = _ => destruct m as [dt|] eqn:Hstart
  end; [exfalso|reflexivity].
  apply bind_Ok_inv in Hstart as (dd & _ & Hstart).
  apply bind_Ok_inv in Hstart as (hh & _ & Hstart).
  apply bind_Ok_inv in Hstart as (zz & Hzz & Hstart).
  unfold dict_get in Hzz. rewrite Hzone in Hzz. injection Hzz as <-.
  destruct (str_to_date_zone _ _ _ _ Hstart) as (z & hours & minutes & [= <-] & Hz).
  discriminate.
Qed.

(** ** Reconciliation Engine: the calls of a run *)

Lemma elem_of_flat_map {A B} (f : A → list B) (l : list A) (y : B) :
  y ∈ flat_map f l ↔ ∃ x, x ∈ l ∧ y ∈ f x.
Proof.
  rewrite list_elem_of_In, in_flat_map. split.
  - intros (x & Hx & Hy). exists x. by rewrite !list_elem_of_In.
  - intros (x & Hx & Hy). exists x. by rewrite <- !list_elem_of_In.
Qed.

Lemma elem_of_to_create_set (T E : gmap pykey pydict) (k : pykey) :
  k ∈ to_create_set T E ↔ is_Some (T !! k) ∧ E !! k = None.
Proof.
  unfold to_create_set, keys.
  by rewrite elem_of_difference, elem_of_dom, not_elem_of_dom.
Qed.

Lemma elem_of_to_delete_set (T E : gmap pykey pydict) (k : pykey) :
  k ∈ to_delete_set T E ↔ is_Some (E !! k) ∧ T !! k = None.
Proof.
  unfold to_delete_set, keys.
  by rewrite elem_of_difference, elem_of_dom, not_elem_of_dom.
Qed.

Lemma elem_of_may_update_set (T E : gmap pykey pydict) (k : pykey) :
  k ∈ may_update_set T E ↔ is_Some (E !! k) ∧ is_Some (T !! k).
Proof.
  unfold may_update_set, keys. by rewrite elem_of_intersection, !elem_of_dom.
Qed.

Lemma create_calls_inv (T : gmap pykey pydict) (k : pykey) (c : call) :
  c ∈ create_calls T k →
  ∃ task body, c = Insert body ∧ T !! k = Some task ∧ task_to_event task = Ok body.
Proof.
  unfold create_calls.
  destruct (T !! k) as [task|] eqn:HT; [|by intros ?%elem_of_nil].
  destruct (task_to_event task) as [body|] eqn:Hbody; [|by intros ?%elem_of_nil].
  intros ->%list_elem_of_singleton. by exists task, body.
Qed.

Lemma delete_calls_inv (E : gmap pykey pydict) (k : pykey) (c : call) :
  c ∈ delete_calls E k →
  ∃ event id, c = Delete id ∧ E !! k = Some event ∧ event !! "event_id" = Some id.
Proof.
  unfold delete_calls, dict_get.
  destruct (E !! k) as [event|] eqn:HE; [|by intros ?%elem_of_nil].
  destruct (event !! "event_id") as [id|] eqn:Hid; [|by intros ?%elem_of_nil].
  destruct (event !! "subject") eqn:Hsubject; [|by intros ?%elem_of_nil].
  intros ->%list_elem_of_singleton. by exists event, id.
Qed.

Lemma update_calls_inv (T E : gmap pykey pydict) (k : pykey) (c : call) :
  c ∈ update_calls T E k →
  ∃ task event a b id body,
    c = Update id body ∧ T !! k = Some task ∧ E !! k = Some event
    ∧ task !! "last_edited_time" = Some a ∧ event !! "last_edited_time" = Some b
    ∧ py_eq a b = false
    ∧ task_to_event task = Ok body ∧ event !! "event_id" = Some id.
Proof.
  unfold update_calls, dict_get.
  destruct (T !! k) as [task|] eqn:HT; [|by intros ?%elem_of_nil].
  destruct (E !! k) as [event|] eqn:HE; [|by intros ?%elem_of_nil].
  destruct (task !! "last_edited_time") as [a|] eqn:Ha; [|by intros ?%elem_of_nil].
  destruct (event !! "last_edited_time") as [b|] eqn:Hb; [|by intros ?%elem_of_nil].
  destruct (py_eq a b) eqn:Hab; [by intros ?%elem_of_nil|].
  destruct (task_to_event task) as [body|] eqn:Hbody; [|by intros ?%elem_of_nil].
  destruct (event !! "event_id") as [id|] eqn:Hid; [|by intros ?%elem_of_nil].
  intros ->%list_elem_of_singleton. by exists task, event, a, b, id, body.
Qed.

(** X14: the calls of a run that returns are the insertions, then the
    deletions, then the updates.  An event is inserted only for a task
    that has no decoded event, with that task's projection; an event is
    deleted only if it was decoded and no task has its key; an event is
    updated only if a task has its key and a different last edited
    time, with that task's projection.  So no event of a task that is
    still open is deleted, and no task that has an event is inserted
    again. *)
Theorem calls_follow_the_classification (T E : gmap pykey pydict) w report w' :
  synchronize_tasks T E w = (Ok report, w') →
  ∃ inserts deletes updates,
    w'.2 = w.2 ++ inserts ++ deletes ++ updates
    ∧ (∀ c, c ∈ inserts →
         ∃ k task body,
           c = Insert body ∧ T !! k = Some task ∧ E !! k = None
           ∧ task_to_event task = Ok body)
    ∧ (∀ c, c ∈ deletes →
         ∃ k event id,
           c = Delete id ∧ E !! k = Some event ∧ T !! k = None
           ∧ event !! "event_id" = Some id)
    ∧ (∀ c, c ∈ updates →
         ∃ k task event a b id body,
           c = Update id body ∧ T !! k = Some task ∧ E !! k = Some event
           ∧ task !! "last_edited_time" = Some a ∧ event !! "last_edited_time" = Some b
           ∧ py_eq a b = false
           ∧ task_to_event task = Ok body ∧ event !! "event_id" = Some id).
Proof using set_order_perm.
  intros Hlog%synchronize_tasks_log.
  eexists _, _, _. split; [exact Hlog|]. split; [|split].
  - intros c (k & Hk & Hc)%elem_of_flat_map.
    apply elem_of_set_order, elem_of_to_create_set in Hk as [_ HE].
    destruct (create_calls_inv T k c Hc) as (task & body & -> & HT & Hbody).
    by exists k, task, body.
  - intros c (k & Hk & Hc)%elem_of_flat_map.
    apply elem_of_set_order, elem_of_to_delete_set in Hk as [_ HT].
    destruct (delete_calls_inv E k c Hc) as (event & id & -> & HE & Hid).
    by exists k, event, id.
  - intros c (k & _ & Hc)%elem_of_flat_map.
    destruct (update_calls_inv T E k c Hc)
      as (task & event & a & b & id & body & -> & HT & HE & Ha & Hb & Hab & Hbody & Hid).
    by exists k, task, event, a, b, id, body.
Qed.

Lemma steps_action_returns action w ids slots w' (k : pykey) :
  steps action w ids slots w' → k ∈ ids →
  ∃ w1 slot w2, action k w1 = (Ok slot, w2).
Proof.
  induction 1 as [w|w w1 w2 k' rest slot slots Hk _ IH].
  - by intros ?%elem_of_nil.
  - intros [->|Hin]%elem_of_cons; [by eexists _, _, _|by apply IH].
Qed.

Lemma in_log_of_key (calls : pykey → list call) (ids : list pykey) (k : pykey) (c : call) :
  k ∈ ids → calls k = [c] → c ∈ flat_map calls ids.
Proof.
  intros Hk Hc. apply elem_of_flat_map. exists k. split; [done|].
  rewrite Hc. by apply list_elem_of_singleton.
Qed.

(** X15: a run that returns has issued the call of every key.  Every
    task without a decoded event projects and its projection was
    inserted; every decoded event without a task was deleted; every
    task whose last edited time differs from its event's projects and
    its event was updated with the projection. *)
Theorem every_key_gets_its_call (T E : gmap pykey pydict) w report w' :
  synchronize_tasks T E w = (Ok report, w') →
  ∃ calls,
    w'.2 = w.2 ++ calls
    ∧ (∀ k task, T !! k = Some task → E !! k = None →
         ∃ body, task_to_event task = Ok body ∧ Insert body ∈ calls)
    ∧ (∀ k event, E !! k = Some event → T !! k = None →
         ∃ id, event !! "event_id" = Some id ∧ Delete id ∈ calls)
    ∧ (∀ k task event a b,
         T !! k = Some task → E !! k = Some event →
         task !! "last_edited_time" = Some a → event !! "last_edited_time" = Some b →
         py_eq a b = false →
         ∃ id body,
           event !! "event_id" = Some id ∧ task_to_event task = Ok body
           ∧ Update id body ∈ calls).
Proof using set_order_perm.
  intros Hrun. pose proof (synchronize_tasks_log _ _ _ _ _ Hrun) as Hlog.
  apply synchronize_tasks_inv in Hrun as (ce & de & ue & w1 & w2 & _ & Hc & Hd & Hu).
  eexists. split; [exact Hlog|]. split; [|split].
  - intros k task HT HE.
    assert (Hk : k ∈ set_order (to_create_set T E)).
    { apply elem_of_set_order, elem_of_to_create_set. by split; [eexists|]. }
    destruct (steps_action_returns _ _ _ _ _ k Hc Hk) as (wa & slot & wb & Haction).
    unfold create_action, to_create, mapping_get, M_bind, M_lift in Haction.
    rewrite HT in Haction.
    destruct (task_to_event task) as [body|] eqn:Hbody; [|discriminate].
    exists body. split; [done|]. rewrite !elem_of_app. left.
    apply (in_log_of_key _ _ k); [done|]. unfold create_calls. by rewrite HT, Hbody.
  - intros k event HE HT.
    assert (Hk : k ∈ set_order (to_delete_set T E)).
    { apply elem_of_set_order, elem_of_to_delete_set. by split; [eexists|]. }
    destruct (steps_action_returns _ _ _ _ _ k Hd Hk) as (wa & slot & wb & Haction).
    unfold delete_action, to_delete, mapping_get, M_bind, M_lift in Haction.
    rewrite HE in Haction.
    destruct (dict_get event "event_id") as [id|] eqn:Hid; [|discriminate].
    destruct (dict_get event "subject") as [subject|] eqn:Hsubject; [|discriminate].
    exists id. split.
    { unfold dict_get in Hid. destruct (event !! "event_id"); [|discriminate].
      by injection Hid as ->. }
    rewrite !elem_of_app. right. left.
    apply (in_log_of_key _ _ k); [done|]. unfold delete_calls. by rewrite HE, Hid, Hsubject.
  - intros k task event a b HT HE Ha Hb Hab.
    assert (Hk : k ∈ set_order (may_update_set T E)).
    { apply elem_of_set_order, elem_of_may_update_set. by split; eexists. }
    destruct (steps_action_returns _ _ _ _ _ k Hu Hk) as (wa & slot & wb & Haction).
    unfold update_action, may_update, mapping_get, M_bind, M_lift, dict_get in Haction.
    rewrite HT, HE, Ha, Hb, Hab in Haction. cbn [negb] in Haction.
    destruct (task_to_event task) as [body|] eqn:Hbody; [|discriminate].
    destruct (event !! "event_id") as [id|] eqn:Hid; [|discriminate].
    exists id, body. split; [done|]. split; [done|].
    rewrite !elem_of_app. right. right.
    apply (in_log_of_key _ _ k); [done|]. unfold update_calls, dict_get.
    by rewrite HT, HE, Ha, Hb, Hab, Hbody, Hid.
Qed.

(** ** Reconciliation Engine: runs that raise and runs that return *)

Lemma create_action_inserts (T : gmap pykey pydict) (k : pykey) w r w' :
  create_action T k w = (r, w') → ∃ calls, w'.2 = w.2 ++ calls ∧ Forall is_insert calls.
Proof.
  unfold create_action, to_create, mapping_get, M_bind, M_lift.
  destruct (T !! k) as [task|]; [|intros [= _ <-]; exists []; by rewrite app_nil_r].
  destruct (task_to_event task) as [body|];
    [|intros [= _ <-]; exists []; by rewrite app_nil_r].
  unfold issue. destruct (execute (Insert body) w.1). intros [= _ <-].
  exists [Insert body]. split; [done|]. constructor; [by exists body|constructor].
Qed.

Lemma for_each_inserts (T : gmap pykey pydict) ids errs w r w' :
  for_each (create_action T) ids errs w = (r, w') →
  ∃ calls, w'.2 = w.2 ++ calls ∧ Forall is_insert calls.
Proof.
  revert errs w. induction ids as [|k ids IH]; intros errs w; cbn [for_each].
  - intros [= _ <-]. exists []. by rewrite app_nil_r.
  - unfold M_bind. destruct (create_action T k w) as [[slot|e] w1] eqn:Hk.
    + intros (calls' & -> & Hcalls')%IH.
      destruct (create_action_inserts _ _ _ _ _ Hk) as (calls & -> & Hcalls).
      exists (calls ++ calls'). split; [symmetry; apply app_assoc|].
      by apply Forall_app.
    + intros [= _ <-]. by apply (create_action_inserts _ _ _ _ _ Hk).
Qed.

Lemma for_each_raises action (ids : list pykey) (k : pykey) :
  k ∈ ids →
  (∀ w, ∃ error w', action k w = (Raise error, w')) →
  ∀ errs w, ∃ error w', for_each action ids errs w = (Raise error, w').
Proof.
  intros Hin Hk. induction ids as [|k' ids IH]; [by apply elem_of_nil in Hin|].
  intros errs w. cbn [for_each]. unfold M_bind.
  destruct (action k' w) as [[slot|e] w1] eqn:Hk'; [|by eexists _, _].
  apply elem_of_cons in Hin as [->|Hin]; [|by apply IH].
  destruct (Hk w) as (error & w' & Hraise). rewrite Hraise in Hk'. discriminate.
Qed.

(** X16: the projection of a task is outside every [try] block of the
    engine.  If one task that has no decoded event does not project
    (its category is the list that stands for no tag, say), the run
    raises in its first loop: the calls it has issued by then are
    insertions only, no event is deleted or updated, and no report is
    returned. *)
Theorem unprojected_task_aborts_the_run (T E : gmap pykey pydict) (k : pykey)
    (task : pydict) w :
  T !! k = Some task → E !! k = None → is_ok (task_to_event task) = false →
  ∃ error w' calls,
    synchronize_tasks T E w = (Raise error, w')
    ∧ w'.2 = w.2 ++ calls
    ∧ ∀ c, c ∈ calls → ∃ body, c = Insert body.
Proof using set_order_perm.
  intros HT HE Hfails.
  assert (Hk : k ∈ set_order (to_create_set T E)).
  { apply elem_of_set_order, elem_of_to_create_set. by split; [eexists|]. }
  assert (Hraise : ∀ w1, ∃ error w2, create_action T k w1 = (Raise error, w2)).
  { intros w1. unfold create_action, to_create, mapping_get, M_bind, M_lift.
    rewrite HT. destruct (task_to_event task) as [?|error]; [discriminate|].
    by exists error, w1. }
  destruct (for_each_raises _ _ k Hk Hraise [] w) as (error & w' & Hloop).
  destruct (for_each_inserts _ _ _ _ _ _ Hloop) as (calls & Hlog & Hcalls).
  exists error, w', calls. split; [|split; [done|]].
  - unfold synchronize_tasks, M_bind. by rewrite Hloop.
  - intros c Hc. by apply (proj1 (Forall_forall _ _) Hcalls).
Qed.

(** ** Reconciliation Engine: a changed task that has lost its tags *)

Lemma event_description_list_category (task : pydict) (tags : list json) :
  task !! "category" = Some (JArr tags) → ∃ error, event_description task = Raise error.
Proof.
  intros Hcategory. unfold event_description.
  assert (Hraise : (dict_get task "category" ≫= as_str) = Raise TypeError).
  { unfold dict_get. by rewrite Hcategory. }
  peel_bind. peel_bind. rewrite Hraise. by eexists.
Qed.

Lemma task_to_event_list_category (task : pydict) (tags : list json) :
  task !! "category" = Some (JArr tags) → is_ok (task_to_event task) = false.
Proof.
  intros Hcategory. unfold task_to_event.
  destruct (add_30_minutes (event_start task)); [|reflexivity]. rewrite bind_Ok.
  destruct (event_description_list_category task tags Hcategory) as [error ->].
  reflexivity.
Qed.

Lemma update_action_without_projection (T E : gmap pykey pydict) (k : pykey)
    (task event : pydict) (a b : string) w :
  T !! k = Some task → E !! k = Some event →
  task !! "last_edited_time" = Some (JStr a) →
  event !! "last_edited_time" = Some (JStr b) →
  a ≠ b →
  is_ok (task_to_event task) = false →
  ∃ error, update_action T E k w = (Raise error, w).
Proof.
  intros HT HE Ha Hb Hne Hfails.
  unfold update_action, may_update, mapping_get, M_bind, M_lift, dict_get.
  rewrite HT, HE, Ha, Hb. cbn [py_eq]. apply String.eqb_neq in Hne. rewrite Hne.
  cbn [negb]. destruct (task_to_event task) as [?|error]; [discriminate|].
  by exists error.
Qed.

(** C4: change detection compares the two [last_edited_time] strings,
    but the update it decides on is not always issued.  The projection
    of the task is outside the [try] block of [may_update], and a task
    without tags holds the list that stands for "not categorized" where
    the projector appends a string.  For such a task, present in both
    mappings with a different last edited time, the projection raises:
    the key is in the update set, no update is issued for it, and the
    run raises instead of returning its report; over these two mappings
    alone the run issues no call at all. *)
Theorem changed_untagged_task_is_not_updated (T E : gmap pykey pydict) (k : pykey)
    (task event : pydict) (a b : string) (tags : list json) :
  T !! k = Some task → E !! k = Some event →
  task !! "last_edited_time" = Some (JStr a) →
  event !! "last_edited_time" = Some (JStr b) →
  a ≠ b →
  task !! "category" = Some (JArr tags) →
  k ∈ may_update_set T E
  ∧ is_ok (task_to_event task) = false
  ∧ (∀ w, ∃ error, update_action T E k w = (Raise error, w))
  ∧ (∀ w, ∃ error w', synchronize_tasks T E w = (Raise error, w'))
  ∧ ∀ w, ∃ error, synchronize_tasks {[k := task]} {[k := event]} w = (Raise error, w).
Proof using set_order_perm.
  intros HT HE Ha Hb Hne Hcategory.
  pose proof (task_to_event_list_category task tags Hcategory) as Hfails.
  assert (Hk : k ∈ may_update_set T E).
  { apply elem_of_may_update_set. by split; eexists. }
  split; [exact Hk|]. split; [exact Hfails|]. split; [|split].
  - intros w. by apply (update_action_without_projection T E k task event a b).
  - intros w. unfold synchronize_tasks, M_bind.
    destruct (for_each (create_action T) _ [] w) as [[ce|e] w1]; [|by eexists _, _].
    destruct (for_each (delete_action E) _ [] w1) as [[de|e] w2]; [|by eexists _, _].
    destruct (for_each_raises (update_action T E) (set_order (may_update_set T E)) k)
      with (errs := @nil (option string)) (w := w2) as (error & w' & Hloop).
    + by apply elem_of_set_order.
    + intros w0.
      destruct (update_action_without_projection T E k task event a b w0)
        as [error Hraise]; try done.
      by exists error, w0.
    + rewrite Hloop. by eexists _, _.
  - intros w. unfold synchronize_tasks.
    destruct (classify_task_with_event k task event) as (-> & -> & ->).
    rewrite set_order_singleton, set_order_empty. cbn [for_each].
    destruct (update_action_without_projection {[k := task]} {[k := event]} k task event
                a b w) as [error Hraise]; try done; try apply lookup_singleton_eq.
    exists error. unfold M_bind, M_ret. cbn beta iota. by rewrite Hraise.
Qed.

Lemma parse_events_decoded (events : list json) : events_decoded (parse_events events).1.
Proof.
  intros k event (elem & _ & Hparse)%parse_events_provenance.
  destruct (parse_event_inv elem k event Hparse)
    as (eid & summary & body & v0 & v1 & v2 & v3 & d0 & d1 & e & i
        & _ & _ & _ & _ & _ & _ & _ & _ & _ & _ & ->).
  split; [|split]; eexists; lookup_field; reflexivity.
Qed.

(** X17: no event makes the engine raise, and no answer of the calendar
    does.  Over the mapping [parse_events] returns for any list of
    events and any mapping of tasks that project and carry their last
    edited time, the run returns its report with one slot per key in
    each of the three error lists, whatever the service answers to each
    call. *)
Theorem run_over_decoded_events_returns (T : gmap pykey pydict) (events : list json) w :
  tasks_project T →
  ∃ report w',
    synchronize_tasks T (parse_events events).1 w = (Ok report, w')
    ∧ length (error report).1.1 = size (task_ids report).1.1
    ∧ length (error report).1.2 = size (task_ids report).1.2
    ∧ length (error report).2 = size (task_ids report).2.
Proof using set_order_perm.
  intros HT.
  destruct (synchronize_tasks_returns T (parse_events events).1 w HT
              (parse_events_decoded events)) as (report & w' & Hrun).
  exists report, w'. split; [done|].
  apply synchronize_tasks_inv in Hrun as (ce & de & ue & w1 & w2 & -> & Hc & Hd & Hu).
  cbn [error task_ids fst snd].
  rewrite <- !set_order_length.
  by rewrite (steps_length _ _ _ _ _ Hc), (steps_length _ _ _ _ _ Hd),
    (steps_length _ _ _ _ _ Hu).
Qed.

(** X18: creating an event and running again.  For a task whose text
    fields hold no line break, whose description, notes, category and
    assignment date hold no colon, and whose projection's date
    arithmetic returns, the run on an empty calendar
    inserts the task's projection, the calendar's listing of that event
    decodes to the task's own key, and the next run classifies the key
    for update only and issues no call. *)
Theorem created_event_is_left_alone (task : pydict) (id : string) (name : json)
    (d n c a h e i : string) (event_finish start finish : datetime) w :
  task !! "name" = Some name →
  task !! "description" = Some (JStr d) →
  task !! "notes" = Some (JStr n) →
  task !! "category" = Some (JStr c) →
  task !! "assignment_date" = Some (JStr a) →
  task !! "assignment_hour" = Some (JStr h) →
  task !! "last_edited_time" = Some (JStr e) →
  task !! "task_id" = Some (JStr i) →
  Forall (fun s => contains LF s = false) [d; n; c; a; h; e; i] →
  Forall (fun s => contains ":" s = false) [d; n; c; a] →
  i ≠ "" → strip i = i → strip e = e →
  add_30_minutes (event_start task) = Ok event_finish →
  astimezone (event_start task) = Ok start →
  astimezone event_finish = Ok finish →
  ∃ body event,
    synchronize_tasks {[KStr i := task]} ∅ w =
      (Ok {| task_ids := ({[KStr i]}, ∅, ∅);
             error := ([(execute (Insert body) w.1).1], [], []) |},
       ((execute (Insert body) w.1).2, w.2 ++ [Insert body]))
    ∧ parse_events [calendar_event id body] = ({[KStr i := event]}, [])
    ∧ ∀ w', synchronize_tasks {[KStr i := task]} {[KStr i := event]} w' =
              (Ok {| task_ids := (∅, ∅, {[KStr i]}); error := ([], [], [None]) |}, w').
Proof using set_order_perm.
  intros Hname Hd Hn Hc Ha Hh He Hi Hlines Hcolons Hne Hsi Hse Hevent_finish Hstart Hfinish.
  destruct (second_run_is_a_no_op task id name d n c a h e i event_finish start finish)
    as (event & Hevent & Hnoop); try done.
  assert (Hbody : ∃ body, task_to_event task = Ok body).
  { unfold task_to_event. rewrite Hevent_finish, bind_Ok.
    rewrite (event_description_lines task d n c a h e i Hd Hn Hc Ha Hh He Hi), bind_Ok.
    unfold dict_get. rewrite Hname, bind_Ok, Hstart, bind_Ok, Hfinish. by eexists. }
  destruct Hbody as [body Hbody].
  unfold payload_of in Hevent. rewrite Hbody in Hevent.
  exists body, event. split; [by apply synchronize_tasks_creates|]. by split.
Qed.

(** ** The script *)

(** X19: when either read fails, the script stops before any call.  If
    the answer of the task store has no [results], or if listing the
    calendar raised (its handler prints and [read_events] returns
    [None]) or gave something that is not a dict, the script raises and
    the calendar is left as it was. *)
Theorem failed_read_issues_no_call (db_json : json) (listing : result json) w :
  is_ok (getitem db_json "results") = false ∨ (∀ kv, listing ≠ Ok (JObj kv)) →
  ∃ error, main db_json listing w = (Raise error, w).
Proof.
  intros Hfail. unfold main, M_bind, M_lift.
  destruct (parse_tasks_in_database db_json) as [tasks|error] eqn:Htasks;
    [|by exists error].
  destruct Hfail as [Hdb|Hlisting].
  - unfold parse_tasks_in_database in Htasks.
    destruct (getitem db_json "results"); [discriminate|]. discriminate.
  - assert (Hnone : read_events listing = JNull).
    { destruct listing as [[| | | | |kv]|]; try reflexivity. by destruct (Hlisting kv). }
    rewrite Hnone. by exists TypeError.
Qed.


End Sync.

(** ** Closed instances

    The statements above at the sample records, with the library taken
    as [decimal], [written_zone], [written_datetime], [new_year] and
    [keep_instant], the service as [accepting], and sets visited in the
    order of [elements]. *)

Lemma synchronize_tasks_partition_witness :
  let report := {| task_ids := (∅, ∅, {[KStr "abc"]}); error := ([], [], [None]) |} in
  let payload := with_library payload_of (task_of report_record) in
  with_order synchronize_tasks report_tasks stale_events ((), [])
    = (Ok report, ((), [Update (JStr "e1") payload]))
  ∧ task_ids report = (to_create_set report_tasks stale_events,
                       to_delete_set report_tasks stale_events,
                       may_update_set report_tasks stale_events).
Proof.
  intros report payload.
  assert (Hrun : with_order synchronize_tasks report_tasks stale_events ((), [])
                 = (Ok report, ((), [Update (JStr "e1") payload]))) by reflexivity.
  split; [exact Hrun|].
  destruct (with_order synchronize_tasks_partition (fun X => Permutation_refl _)
              report_tasks stale_events)
    as (_ & _ & _ & _ & _ & _ & _ & _ & Hids & _).
  exact (Hids _ _ _ Hrun).
Defined.

Lemma parse_events_keeps_last_witness :
  let older :=
    listed_event "e1" (plain_body "Quarterly numbers" "2024-04-30T09:00:00.000Z" "abc") in
  let newer :=
    listed_event "e2" (plain_body "Quarterly numbers" "2024-05-01T10:00:00.000Z" "abc") in
  (parse_events [older; newer]).1 !! KStr "abc" = Some (event_of (parse_events [newer]).1)
  ∧ ∀ error, (older, error) ∉ (parse_events [older; newer]).2.
Proof.
  intros older newer.
  destruct (parse_events_keeps_last [older; newer]) as (_ & _ & Hlast).
  eapply (Hlast older newer []); reflexivity.
Defined.

Lemma closed_records_excluded_witness :
  parse_tasks_step (∅, []) completed_record = Ok (∅, [])
  ∧ ∃ results,
      (getitem (database [report_record; completed_record]) "results" ≫= py_iter) = Ok results
      ∧ from_open_record results (KStr "abc") (task_of report_record).
Proof.
  destruct closed_records_excluded as [Hstep Hfrom]. split.
  - apply (Hstep completed_record "Completed"); [reflexivity | constructor].
  - apply (Hfrom (database [report_record; completed_record]) report_tasks []);
      reflexivity.
Defined.

Lemma null_assignment_date_is_an_error_witness :
  let db := database [report_record; undated_record; unstarted_record; completed_record] in
  let errs := [(undated_record, TypeError); (unstarted_record, AttributeError)] in
  getpath undated_record ["properties"; "Assignment Date"; "date"] = Ok JNull
  ∧ getpath unstarted_record ["properties"; "Assignment Date"; "date"; "start"] = Ok JNull
  ∧ parse_tasks_in_database db = Ok (report_tasks, errs)
  ∧ (∃ error,
       parse_task undated_record = Raise error
       ∧ (undated_record, error) ∈ errs
       ∧ ∀ k, report_tasks !! k
              = last_parsed k [report_record; unstarted_record; completed_record])
  ∧ (∃ error,
       parse_task unstarted_record = Raise error
       ∧ (unstarted_record, error) ∈ errs
       ∧ ∀ k, report_tasks !! k
              = last_parsed k [report_record; undated_record; completed_record]).
Proof.
  intros db errs.
  assert (Hdb : parse_tasks_in_database db = Ok (report_tasks, errs)) by reflexivity.
  split; [reflexivity|]. split; [reflexivity|]. split; [exact Hdb|]. split.
  - destruct (null_assignment_date_is_an_error db [report_record]
                [unstarted_record; completed_record] undated_record (JStr "In progress")
                eq_refl eq_refl eq_refl (or_introl eq_refl))
      as (_ & error & Hraise & Hreturned & _).
    destruct (Hreturned report_tasks errs Hdb) as (_ & Hin & Hmap & _).
    exists error. split; [exact Hraise|]. split; [exact Hin|exact Hmap].
  - destruct (null_assignment_date_is_an_error db [report_record; undated_record]
                [completed_record] unstarted_record (JStr "In progress")
                eq_refl eq_refl eq_refl (or_intror eq_refl))
      as (_ & error & Hraise & Hreturned & _).
    destruct (Hreturned report_tasks errs Hdb) as (_ & Hin & Hmap & _).
    exists error. split; [exact Hraise|]. split; [exact Hin|exact Hmap].
Defined.

(** C4 at a task that has lost its tags since its event was created: the
    update the changed last edited time calls for is not issued, the run
    raises [TypeError] and the calendar is left as it was. *)
Lemma changed_untagged_task_is_not_updated_witness :
  task_of untagged_record !! "category" = Some (JArr [JStr "Not categorized!"])
  ∧ task_of untagged_record !! "last_edited_time" = Some (JStr "2024-05-01T10:00:00.000Z")
  ∧ event_of stale_events !! "last_edited_time" = Some (JStr "2024-04-30T09:00:00.000Z")
  ∧ with_order synchronize_tasks untagged_tasks stale_events ((), [])
    = (Raise TypeError, ((), []))
  ∧ KStr "abc" ∈ may_update_set untagged_tasks stale_events
  ∧ ∀ w, ∃ error w',
      with_order synchronize_tasks untagged_tasks stale_events w = (Raise error, w').
Proof.
  split; [reflexivity|]. split; [reflexivity|]. split; [reflexivity|].
  split; [reflexivity|].
  destruct (with_order changed_untagged_task_is_not_updated (fun X => Permutation_refl _)
              untagged_tasks stale_events (KStr "abc") (task_of untagged_record)
              (event_of stale_events) "2024-05-01T10:00:00.000Z" "2024-04-30T09:00:00.000Z"
              [JStr "Not categorized!"] eq_refl eq_refl eq_refl eq_refl
              ltac:(discriminate) eq_refl) as (Hk & _ & _ & Hrun & _).
  split; [exact Hk|exact Hrun].
Defined.

Lemma may_update_compares_last_edited_time_witness :
  let task := task_of report_record in
  let payload := with_library payload_of task in
  (report_tasks !! KStr "abc" = Some task
   ∧ stale_events !! KStr "abc" = Some (event_of stale_events)
   ∧ task !! "last_edited_time" = Some (JStr "2024-05-01T10:00:00.000Z")
   ∧ event_of stale_events !! "last_edited_time" = Some (JStr "2024-04-30T09:00:00.000Z")
   ∧ with_service may_update task (event_of stale_events) ((), [])
     = (Ok None, ((), [Update (JStr "e1") payload])))
  ∧ (current_events !! KStr "abc" = Some (event_of current_events)
     ∧ event_of current_events !! "last_edited_time" = Some (JStr "2024-05-01T10:00:00.000Z")
     ∧ with_service may_update task (event_of current_events) ((), [])
       = (Ok None, ((), []))).
Proof.
  intros task payload. split.
  - repeat (split; [reflexivity|]).
    destruct (with_order may_update_compares_last_edited_time (fun X => Permutation_refl _)
                report_tasks stale_events (KStr "abc") task (event_of stale_events)
                "2024-05-01T10:00:00.000Z" "2024-04-30T09:00:00.000Z"
                eq_refl eq_refl eq_refl eq_refl)
      as (_ & _ & _ & _ & _ & Hchanged & _).
    destruct (Hchanged ltac:(discriminate) payload (JStr "e1") eq_refl eq_refl)
      as [_ Hcall].
    rewrite (Hcall ((), [])). reflexivity.
  - repeat (split; [reflexivity|]).
    destruct (with_order may_update_compares_last_edited_time (fun X => Permutation_refl _)
                report_tasks current_events (KStr "abc") task (event_of current_events)
                "2024-05-01T10:00:00.000Z" "2024-05-01T10:00:00.000Z"
                eq_refl eq_refl eq_refl eq_refl)
      as (_ & _ & _ & _ & Hsame & _).
    exact (proj2 (Hsame eq_refl) ((), [])).
Defined.

(** C6, as the claim states it, fails here: the task and the event carry
    the same [last_edited_time], the run issues no call, and yet the
    update error list has a slot. *)
Lemma unchanged_task_still_gets_a_slot :
  task_of report_record !! "last_edited_time"
    = event_of current_events !! "last_edited_time"
  ∧ with_order synchronize_tasks report_tasks current_events ((), [])
    = (Ok {| task_ids := (∅, ∅, {[KStr "abc"]}); error := ([], [], [None]) |}, ((), [])).
Proof. split; reflexivity. Qed.

Lemma may_update_err_has_a_slot_per_key_witness :
  let report := {| task_ids := (∅, ∅, {[KStr "abc"]}); error := ([], [], [None]) |} in
  with_order synchronize_tasks report_tasks current_events ((), []) = (Ok report, ((), []))
  ∧ length (error report).2 = size (may_update_set report_tasks current_events).
Proof.
  intros report.
  assert (Hrun : with_order synchronize_tasks report_tasks current_events ((), [])
                 = (Ok report, ((), []))) by reflexivity.
  split; [exact Hrun|].
  exact (proj1 (with_order may_update_err_has_a_slot_per_key (fun X => Permutation_refl _)
                  report_tasks current_events ((), []) report ((), []) Hrun)).
Defined.

Lemma second_run_creates_two_line_task_again_witness :
  let payload := with_library payload_of (task_of two_line_record) in
  parse_events [calendar_event "e1" payload]
    = (∅, [(calendar_event "e1" payload, IndexError)])
  ∧ with_order synchronize_tasks two_line_tasks
      (parse_events [calendar_event "e1" payload]).1 ((), [])
    = (Ok {| task_ids := ({[KStr "abc"]}, ∅, ∅); error := ([None], [], []) |},
       ((), [Insert payload])).
Proof.
  intros payload.
  destruct (with_order second_run_creates_two_line_task_again (fun X => Permutation_refl _)
              payload eq_refl) as (_ & Hfirst & Hsecond).
  destruct (Hsecond "e1") as (Hparse & _ & _).
  split; [exact Hparse|].
  fold payload in Hparse. rewrite Hparse. exact (Hfirst ((), [])).
Defined.

(** C2, as the claim states it, fails here.  No field of the task holds a
    colon, so every line of the body is decoded in full: the task's
    assignment date is "2024-05-01", and the date decoded from its
    projected payload is the text of the line that carries the date and
    the hour, "2024-05-01 - 100000". *)
Lemma assignment_date_is_not_recovered :
  let task := task_of basic_record in
  let payload := with_library payload_of task in
  parse_task basic_record = Ok (KStr "abc", task)
  ∧ with_library task_to_event task = Ok payload
  ∧ ∃ event,
      parse_events [calendar_event "e1" payload] = ({[KStr "abc" := event]}, [])
      ∧ task !! "assignment_date" = Some (JStr "2024-05-01")
      ∧ task !! "assignment_hour" = Some (JStr "100000")
      ∧ event !! "assignment_date" = Some (JStr "2024-05-01 - 100000")
      ∧ event !! "assignment_date" ≠ task !! "assignment_date".
Proof.
  intros task payload. split; [reflexivity|]. split; [reflexivity|].
  eexists. split; [reflexivity|].
  assert (Htask : task !! "assignment_date" = Some (JStr "2024-05-01")) by reflexivity.
  split; [exact Htask|]. split; [reflexivity|]. rewrite Htask.
  split; [reflexivity|]. discriminate.
Qed.

Lemma projected_task_decodes_witness :
  ∃ payload event,
    with_library task_to_event (task_of report_record) = Ok payload
    ∧ parse_event (calendar_event "e1" payload) = Ok (KStr (strip "abc"), event)
    ∧ parse_events [calendar_event "e1" payload] = ({[KStr (strip "abc") := event]}, [])
    ∧ event !! "task_id" = Some (JStr (strip "abc"))
    ∧ event !! "last_edited_time" = Some (JStr (strip "2024-05-01T10:00:00.000Z"))
    ∧ event !! "description" = Some (JStr (strip "Quarterly numbers"))
    ∧ event !! "notes" = Some (JStr (strip "Notes are empty!"))
    ∧ event !! "category" = Some (JStr (strip "Work, Urgent"))
    ∧ ∃ joined, event !! "assignment_date" = Some (JStr joined) ∧ joined ≠ "2024-05-01".
Proof.
  eapply (with_library projected_task_decodes (task_of report_record) "e1"
            (JStr "Write report")
            "Quarterly numbers" "Notes are empty!" "Work, Urgent" "2024-05-01" "10:00:00"
            "2024-05-01T10:00:00.000Z" "abc");
    try reflexivity.
  - repeat constructor.
  - repeat constructor.
  - vm_compute. discriminate.
Defined.

(** ** Closed instances of the further properties *)

Lemma parse_events_entries_are_decoded_witness :
  let events :=
    [listed_event "e1" (plain_body "Quarterly numbers" "2024-05-01T10:00:00.000Z" "abc")] in
  (parse_events events).1 !! KStr "abc" = Some (event_of current_events)
  ∧ dom (event_of current_events) = event_fields.
Proof.
  intros events.
  assert (H : (parse_events events).1 !! KStr "abc" = Some (event_of current_events))
    by reflexivity.
  split; [exact H|].
  exact (proj1 (parse_events_entries_are_decoded events _ _ H)).
Defined.

Lemma undecodable_event_is_reported_witness :
  getitem handmade_event "description" = Raise KeyError
  ∧ ∃ error,
      parse_event handmade_event = Raise error
      ∧ (handmade_event, error) ∈ (parse_events [handmade_event]).2
      ∧ ∀ k tmp, (parse_events [handmade_event]).1 !! k = Some tmp →
                 parse_event handmade_event ≠ Ok (k, tmp).
Proof.
  split; [reflexivity|].
  apply (undecodable_event_is_reported [handmade_event] handmade_event).
  - constructor.
  - left. intros body. discriminate.
Defined.

Lemma parsed_tasks_are_normalized_witness :
  parse_tasks_in_database (database [report_record; completed_record])
    = Ok (report_tasks, [])
  ∧ dom (task_of report_record) = task_fields
  ∧ ∃ id, task_of report_record !! "task_id" = Some id ∧ key_of id = Ok (KStr "abc").
Proof.
  assert (H : parse_tasks_in_database (database [report_record; completed_record])
              = Ok (report_tasks, [])) by reflexivity.
  split; [exact H|].
  destruct (parsed_tasks_are_normalized _ _ _ (KStr "abc") (task_of report_record) H eq_refl)
    as (Hdom & Hid & _).
  by split.
Defined.

Lemma text_fields_take_first_fragment_witness :
  parse_task report_record = Ok (KStr "abc", task_of report_record)
  ∧ ∃ fragments v,
      getpath report_record ["properties"; "Notes"; "rich_text"] = Ok fragments
      ∧ task_of report_record !! "notes" = Some v
      ∧ (truthy fragments = false → v = JStr "Notes are empty!")
      ∧ ∀ first rest,
          fragments = JArr (first :: rest) → getitem first "plain_text" = Ok v.
Proof.
  split; [reflexivity|].
  apply (text_fields_take_first_fragment report_record (KStr "abc") (task_of report_record)
           eq_refl "Notes" "rich_text" "notes" "Notes are empty!").
  do 2 right. left.
Defined.

Lemma due_date_decoding_witness :
  parse_task report_record = Ok (KStr "abc", task_of report_record)
  ∧ task_of report_record !! "due_date" = Some (JStr "2024-05-03")
  ∧ task_of report_record !! "due_hour" = Some (JStr "12:00:00")
  ∧ ∃ z, task_of report_record !! "user_time_zone" = Some (JStr z) ∧ z ≠ "".
Proof.
  split; [reflexivity|].
  destruct (due_date_decoding report_record (KStr "abc") (task_of report_record)
              (JStr "2024-05-03") eq_refl eq_refl) as (Hdate & _ & _).
  exact (Hdate "2024-05-03" eq_refl eq_refl).
Defined.

Lemma assignment_date_decoding_witness :
  parse_task report_record = Ok (KStr "abc", task_of report_record)
  ∧ ∃ s,
      getpath report_record ["properties"; "Assignment Date"; "date"; "start"]
        = Ok (JStr s)
      ∧ (∀ d t, py_split "T" s = [d; t] →
           contains "+" t = true
           ∧ task_of report_record !! "assignment_hour" = Some (JStr (before "." t))
           ∧ (getpath report_record ["properties"; "Due Date"; "date"; "start"] ≠ Ok JNull →
              task_of report_record !! "assignment_date" = Some (JStr d)))
      ∧ (contains "T" s = false →
           task_of report_record !! "assignment_hour" = Some (JStr "00:00")
           ∧ (getpath report_record ["properties"; "Due Date"; "date"; "start"] ≠ Ok JNull →
              task_of report_record !! "assignment_date" = Some (JStr s))).
Proof.
  split; [reflexivity|].
  exact (assignment_date_decoding report_record (KStr "abc") (task_of report_record) eq_refl).
Defined.

Lemma time_without_plus_is_an_error_witness :
  getpath west_record ["properties"; "Assignment Date"; "date"; "start"]
    = Ok (JStr "2024-05-01T10:00:00.000-05:00")
  ∧ ∃ error, parse_task west_record = Raise error.
Proof.
  split; [reflexivity|].
  apply (time_without_plus_is_an_error west_record "Assignment Date"
           "2024-05-01T10:00:00.000-05:00" "2024-05-01" "10:00:00.000-05:00");
    [constructor | reflexivity..].
Defined.

Lemma empty_due_date_is_an_error_witness :
  getpath dueless_record ["properties"; "Due Date"; "date"] = Ok JNull
  ∧ ∃ error, parse_task dueless_record = Raise error.
Proof.
  split; [reflexivity|]. by apply (empty_due_date_is_an_error dueless_record).
Defined.

Lemma parse_tasks_keeps_last_and_reports_witness :
  let results := [report_record; completed_record; undated_record] in
  parse_tasks_in_database (database results) = Ok (report_tasks, [(undated_record, TypeError)])
  ∧ [(undated_record, TypeError)] = task_failures results
  ∧ ∀ k, report_tasks !! k = last_parsed k results.
Proof.
  intros results.
  assert (H : parse_tasks_in_database (database results)
              = Ok (report_tasks, [(undated_record, TypeError)])) by reflexivity.
  split; [exact H|].
  destruct (parse_tasks_keeps_last_and_reports (database results) results _ _ eq_refl H)
    as (Herr & Hmap & _).
  by split.
Defined.

Lemma parse_tasks_returns_iff_handlers_find_url_witness :
  handler_runs bare_record = true
  ∧ is_ok (getitem bare_record "url") = false
  ∧ is_ok (parse_tasks_in_database (database [report_record; bare_record])) = false.
Proof.
  split; [reflexivity|]. split; [reflexivity|].
  apply not_true_is_false. intros H.
  apply (parse_tasks_returns_iff_handlers_find_url
           (database [report_record; bare_record]) [report_record; bare_record] eq_refl) in H.
  apply Forall_cons in H as [_ H]. apply Forall_cons in H as [H _].
  discriminate (H eq_refl).
Defined.

Lemma str_to_date_accepts_witness :
  ∃ d h z,
    JStr "2024-05-03" = JStr d ∧ JStr "12:00:00" = JStr h ∧ JStr "00:00" = JStr z
    ∧ (3 ≤ length (py_split "-" d))%nat
    ∧ (3 ≤ length (py_split ":" h))%nat
    ∧ length (py_split ":" z) = 2%nat
    ∧ Forall (fun part => is_ok (decimal part) = true)
        (py_split "-" d ++ py_split ":" h ++ py_split ":" z).
Proof.
  eapply (str_to_date_accepts decimal (Z * Z)%type written_zone written_datetime
            (JStr "2024-05-03") (JStr "12:00:00") (JStr "00:00")).
  reflexivity.
Defined.

Lemma undated_task_starts_now_witness :
  parse_task open_ended_record = Ok (KStr "abc", task_of open_ended_record)
  ∧ task_of open_ended_record !! "due_date" = Some (JStr "2024-04-30")
  ∧ task_of open_ended_record !! "user_time_zone" = Some (JStr "")
  ∧ event_start decimal (Z * Z)%type written_zone written_datetime new_year
      (task_of open_ended_record) = new_year.
Proof.
  split; [reflexivity|]. split; [reflexivity|].
  exact (undated_task_starts_now decimal (Z * Z)%type written_zone written_datetime new_year
           open_ended_record (KStr "abc") (task_of open_ended_record) "2024-05-01"
           eq_refl eq_refl eq_refl eq_refl).
Defined.

Lemma calls_follow_the_classification_witness :
  let report := {| task_ids := (∅, ∅, {[KStr "abc"]}); error := ([], [], [None]) |} in
  let payload := with_library payload_of (task_of report_record) in
  with_order synchronize_tasks report_tasks stale_events ((), [])
    = (Ok report, ((), [Update (JStr "e1") payload]))
  ∧ ∃ inserts deletes updates,
      [Update (JStr "e1") payload] = [] ++ inserts ++ deletes ++ updates
      ∧ (∀ c, c ∈ inserts → is_insert c)
      ∧ (∀ c, c ∈ deletes → ∃ id, c = Delete id)
      ∧ (∀ c, c ∈ updates → ∃ id body, c = Update id body).
Proof.
  intros report payload.
  assert (Hrun : with_order synchronize_tasks report_tasks stale_events ((), [])
                 = (Ok report, ((), [Update (JStr "e1") payload]))) by reflexivity.
  split; [exact Hrun|].
  destruct (with_order calls_follow_the_classification (fun X => Permutation_refl _)
              report_tasks stale_events _ _ _ Hrun)
    as (inserts & deletes & updates & Hlog & Hi & Hd & Hu).
  exists inserts, deletes, updates. split; [exact Hlog|]. split; [|split].
  - intros c Hc. destruct (Hi c Hc) as (_ & _ & body & -> & _). by exists body.
  - intros c Hc. destruct (Hd c Hc) as (_ & _ & id & -> & _). by exists id.
  - intros c Hc. destruct (Hu c Hc) as (_ & _ & _ & _ & _ & id & body & -> & _).
    by exists id, body.
Defined.

Lemma every_key_gets_its_call_witness :
  let report := {| task_ids := (∅, ∅, {[KStr "abc"]}); error := ([], [], [None]) |} in
  let payload := with_library payload_of (task_of report_record) in
  with_order synchronize_tasks report_tasks stale_events ((), [])
    = (Ok report, ((), [Update (JStr "e1") payload]))
  ∧ ∃ calls id body,
      [Update (JStr "e1") payload] = [] ++ calls
      ∧ event_of stale_events !! "event_id" = Some id
      ∧ with_library task_to_event (task_of report_record) = Ok body
      ∧ Update id body ∈ calls.
Proof.
  intros report payload.
  assert (Hrun : with_order synchronize_tasks report_tasks stale_events ((), [])
                 = (Ok report, ((), [Update (JStr "e1") payload]))) by reflexivity.
  split; [exact Hrun|].
  destruct (with_order every_key_gets_its_call (fun X => Permutation_refl _)
              report_tasks stale_events _ _ _ Hrun)
    as (calls & Hlog & _ & _ & Hupdates).
  destruct (Hupdates (KStr "abc") (task_of report_record) (event_of stale_events)
              (JStr "2024-05-01T10:00:00.000Z") (JStr "2024-04-30T09:00:00.000Z")
              eq_refl eq_refl eq_refl eq_refl eq_refl) as (id & body & Hid & Hbody & Hin).
  exists calls, id, body.
  split; [exact Hlog|]. split; [exact Hid|]. split; [exact Hbody|exact Hin].
Defined.

Lemma unprojected_task_aborts_the_run_witness :
  let tasks : gmap pykey pydict := {[KStr "abc" := task_of untagged_record]} in
  is_ok (with_library task_to_event (task_of untagged_record)) = false
  ∧ ∃ error w' calls,
      with_order synchronize_tasks tasks ∅ ((), []) = (Raise error, w')
      ∧ w'.2 = [] ++ calls
      ∧ ∀ c, c ∈ calls → ∃ body, c = Insert body.
Proof.
  intros tasks. split; [reflexivity|].
  exact (with_order unprojected_task_aborts_the_run (fun X => Permutation_refl _)
           tasks ∅ (KStr "abc") (task_of untagged_record) ((), [])
           eq_refl eq_refl eq_refl).
Defined.

Lemma run_over_decoded_events_returns_witness :
  let events :=
    [listed_event "e1" (plain_body "Quarterly numbers" "2024-04-30T09:00:00.000Z" "abc");
     handmade_event] in
  ∃ report w',
    with_order synchronize_tasks report_tasks (parse_events events).1 ((), [])
      = (Ok report, w')
    ∧ length (error report).1.1 = size (task_ids report).1.1
    ∧ length (error report).1.2 = size (task_ids report).1.2
    ∧ length (error report).2 = size (task_ids report).2.
Proof.
  intros events.
  apply (with_order run_over_decoded_events_returns (fun X => Permutation_refl _)
           report_tasks events ((), [])).
  intros k task Hk. unfold report_tasks in Hk.
  apply lookup_singleton_Some in Hk as [<- <-].
  split; [reflexivity|]. eexists. reflexivity.
Defined.

Lemma created_event_is_left_alone_witness :
  ∃ body event,
    with_order synchronize_tasks {[KStr "abc" := task_of report_record]} ∅ ((), [])
      = (Ok {| task_ids := ({[KStr "abc"]}, ∅, ∅); error := ([None], [], []) |},
         ((), [Insert body]))
    ∧ parse_events [calendar_event "e1" body] = ({[KStr "abc" := event]}, [])
    ∧ ∀ w', with_order synchronize_tasks {[KStr "abc" := task_of report_record]}
              {[KStr "abc" := event]} w'
            = (Ok {| task_ids := (∅, ∅, {[KStr "abc"]}); error := ([], [], [None]) |}, w').
Proof.
  eapply (with_order created_event_is_left_alone (fun X => Permutation_refl _)
            (task_of report_record) "e1" (JStr "Write report")
            "Quarterly numbers" "Notes are empty!" "Work, Urgent" "2024-05-01" "10:00:00"
            "2024-05-01T10:00:00.000Z" "abc");
    try reflexivity.
  - repeat constructor.
  - repeat constructor.
  - discriminate.
Defined.

Lemma failed_read_issues_no_call_witness :
  ∃ error,
    with_order main (database [report_record]) (Raise ValueError) ((), [])
    = (Raise error, ((), [])).
Proof.
  apply (with_order failed_read_issues_no_call (database [report_record])
           (Raise ValueError) ((), [])).
  right. intros kv. discriminate.
Defined.

